(** * Node adapter: request normalisation and static / middleware dispatch

    A shallow embedding of
      - [NodeApp] (core/app/node.ts): [createRequest], [makeRequestBody],
        the abort-controller clean-up wiring, [executeMiddlewareOnly];
      - the static handler of the Node integration (serve-static.ts):
        [createStaticHandler], [isPrerenderedHTMLPage],
        [executeMiddlewareForStatic];
      - serve-middleware.ts: [shouldRunMiddleware].

    JavaScript strings that reach this code are header values, methods and
    request targets, which Node decodes as latin1: one character per byte,
    which is what [string] of [ascii] gives. *)

From Stdlib Require Import String Ascii List Bool Arith Lia.
From stdpp Require Import gmap strings list.
Import ListNotations.

Local Open Scope string_scope.
Local Open Scope bool_scope.

(** ** JavaScript string built-ins used by the adapter *)

Module JS.

(** [s.split(c)] for a one-character separator: never returns the empty
    array, [''.split(',')] is [['']]. *)
Fixpoint split (sep : ascii) (s : string) : list string :=
  match s with
  | EmptyString => [EmptyString]
  | String c s' =>
      if Ascii.eqb c sep then EmptyString :: split sep s'
      else match split sep s' with
           | [] => [String c EmptyString]
           | h :: t => String c h :: t
           end
  end.

(** [l.join(sep)]. *)
Fixpoint join (sep : string) (l : list string) : string :=
  match l with
  | [] => EmptyString
  | [x] => x
  | x :: rest => x +:+ sep +:+ join sep rest
  end.

(** White space and line terminators of ECMAScript below U+0100:
    TAB, LF, VT, FF, CR, SPACE and NBSP. *)
Definition isWhiteSpace (c : ascii) : bool :=
  let n := nat_of_ascii c in
  (((9 <=? n) && (n <=? 13)) || (n =? 32) || (n =? 160))%nat.

Fixpoint trimStart (s : string) : string :=
  match s with
  | EmptyString => EmptyString
  | String c s' => if isWhiteSpace c then trimStart s' else s
  end.

Fixpoint trimEnd (s : string) : string :=
  match s with
  | EmptyString => EmptyString
  | String c s' =>
      match trimEnd s' with
      | EmptyString => if isWhiteSpace c then EmptyString else String c EmptyString
      | r => String c r
      end
  end.

Definition trim (s : string) : string := trimEnd (trimStart s).

(** Truthiness of a string: only the empty string is falsy. *)
Definition truthy (s : string) : bool :=
  match s with EmptyString => false | _ => true end.

Definition startsWith (p s : string) : bool := String.prefix p s.

Fixpoint endsWith (suffix s : string) : bool :=
  String.eqb suffix s
  || match s with
     | EmptyString => false
     | String _ s' => endsWith suffix s'
     end.

(** [s.slice(0, -1)]: everything but the last character. *)
Fixpoint dropLast (s : string) : string :=
  match s with
  | EmptyString => EmptyString
  | String c EmptyString => EmptyString
  | String c s' => String c (dropLast s')
  end.

Definition isDigit (c : ascii) : bool :=
  let n := nat_of_ascii c in ((48 <=? n) && (n <=? 57))%nat.

Fixpoint allDigits (s : string) : bool :=
  match s with
  | EmptyString => true
  | String c s' => isDigit c && allDigits s'
  end.

(** ASCII lower-casing, the canonicalisation the [i] flag of a regular
    expression applies to the letters of an ASCII pattern. *)
Definition toLowerAscii (c : ascii) : ascii :=
  let n := nat_of_ascii c in
  if ((65 <=? n) && (n <=? 90))%nat then ascii_of_nat (n + 32) else c.

Fixpoint toLowerCase (s : string) : string :=
  match s with
  | EmptyString => EmptyString
  | String c s' => String (toLowerAscii c) (toLowerCase s')
  end.

(** The text [s] does not contain the character [c]. *)
Fixpoint lacks (c : ascii) (s : string) : bool :=
  match s with
  | EmptyString => true
  | String d s' => negb (Ascii.eqb d c) && lacks c s'
  end.

(** A template literal renders [undefined] as the text "undefined". *)
Definition template (o : option string) : string :=
  match o with Some s => s | None => "undefined" end.

End JS.

(** ** The platform's [URL] constructor

    [new URL(text)] either yields a URL record or throws.  The adapter is
    written against the constructor, so [createRequest] below takes the
    parser as a component of its [Host] environment and the general results
    hold for every parser.  [Url.parse] is a model of the WHATWG basic URL
    parser, without a base URL, on the fragment that concrete requests in
    this development exercise: the http, https, ws, wss and ftp schemes with
    an ASCII domain as host.  Inputs outside that fragment (other schemes,
    bracketed IPv6 literals, percent-escapes or non-ASCII bytes in the host,
    hosts whose last label is a number) are reported as [Unmodelled]. *)

Module Url.

Record URL := mkURL {
  scheme : string;          (* lower-cased, without the colon *)
  host : string;            (* lower-cased ASCII domain *)
  port : option N;
  rest : string             (* path, query and fragment as written *)
}.

Inductive outcome :=
| Parsed (u : URL)
| Failure                   (* the constructor throws a TypeError *)
| Unmodelled.

Definition code (c : ascii) : nat := nat_of_ascii c.

Definition isAlpha (c : ascii) : bool :=
  let n := code (JS.toLowerAscii c) in ((97 <=? n) && (n <=? 122))%nat.

Definition isTabOrNewline (c : ascii) : bool :=
  let n := code c in ((n =? 9) || (n =? 10) || (n =? 13))%nat.

Definition isC0OrSpace (c : ascii) : bool := (code c <=? 32)%nat.

Fixpoint removeTabNewline (s : string) : string :=
  match s with
  | EmptyString => EmptyString
  | String c s' =>
      if isTabOrNewline c then removeTabNewline s' else String c (removeTabNewline s')
  end.

Fixpoint stripLeading (s : string) : string :=
  match s with
  | EmptyString => EmptyString
  | String c s' => if isC0OrSpace c then stripLeading s' else s
  end.

Fixpoint stripTrailing (s : string) : string :=
  match s with
  | EmptyString => EmptyString
  | String c s' =>
      match stripTrailing s' with
      | EmptyString => if isC0OrSpace c then EmptyString else String c EmptyString
      | r => String c r
      end
  end.

(** Scheme state: an ASCII letter, then letters, digits, [+], [-], [.]
    up to the first colon.  Without a base URL anything else fails. *)
Definition isSchemeChar (c : ascii) : bool :=
  isAlpha c || JS.isDigit c
  || Ascii.eqb c "+" || Ascii.eqb c "-" || Ascii.eqb c ".".

Fixpoint schemeTail (s : string) : option (string * string) :=
  match s with
  | EmptyString => None
  | String c s' =>
      if Ascii.eqb c ":" then Some (EmptyString, s')
      else if isSchemeChar c then
        match schemeTail s' with
        | Some (sch, r) => Some (String (JS.toLowerAscii c) sch, r)
        | None => None
        end
      else None
  end.

Definition parseScheme (s : string) : option (string * string) :=
  match s with
  | String c _ => if isAlpha c then schemeTail s else None
  | EmptyString => None
  end.

Definition isSpecial (sch : string) : bool :=
  existsb (String.eqb sch) ["http"; "https"; "ws"; "wss"; "ftp"].

Definition isSlash (c : ascii) : bool := Ascii.eqb c "/" || Ascii.eqb c "\".

(** Special-authority-slashes and special-authority-ignore-slashes
    states: every leading slash or backslash is skipped. *)
Fixpoint skipSlashes (s : string) : string :=
  match s with
  | String c s' => if isSlash c then skipSlashes s' else s
  | EmptyString => EmptyString
  end.

Definition endsAuthority (c : ascii) : bool :=
  isSlash c || Ascii.eqb c "?" || Ascii.eqb c "#".

Fixpoint spanAuthority (s : string) : string * string :=
  match s with
  | EmptyString => (EmptyString, EmptyString)
  | String c s' =>
      if endsAuthority c then (EmptyString, s)
      else let '(a, r) := spanAuthority s' in (String c a, r)
  end.

(** The text after the last [@], and whether an [@] was seen. *)
Fixpoint afterLastAt (s : string) : string * bool :=
  match s with
  | EmptyString => (EmptyString, false)
  | String c s' =>
      let '(r, seen) := afterLastAt s' in
      if seen then (r, true)
      else if Ascii.eqb c "@" then (s', true)
      else (String c r, false)
  end.

(** Host state: the host runs to the first colon. *)
Fixpoint splitHostPort (s : string) : string * option string :=
  match s with
  | EmptyString => (EmptyString, None)
  | String c s' =>
      if Ascii.eqb c ":" then (EmptyString, Some s')
      else let '(h, p) := splitHostPort s' in (String c h, p)
  end.

(** Forbidden domain code points: the forbidden host code points, the C0
    controls, [%] and DEL. *)
Definition isForbiddenDomainChar (c : ascii) : bool :=
  let n := code c in
  ((n <=? 32) || (n =? 127))%nat
  || existsb (Ascii.eqb c)
       ["#"; "/"; ":"; "<"; ">"; "?"; "@"; "["; "\"; "]"; "^"; "|"; "%"]%char.

Fixpoint anyChar (p : ascii -> bool) (s : string) : bool :=
  match s with
  | EmptyString => false
  | String c s' => p c || anyChar p s'
  end.

Definition isNonAscii (c : ascii) : bool := (128 <=? code c)%nat.

Definition lastLabel (h : string) : string :=
  match rev (JS.split "." h) with
  | EmptyString :: l :: _ => l
  | l :: _ => l
  | [] => EmptyString
  end.

(** "Ends in a number": the last label is all digits, or a hexadecimal
    literal.  Such hosts go through the IPv4 parser, which is not
    modelled. *)
Definition endsInNumber (h : string) : bool :=
  let l := lastLabel h in
  (JS.truthy l && JS.allDigits l)
  || String.prefix "0x" (JS.toLowerCase l).

Fixpoint decimal (acc : N) (s : string) : N :=
  match s with
  | EmptyString => acc
  | String c s' => decimal (acc * 10 + N.of_nat (code c - 48))%N s'
  end.

(** Port state: only digits, and at most 65535; an empty port is
    accepted and leaves the port unset. *)
Definition parsePort (p : option string) : option (option N) :=
  match p with
  | None => Some None
  | Some EmptyString => Some None
  | Some digits =>
      if JS.allDigits digits then
        let n := decimal 0%N digits in
        if (n <=? 65535)%N then Some (Some n) else None
      else None
  end.

Definition parseAuthority (sch authority tail : string) : outcome :=
  let '(hostport, sawAt) := afterLastAt authority in
  let '(h, p) := splitHostPort hostport in
  match h with
  | EmptyString => Failure                       (* host-missing *)
  | _ =>
      if anyChar isNonAscii h || anyChar (Ascii.eqb "%") h
         || String.prefix "[" h then Unmodelled
      else if anyChar isForbiddenDomainChar h then Failure
      else if endsInNumber h then Unmodelled
      else match parsePort p with
           | Some pn => Parsed (mkURL sch (JS.toLowerCase h) pn tail)
           | None => Failure
           end
  end.

Definition parse (input : string) : outcome :=
  let s := removeTabNewline (stripTrailing (stripLeading input)) in
  match parseScheme s with
  | None => Failure                              (* no scheme, no base *)
  | Some (sch, r) =>
      if isSpecial sch then
        let '(authority, tail) := spanAuthority (skipSlashes r) in
        parseAuthority sch authority tail
      else Unmodelled
  end.

(** The constructor as the adapter sees it: a URL, or an exception. *)
Definition construct (input : string) : option URL :=
  match parse input with
  | Parsed u => Some u
  | _ => None
  end.

End Url.

(** ** Values shared by the adapter and the dispatcher *)

(** What a [throw] carries: an [Error] object, or any other value, kept by
    the text [String(value)] gives for it. *)
Inductive Thrown :=
| ErrorObject (name message : string)
| OtherValue (rendering : string).

(** [String(err)], which is also what a template literal inserts. *)
Definition renderThrown (e : Thrown) : string :=
  match e with
  | ErrorObject name EmptyString => name
  | ErrorObject EmptyString message => message
  | ErrorObject name message => name +:+ ": " +:+ message
  | OtherValue rendering => rendering
  end.

Inductive Result (A : Type) :=
| Ok (a : A)
| Throw (e : Thrown).
Arguments Ok {A} a.
Arguments Throw {A} e.

(** A value of [req.headers]: [string | string[]]; an absent key is
    [undefined]. *)
Inductive HeaderValue :=
| Single (s : string)
| Multi (l : list string).

(** [Partial<RemotePattern>], an entry of the allow-list. *)
Record RemotePattern := mkRemotePattern {
  rp_protocol : option string;
  rp_hostname : option string;
  rp_port : option string
}.

(** A web-standard [Response].  [immutableHeaders] is the guard of its
    [Headers] object: a response made by [Response.redirect],
    [Response.error] or [fetch] has immutable headers, one made by
    [new Response] has not. *)
Record Response := responseObject {
  status : nat;
  statusText : string;
  resp_headers : list (string * string);
  resp_body : option string;
  immutableHeaders : bool
}.

(** [new Response(body, { status, statusText, headers })]. *)
Definition mkResponse (status : nat) (statusText : string)
    (headers : list (string * string)) (body : option string) : Response :=
  responseObject status statusText headers body false.

(** [new Response(null)]. *)
Definition emptyResponse : Response := mkResponse 200 "" [] None.

(** [response.headers.append(name, value)] on headers that are not
    immutable. *)
Definition appendHeader (name value : string) (r : Response) : Response :=
  responseObject (status r) (statusText r) (resp_headers r ++ [(name, value)])
    (resp_body r) (immutableHeaders r).

(** What [Headers.prototype.append] throws on immutable headers. *)
Definition immutableHeadersError : Thrown := ErrorObject "TypeError" "immutable".

(** The values the response carries under [set-cookie]. *)
Definition setCookies (hs : list (string * string)) : list string :=
  map snd (filter (fun h => String.eqb (JS.toLowerCase (fst h)) "set-cookie") hs).

(** ** core/app/node.ts *)

Module NodeApp.

(** What the adapter reads of a socket.  [has_on], [has_off] and
    [has_removeListener] are the [typeof socket.f === 'function'] tests. *)
Record Socket := mkSocket {
  encrypted : bool;                 (* 'encrypted' in socket && socket.encrypted *)
  remoteAddress : option string;
  has_on : bool;
  has_off : bool;
  has_removeListener : bool
}.

(** [req.body] when it is not [undefined]. *)
Inductive BodyOverride :=
| BodyString (s : string)
| BodyNull
| BodyObject (ownKeys : list string) (json : string) (asyncIterable : bool)
    (* [Object.keys], the text [JSON.stringify] gives, and whether
       [Symbol.asyncIterator] is defined *)
| BodyPrimitive.                    (* number, boolean, bigint, function *)

(** [NodeRequest]: an [IncomingMessage] with an optional [body].
    [createRequest] begins with ['encrypted' in req.socket], which throws
    on a request without socket; a transport request has one. *)
Record NodeRequest := mkNodeRequest {
  method : option string;
  url : option string;
  headers : gmap string HeaderValue;
  socket : Socket;
  http2Socket : option Socket;      (* req.stream?.session?.socket *)
  body : option BodyOverride
}.

Record Options := mkOptions {
  skipBody : bool;
  allowedDomains : list RemotePattern
}.

(** The defaults of the destructured second parameter. *)
Definition defaultOptions : Options := mkOptions false [].

(** What the adapter calls but does not define: the platform's [URL]
    constructor and [App.validateForwardedHost] (core/app/index.ts). *)
Record Host := mkHost {
  newURL : string -> option Url.URL;
  validateForwardedHost : string -> list RemotePattern -> string -> bool
}.

Inductive BodySource :=
| TransportStream                   (* the IncomingMessage itself *)
| OverrideIterable.                 (* req.body, an async iterable *)

Inductive RequestBody :=
| BufferBody (text : string)        (* Buffer.from(text) *)
| StreamBody (src : BodySource).

(** The [body] and [duplex] members of a [RequestInit]. *)
Record BodyProps := mkBodyProps {
  bp_body : RequestBody;
  bp_duplex : option string
}.

(** The normalised request.  [signal] names the abort controller the
    request was created with; [clientAddress] is the value stored under
    [clientAddressSymbol]. *)
Record Request := mkRequest {
  req_url : Url.URL;
  req_method : string;
  req_headers : gmap string string;
  req_body : option RequestBody;
  req_duplex : option string;
  signal : nat;
  clientAddress : option string
}.

Definition toString (v : HeaderValue) : string :=
  match v with
  | Single s => s
  | Multi l => JS.join "," l
  end.

(** [`${hostname}`] for [string | string[] | undefined]. *)
Definition templateHeader (v : option HeaderValue) : string :=
  JS.template (toString <$> v).

(** Parses multiple header and returns first value if available. *)
Definition getFirstForwardedValue (multiValueHeader : option HeaderValue)
  : option string :=
  match multiValueHeader with
  | None => None
  | Some v => head (map JS.trim (JS.split "," (toString v)))
  end.

(** The test [/:\d+$/]: a colon followed by one or more digits, at the
    end of the text. *)
Fixpoint hasPortSuffix (s : string) : bool :=
  match s with
  | EmptyString => false
  | String c s' =>
      (Ascii.eqb c ":" && JS.truthy s' && JS.allDigits s') || hasPortSuffix s'
  end.

Definition getHostnamePort (hostname : option HeaderValue) (port : option string)
  : string :=
  let portInHostname :=
    match hostname with
    | Some (Single h) => hasPortSuffix h
    | _ => false
    end in
  if portInHostname then templateHeader hostname
  else templateHeader hostname +:+
       match port with
       | Some p => if JS.truthy p then ":" +:+ p else ""
       | None => ""
       end.

Definition joinHeaderValue (v : HeaderValue) : option string :=
  match v with
  | Single s => Some s
  | Multi [] => None
  | Multi l => Some (JS.join ", " l)
  end.

(** [headers.append] for every entry; repeated values of one name are
    combined with a comma and a space. *)
Definition makeRequestHeaders (req : NodeRequest) : gmap string string :=
  omap joinHeaderValue (headers req).

Definition asyncIterableToBodyProps (iterable : BodySource) : BodyProps :=
  mkBodyProps (StreamBody iterable) (Some "half").

Definition makeRequestBody (req : NodeRequest) : BodyProps :=
  match body req with
  | Some (BodyString s) =>
      if JS.truthy s then mkBodyProps (BufferBody s) None
      else asyncIterableToBodyProps TransportStream
  | Some (BodyObject keys json iter) =>
      match keys with
      | _ :: _ => mkBodyProps (BufferBody json) None
      | [] =>
          if iter then asyncIterableToBodyProps OverrideIterable
          else asyncIterableToBodyProps TransportStream
      end
  | Some BodyNull | Some BodyPrimitive | None =>
      asyncIterableToBodyProps TransportStream
  end.

Definition getRequestSocket (req : NodeRequest) : option Socket :=
  if has_on (socket req) then Some (socket req)
  else match http2Socket req with
       | Some s => if has_on s then Some s else None
       | None => None
       end.

(** *** Forwarded headers and the request URL *)

Definition forwardedProtocol (req : NodeRequest) : option string :=
  getFirstForwardedValue (headers req !! "x-forwarded-proto").

Definition providedProtocol (req : NodeRequest) : string :=
  if encrypted (socket req) then "https" else "http".

Definition protocol (req : NodeRequest) : string :=
  default (providedProtocol req) (forwardedProtocol req).

Definition providedHostname (req : NodeRequest) : option HeaderValue :=
  match headers req !! "host" with
  | Some h => Some h
  | None => headers req !! ":authority"
  end.

(** [forwardedHostname] after the validation step: a non-empty value the
    policy rejects is set to [undefined]; an empty value is not offered
    to the policy. *)
Definition forwardedHostname (H : Host) (req : NodeRequest)
    (allowed : list RemotePattern) : option string :=
  match getFirstForwardedValue (headers req !! "x-forwarded-host") with
  | Some fh =>
      if JS.truthy fh && negb (validateForwardedHost H fh allowed (protocol req))
      then None
      else Some fh
  | None => None
  end.

(** [forwardedHostname ?? providedHostname]. *)
Definition hostname (H : Host) (req : NodeRequest)
    (allowed : list RemotePattern) : option HeaderValue :=
  match forwardedHostname H req allowed with
  | Some fh => Some (Single fh)
  | None => providedHostname req
  end.

Definition forwardedPort (req : NodeRequest) : option string :=
  getFirstForwardedValue (headers req !! "x-forwarded-port").

(** The text of the first attempt, inside [try]. *)
Definition primaryURLText (H : Host) (req : NodeRequest)
    (allowed : list RemotePattern) : string :=
  protocol req +:+ "://"
  +:+ getHostnamePort (hostname H req allowed) (forwardedPort req)
  +:+ JS.template (url req).

(** The text of the second attempt, inside [catch]. *)
Definition fallbackURLText (req : NodeRequest) : string :=
  providedProtocol req +:+ "://"
  +:+ getHostnamePort (providedHostname req) (forwardedPort req).

Definition invalidURL : Thrown := ErrorObject "TypeError" "Invalid URL".

Definition resolveURL (H : Host) (req : NodeRequest)
    (allowed : list RemotePattern) : Result Url.URL :=
  match newURL H (primaryURLText H req allowed) with
  | Some u => Ok u
  | None =>
      match newURL H (fallbackURLText req) with
      | Some u => Ok u
      | None => Throw invalidURL
      end
  end.

(** [req.method || 'GET']. *)
Definition requestMethod (req : NodeRequest) : string :=
  match method req with
  | Some m => if JS.truthy m then m else "GET"
  | None => "GET"
  end.

Definition bodyAllowed (req : NodeRequest) (opts : Options) : bool :=
  negb (String.eqb (requestMethod req) "HEAD")
  && negb (String.eqb (requestMethod req) "GET")
  && negb (skipBody opts).

(** [forwardedClientIp || req.socket?.remoteAddress], kept when truthy. *)
Definition clientIp (req : NodeRequest) : option string :=
  let candidate :=
    match getFirstForwardedValue (headers req !! "x-forwarded-for") with
    | Some ip => if JS.truthy ip then Some ip else remoteAddress (socket req)
    | None => remoteAddress (socket req)
    end in
  match candidate with
  | Some ip => if JS.truthy ip then Some ip else None
  | None => None
  end.

(** *** Cancellation wiring

    The mutable state one transport request object reaches: the abort
    controllers allocated for it, the [close] listeners of the socket
    [getRequestSocket] selects, that socket's [destroyed] flag, and the
    property [nodeRequestAbortControllerCleanupSymbol] of the request.

    A controller is named by its position in [ctrls]; the closures
    [cleanup] and [onSocketClose] of one call are named by the controller
    of that call.  [cleanupRuns] and [abortFires] are counters the model
    adds: how often the body of [cleanup] ran past its guard, and how
    often the [abort] event was dispatched. *)

Record Ctrl := mkCtrl {
  wired : bool;               (* the call found a socket with [on] *)
  cleanedUp : bool;
  aborted : bool;             (* controller.signal.aborted *)
  abortListener : bool;       (* [cleanup] is registered for 'abort' *)
  canUnsubscribe : bool;      (* the socket has [off] or [removeListener] *)
  cleanupRuns : nat;
  abortFires : nat
}.

Record World := mkWorld {
  ctrls : list Ctrl;
  closeListeners : list nat;  (* in registration order *)
  cleanupSlot : option nat;
  destroyed : bool
}.

Definition emptyWorld : World := mkWorld [] [] None false.

(** [emitter.off(event, f)] removes the most recently added [f]. *)
Fixpoint removeFirst (x : nat) (l : list nat) : list nat :=
  match l with
  | [] => []
  | y :: t => if Nat.eqb x y then t else y :: removeFirst x t
  end.

Definition removeListener (x : nat) (l : list nat) : list nat :=
  rev (removeFirst x (rev l)).

Definition removeSocketListener (c : Ctrl) (cid : nat) (l : list nat) : list nat :=
  if canUnsubscribe c then removeListener cid l else l.

Definition cleanup (cid : nat) (w : World) : World :=
  match ctrls w !! cid with
  | None => w
  | Some c =>
      if negb (wired c) || cleanedUp c then w
      else
        mkWorld
          (<[cid := mkCtrl true true (aborted c) false (canUnsubscribe c)
                      (S (cleanupRuns c)) (abortFires c)]> (ctrls w))
          (removeSocketListener c cid (closeListeners w))
          None
          (destroyed w)
  end.

(** [controller.abort()]: sets [aborted], dispatches 'abort' to the
    listener registered with [once], if it is still there.  Aborting an
    aborted controller does nothing. *)
Definition abort (cid : nat) (w : World) : World :=
  match ctrls w !! cid with
  | None => w
  | Some c =>
      if aborted c then w
      else
        let w' :=
          mkWorld
            (<[cid := mkCtrl (wired c) (cleanedUp c) true false (canUnsubscribe c)
                        (cleanupRuns c) (S (abortFires c))]> (ctrls w))
            (closeListeners w) (cleanupSlot w) (destroyed w) in
        if abortListener c then cleanup cid w' else w'
  end.

Definition isAborted (cid : nat) (w : World) : bool :=
  match ctrls w !! cid with
  | Some c => aborted c
  | None => false
  end.

Definition onSocketClose (cid : nat) (w : World) : World :=
  let w' := cleanup cid w in
  if isAborted cid w' then w' else abort cid w'.

(** [socket.emit('close')]: the listeners registered when the event is
    emitted are called in order. *)
Definition emitClose (w : World) : World :=
  fold_left (fun acc cid => onSocketClose cid acc) (closeListeners w) w.

(** The connection closes: the socket is marked destroyed and emits
    [close]. *)
Definition socketClose (w : World) : World :=
  emitClose (mkWorld (ctrls w) (closeListeners w) (cleanupSlot w) true).

(** The connection closes while a response holds the clean-up of call
    [held] ([runCleanup] of [writeResponse], registered for [close] of the
    destination).  The destination emits its [close] from a listener of
    the socket that was registered before any [onSocketClose], so
    [runCleanup] runs first; the listeners that were registered when the
    emit began are still called after it, also those removed meanwhile. *)
Definition closeWhileHeld (held : nat) (w : World) : World :=
  let listeners := closeListeners w in
  fold_left (fun acc cid => onSocketClose cid acc) listeners
    (cleanup held (mkWorld (ctrls w) (closeListeners w) (cleanupSlot w) true)).

(** The wiring block of [createRequest].  Returns the controller of this
    call. *)
Definition wire (sock : option Socket) (w : World) : nat * World :=
  let cid := length (ctrls w) in
  match sock with
  | None =>
      (cid, mkWorld (ctrls w ++ [mkCtrl false false false false false 0 0])
              (closeListeners w) (cleanupSlot w) (destroyed w))
  | Some s =>
      let w1 :=
        match cleanupSlot w with
        | Some existingCleanup => cleanup existingCleanup w
        | None => w
        end in
      let c := mkCtrl true false false true
                 (has_off s || has_removeListener s) 0 0 in
      let w2 := mkWorld (ctrls w1 ++ [c]) (closeListeners w1 ++ [cid])
                  (Some cid) (destroyed w1) in
      (cid, if destroyed w2 then onSocketClose cid w2 else w2)
  end.

(** *** createRequest

    [new Request(url, options)] and the [headers.append] calls of
    [makeRequestHeaders] are taken to accept what they are given: the
    platform refuses the methods CONNECT, TRACE and TRACK, a URL with
    credentials and a header name that is no token, and a transport
    request of that kind is outside this model.  What throws here is the
    [URL] constructor.  Both run before the wiring block, so a call that
    throws has wired nothing.  The abort controller is allocated where the
    wiring needs it; a call that throws leaves none behind that anything
    can reach. *)

Definition createRequest (H : Host) (req : NodeRequest) (opts : Options)
    (w : World) : Result Request * World :=
  match resolveURL H req (allowedDomains opts) with
  | Throw e => (Throw e, w)
  | Ok u =>
      let props :=
        if bodyAllowed req opts then Some (makeRequestBody req) else None in
      let '(cid, w') := wire (getRequestSocket req) w in
      (Ok (mkRequest u (requestMethod req) (makeRequestHeaders req)
             (bp_body <$> props) (props ≫= bp_duplex) cid (clientIp req)),
       w')
  end.

(** What can happen to one transport request and its connection. *)
Inductive Event :=
| Adapt (opts : Options)          (* createRequest(req, opts) *)
| SocketCloses                    (* the connection is torn down *)
| CloseAgain                      (* a further 'close' event *)
| RunCleanup (cid : nat)          (* a holder of the clean-up of call
                                     [cid] runs it, as writeResponse does
                                     on 'finish' *)
| ClosesWhileHeld (held : nat).   (* the connection is torn down while a
                                     response holds the clean-up of call
                                     [held] *)

Definition step (H : Host) (req : NodeRequest) (w : World) (ev : Event) : World :=
  match ev with
  | Adapt opts => snd (createRequest H req opts w)
  | SocketCloses => socketClose w
  | CloseAgain => emitClose w
  | RunCleanup cid => cleanup cid w
  | ClosesWhileHeld held => closeWhileHeld held w
  end.

Definition run (H : Host) (req : NodeRequest) (evs : list Event) (w : World)
  : World :=
  fold_left (step H req) evs w.

(** The socket the wiring uses is an event emitter one can unsubscribe
    from, as every [net.Socket] is. *)
Definition emitterSocket (req : NodeRequest) : bool :=
  match getRequestSocket req with
  | Some s => has_off s || has_removeListener s
  | None => false
  end.

(** The state of one controller agrees with its counters, and a wired
    controller that was not cleaned up is the one in the clean-up slot. *)
Definition ctrlOk (slot : option nat) (cid : nat) (c : Ctrl) : Prop :=
  cleanupRuns c = (if cleanedUp c then 1 else 0)
  /\ abortFires c = (if aborted c then 1 else 0)
  /\ (aborted c = true -> cleanedUp c = true)
  /\ (wired c = false -> cleanedUp c = false)
  /\ (wired c = true -> canUnsubscribe c = true)
  /\ abortListener c = wired c && negb (cleanedUp c)
  /\ (wired c = true -> cleanedUp c = false -> slot = Some cid).

(** The invariant of the wiring: every controller is [ctrlOk], and the
    socket has one [close] listener, that of the slot, or none. *)
Definition wellWired (w : World) : Prop :=
  (forall cid c, ctrls w !! cid = Some c -> ctrlOk (cleanupSlot w) cid c)
  /\ match cleanupSlot w with
     | Some cid =>
         closeListeners w = [cid]
         /\ exists c, ctrls w !! cid = Some c
                      /\ wired c = true /\ cleanedUp c = false
     | None => closeListeners w = []
     end.

(** The controllers once the clean-up found in the slot has run. *)
Definition retired (w : World) : list Ctrl :=
  match cleanupSlot w with
  | Some old => <[old := mkCtrl true true false false true 1 0]> (ctrls w)
  | None => ctrls w
  end.

(** *** The NodeApp instance: manifest, middleware context *)

Inductive LocaleEntry :=
| LocaleCode (code : string)
| LocaleObject (path : string) (codes : list string).

(** The shapes [manifest.i18n.locales] is probed for. *)
Inductive Locales :=
| LocalesArray (entries : list LocaleEntry)
| LocalesString (s : string)
| LocalesWithCodes (codes : list string)
| LocalesOther.

Record I18n := mkI18n {
  locales : option Locales;
  defaultLocale : option string
}.

(** [routeData.params] as the context factory probes it. *)
Inductive Params :=
| ParamsArray (names : list string)
| ParamsRecord (entries : list (string * string))
| ParamsNull
| ParamsOther.

Record RouteData := mkRouteData {
  rd_params : Params;
  prerender : bool;
  route : string
}.

(** The [APIContext] fields this code sets.  [ctx_params] is [None] when
    the factory passes [null] on. *)
Record APIContext := mkAPIContext {
  ctx_request : Request;
  ctx_params : option (list (string * string));
  ctx_locals : list (string * string);
  ctx_defaultLocale : string;
  ctx_userDefinedLocales : list string;
  isPrerendered : bool;
  ctx_site : option Url.URL;
  routePattern : option string
}.

(** A middleware, seen from its caller: it throws (or rejects), or it
    settles having recorded cookies on [ctx.cookies], having called
    [next] or not, and returning a response or nothing. *)
Inductive MwOutcome :=
| MwThrows (e : Thrown)
| MwSettles (cookies : list string) (nextCalled : bool) (response : option Response).

Definition MiddlewareHandler : Type := APIContext -> MwOutcome.

Record MiddlewareModule := mkMiddlewareModule {
  onRequest : option MiddlewareHandler
}.

(** [manifest.middleware]: absent, a loader function, or a module. *)
Inductive MiddlewareSource :=
| NoMiddleware
| Loader (load : Result (option MiddlewareModule))
| Loaded (m : MiddlewareModule).

Record Manifest := mkManifest {
  i18n : option I18n;
  site : option string;
  manifestAllowedDomains : list RemotePattern;
  middleware : MiddlewareSource
}.

Record HeaderKV := mkHeaderKV { key : string; value : string }.

Record HeadersEntry := mkHeadersEntry {
  pathname : string;
  entry_headers : list HeaderKV
}.

(** A [NodeApp]: what this code reads of it, and the inherited members
    it calls ([App.match], [App.removeBase], [App.getAllowedDomains]). *)
Record App := mkApp {
  manifest : Manifest;
  headersMap : option (list HeadersEntry);
  superMatch : Request -> bool -> option RouteData;
  removeBase : string -> string;
  getAllowedDomains : option (list RemotePattern)
}.

(** The same app with another [manifest.middleware]. *)
Definition withMiddleware (app : App) (src : MiddlewareSource) : App :=
  mkApp
    (mkManifest (i18n (manifest app)) (site (manifest app))
       (manifestAllowedDomains (manifest app)) src)
    (headersMap app) (superMatch app) (removeBase app) (getAllowedDomains app).

(** [app.match(req, allowPrerenderedRoutes)] for a Node request. *)
Definition matchRoute (H : Host) (app : App) (req : NodeRequest)
    (allowPrerenderedRoutes : bool) (w : World)
  : Result (option RouteData) * World :=
  match createRequest H req
          (mkOptions true (manifestAllowedDomains (manifest app))) w with
  | (Ok request, w') => (Ok (superMatch app request allowPrerenderedRoutes), w')
  | (Throw e, w') => (Throw e, w')
  end.

Definition getUserDefinedLocales (app : App) : list string :=
  match i18n (manifest app) with
  | None => []
  | Some i =>
      match locales i with
      | None => []
      | Some (LocalesArray entries) =>
          omap (fun l => match l with
                         | LocaleCode c => Some c
                         | LocaleObject _ _ => None
                         end) entries
      | Some (LocalesString s) => if JS.truthy s then [s] else []
      | Some (LocalesWithCodes codes) => codes
      | Some LocalesOther => []
      end
  end.

(** [createContext] of astro/middleware, as far as this code relies on
    it: the fields it is given, not prerendered, no site, no pattern. *)
Definition createContext (request : Request)
    (params : option (list (string * string))) (locals : list (string * string))
    (dl : string) (udl : list string) : APIContext :=
  mkAPIContext request params locals dl udl false None None.

(** [new URL(manifest.site)] when [manifest.site] is truthy. *)
Definition siteURL (H : Host) (app : App) : Result (option Url.URL) :=
  match site (manifest app) with
  | Some s =>
      if JS.truthy s then
        match newURL H s with
        | Some u => Ok (Some u)
        | None => Throw invalidURL
        end
      else Ok None
  | None => Ok None
  end.

Definition createMiddlewareContext (H : Host) (app : App) (request : Request)
    (routeData : option RouteData) (locals : option (list (string * string)))
  : Result APIContext :=
  let params :=
    match routeData with
    | Some rd =>
        match rd_params rd with
        | ParamsRecord entries => Some entries
        | ParamsNull => None
        | ParamsArray _ | ParamsOther => Some []
        end
    | None => Some []
    end in
  let dl :=
    match i18n (manifest app) with
    | Some i => default "" (defaultLocale i)
    | None => ""
    end in
  let ctx := createContext request params (default [] locals) dl
               (getUserDefinedLocales app) in
  let prerendered :=
    match routeData with
    | Some rd => if prerender rd then true else isPrerendered ctx
    | None => isPrerendered ctx
    end in
  match siteURL H app with
  | Throw e => Throw e
  | Ok u =>
      Ok (mkAPIContext (ctx_request ctx) (ctx_params ctx) (ctx_locals ctx)
            (ctx_defaultLocale ctx) (ctx_userDefinedLocales ctx)
            prerendered
            (match u with Some _ => u | None => ctx_site ctx end)
            (match routeData with
             | Some rd => Some (route rd)
             | None => routePattern ctx
             end))
  end.

(** Appends every recorded cookie as a [set-cookie] header, on headers
    that are not immutable. *)
Definition appendCookies (cookies : list string) (r : Response) : Response :=
  fold_left (fun acc c => appendHeader "set-cookie" c acc) cookies r.

(** The first [response.headers.append] of the loop throws when the
    headers are immutable; without a recorded cookie the loop does not
    run. *)
Definition appendThrows (cookies : list string) (r : Response) : bool :=
  immutableHeaders r && match cookies with [] => false | _ :: _ => true end.

Record MiddlewareResult := mkMiddlewareResult {
  handled : bool;
  response : option Response
}.

Definition executeMiddlewareOnly (H : Host) (app : App) (request : Request)
    (routeData : option RouteData) (mw : MiddlewareHandler)
    (locals : option (list (string * string))) : Result MiddlewareResult :=
  match createMiddlewareContext H app request routeData locals with
  | Throw e => Throw e
  | Ok ctx =>
      match mw ctx with
      | MwThrows e => Throw e
      | MwSettles cookies nextCalled (Some r) =>
          if appendThrows cookies r then Throw immutableHeadersError
          else if negb nextCalled
          then Ok (mkMiddlewareResult true (Some (appendCookies cookies r)))
          else Ok (mkMiddlewareResult false (Some (appendCookies cookies r)))
      | MwSettles _ _ None => Ok (mkMiddlewareResult false None)
      end
  end.

End NodeApp.

(** ** Effects of the dispatcher

    What a dispatch does to the server response, the SSR fallback and the
    logs, in order.  [StreamFile path hs] is the file stream piped to the
    response; [hs] are the headers the handler's [headers] listener adds
    to those [send] sets itself (content type, length, validators). *)

Inductive Effect :=
| LoggerError (message : string)          (* app.getAdapterLogger().error *)
| ConsoleError
| MiddlewareLoad                          (* await manifest.middleware() *)
| MiddlewareInvoked (ctx : NodeApp.APIContext)
| WriteHead (code : nat) (reason : string) (hs : list (string * string))
| Write (chunk : string)
| SetStatusCode (code : nat)
| SetHeader (name value : string)
| End (payload : option string)
| StreamFile (path : string) (hs : list (string * string))   (* stream.pipe(res) *)
| Ssr.                                    (* ssr() *)

(** Headers this code puts on the response. *)
Definition sentHeaders (fx : list Effect) : list (string * string) :=
  flat_map (fun e => match e with
                     | WriteHead _ _ hs => hs
                     | SetHeader n v => [(n, v)]
                     | StreamFile _ hs => hs
                     | _ => []
                     end) fx.

(** Status codes written to the response. *)
Definition sentStatus (fx : list Effect) : list nat :=
  flat_map (fun e => match e with
                     | WriteHead code _ _ => [code]
                     | SetStatusCode code => [code]
                     | _ => []
                     end) fx.

(** Effects that serve content: a file streamed, or the SSR fallback. *)
Definition isServing (e : Effect) : bool :=
  match e with
  | StreamFile _ _ | Ssr => true
  | _ => false
  end.

Definition isMiddlewareEffect (e : Effect) : bool :=
  match e with
  | MiddlewareLoad | MiddlewareInvoked _ => true
  | _ => false
  end.

Definition notMiddleware (e : Effect) : bool := negb (isMiddlewareEffect e).

(** Effects that neither write to the response nor serve content: the
    middleware ran, or something was logged. *)
Definition isSilent (e : Effect) : bool :=
  match e with
  | MiddlewareLoad | MiddlewareInvoked _ | LoggerError _ | ConsoleError => true
  | _ => false
  end.

(** A computation over the cancellation world that records effects and may
    throw. *)
Module Dispatch.

Record Run (A : Type) := mkRun {
  effects : list Effect;
  final : NodeApp.World;
  outcome : Result A
}.
Arguments mkRun {A} effects final outcome.
Arguments effects {A} r.
Arguments final {A} r.
Arguments outcome {A} r.

Definition M (A : Type) : Type := NodeApp.World -> Run A.

Definition ret {A} (a : A) : M A := fun w => mkRun [] w (Ok a).

Definition bind {A B} (m : M A) (k : A -> M B) : M B := fun w =>
  let r := m w in
  match outcome r with
  | Ok a =>
      let r' := k a (final r) in
      mkRun (effects r ++ effects r') (final r') (outcome r')
  | Throw e => mkRun (effects r) (final r) (Throw e)
  end.

Definition emit (e : Effect) : M unit := fun w => mkRun [e] w (Ok tt).

Definition throw {A} (e : Thrown) : M A := fun w => mkRun [] w (Throw e).

Definition modify (f : NodeApp.World -> NodeApp.World) : M unit :=
  fun w => mkRun [] (f w) (Ok tt).

Definition liftState {A} (f : NodeApp.World -> Result A * NodeApp.World) : M A :=
  fun w => let '(r, w') := f w in mkRun [] w' r.

Definition liftResult {A} (r : Result A) : M A := fun w => mkRun [] w r.

(** [try { m } catch (err) { h err }]. *)
Definition tryCatch {A} (m : M A) (h : Thrown -> M A) : M A := fun w =>
  let r := m w in
  match outcome r with
  | Ok _ => r
  | Throw e =>
      let r' := h e (final r) in
      mkRun (effects r ++ effects r') (final r') (outcome r')
  end.

Fixpoint forEach {A} (f : A -> M unit) (l : list A) : M unit :=
  match l with
  | [] => ret tt
  | x :: rest => bind (f x) (fun _ => forEach f rest)
  end.

(** Every effect of [m], from every world, satisfies [p]. *)
Definition only {A} (p : Effect -> bool) (m : M A) : Prop :=
  forall w, Forall (fun e => p e = true) (effects (m w)).

End Dispatch.

Notation "x <- m ;; k" := (Dispatch.bind m (fun x => k))
  (at level 100, m at next level, right associativity).
Notation "m ;;; k" := (Dispatch.bind m (fun _ => k))
  (at level 100, right associativity).

(** [NodeApp.writeResponse(source, destination)] for a response whose body
    is at hand: head, body, end; on [finish] the clean-up found on
    [destination.req] runs. *)
Definition writeResponse (source : Response) : Dispatch.M unit :=
  Dispatch.emit (WriteHead (status source) (statusText source) (resp_headers source)) ;;;
  match resp_body source with
  | Some chunk => Dispatch.emit (Write chunk)
  | None => Dispatch.ret tt
  end ;;;
  Dispatch.emit (End None) ;;;
  Dispatch.modify (fun w => match NodeApp.cleanupSlot w with
                            | Some c => NodeApp.cleanup c w
                            | None => w
                            end).

(** ** serve-middleware.ts *)

Module ServeMiddleware.

Definition assetExtensions : list string :=
  ["css"; "js"; "json"; "xml"; "txt"; "ico"; "png"; "jpg"; "jpeg"; "gif";
   "svg"; "woff"; "woff2"; "ttf"; "eot"; "webp"; "avif"; "map"].

(** The test [/\.(?:css|js|...|map)$/i]: a dot and one of the extensions,
    in any letter case, at the end of the text. *)
Definition hasAssetExtension (urlPath : string) : bool :=
  existsb (fun ext => JS.endsWith ("." +:+ ext) (JS.toLowerCase urlPath))
    assetExtensions.

Definition isPrerenderedHTMLPage (urlPath : string) : bool :=
  if JS.startsWith "/_astro/" urlPath || hasAssetExtension urlPath
  then false
  else true.

Definition shouldRunMiddleware (urlPath : option string)
    (_routeData : option NodeApp.RouteData) (runMiddlewareOnRequest : bool) : bool :=
  match urlPath with
  | None => false
  | Some p =>
      if negb (JS.truthy p) || negb runMiddlewareOnRequest then false
      else if negb (isPrerenderedHTMLPage p) then false
      else true
  end.

(** [err instanceof Error ? err : new Error(String(err))]. *)
Definition asError (e : Thrown) : Thrown :=
  match e with
  | ErrorObject _ _ => e
  | OtherValue rendering => ErrorObject "Error" rendering
  end.

Definition executeMiddlewareForStatic (H : NodeApp.Host) (request : NodeApp.Request)
    (routeData : option NodeApp.RouteData) (mw : NodeApp.MiddlewareHandler)
    (app : NodeApp.App) (locals : option (list (string * string)))
  : Result NodeApp.MiddlewareResult :=
  match NodeApp.executeMiddlewareOnly H app request routeData mw locals with
  | Ok result => Ok result
  | Throw err => Throw (asError err)
  end.

End ServeMiddleware.

(** ** serve-static.ts *)

Module ServeStatic.

Inductive TrailingSlash := Never | Ignore | Always.

Record Options := mkOptions {
  client : string;                  (* resolveClientDir(options) *)
  assets : string;
  trailingSlash : option TrailingSlash;
  runMiddlewareOnRequest : bool
}.

(** What [send] reports for a path: an error before any file was opened,
    a file streamed to the end, or a file opened and an error after. *)
Inductive SendOutcome :=
| SendError
| SendStreams
| SendFailsAfterFile.

(** What the handler calls but does not define: the adapter's host,
    [path.join], [fs.lstatSync(p).isDirectory()] ([None] when it throws),
    the path helpers of @astrojs/internal-helpers, and [send]. *)
Record Platform := mkPlatform {
  host : NodeApp.Host;
  pathJoin : string -> string -> string;
  lstatIsDirectory : string -> option bool;
  hasFileExtension : string -> bool;
  isInternalPath : string -> bool;
  send : NodeApp.NodeRequest -> string -> string -> bool -> SendOutcome
}.

(** A request target: a path, then [?] and a query, if any. *)
Definition requestTarget (path : string) (query : option string) : string :=
  path +:+ match query with
           | Some q => String "?" q
           | None => ""
           end.

Definition prependForwardSlash (pth : string) : string :=
  if JS.startsWith "/" pth then pth else "/" +:+ pth.

Definition appendForwardSlash (pth : string) : string :=
  if JS.endsWith "/" pth then pth else pth +:+ "/".

(** [s.includes(sub)]. *)
Fixpoint includes (sub s : string) : bool :=
  String.prefix sub s
  || match s with
     | EmptyString => false
     | String _ s' => includes sub s'
     end.

Definition hasAssetExtension (urlPath : string) : bool :=
  existsb (fun ext => JS.endsWith ("." +:+ ext) (JS.toLowerCase urlPath))
    ["css"; "js"; "json"; "xml"; "txt"; "ico"; "png"; "jpg"; "jpeg"; "gif";
     "svg"; "woff"; "woff2"; "ttf"; "eot"; "webp"; "avif"; "map"].

(** Check if a URL path is for a prerendered HTML page (not an asset). *)
Definition isPrerenderedHTMLPage (urlPath : string) : bool :=
  if JS.startsWith "/_astro/" urlPath || hasAssetExtension urlPath
  then false
  else true.

(** The context of a static page: [createContext] with no params, no
    locals and no default locale, then marked as prerendered. *)
Definition staticContext (request : NodeApp.Request) : NodeApp.APIContext :=
  let created := NodeApp.createContext request (Some []) [] "" [] in
  NodeApp.mkAPIContext (NodeApp.ctx_request created) (NodeApp.ctx_params created)
    (NodeApp.ctx_locals created) (NodeApp.ctx_defaultLocale created)
    (NodeApp.ctx_userDefinedLocales created) true
    (NodeApp.ctx_site created) (NodeApp.routePattern created).

(** Execute middleware before serving a static file.  Returns true if
    middleware handled the response. *)
Definition executeMiddlewareForStatic (P : Platform) (req : NodeApp.NodeRequest)
    (mw : NodeApp.MiddlewareHandler) (app : NodeApp.App) : Dispatch.M bool :=
  request <- Dispatch.liftState
               (NodeApp.createRequest (host P) req
                  (NodeApp.mkOptions false
                     (default [] (NodeApp.getAllowedDomains app)))) ;;
  let ctx := staticContext request in
  Dispatch.emit (MiddlewareInvoked ctx) ;;;
  match mw ctx with
  | NodeApp.MwThrows e => Dispatch.throw e
  | NodeApp.MwSettles _ nextCalled (Some response) =>
      if negb nextCalled
      then writeResponse response ;;; Dispatch.ret true
      else Dispatch.ret false
  | NodeApp.MwSettles _ _ None => Dispatch.ret false
  end.

(** The body of the [try] block of the handler. *)
Definition attemptMiddleware (P : Platform) (app : NodeApp.App)
    (req : NodeApp.NodeRequest) : Dispatch.M bool :=
  let run (m : option NodeApp.MiddlewareModule) : Dispatch.M bool :=
    match m with
    | Some middlewareModule =>
        match NodeApp.onRequest middlewareModule with
        | Some onRequest => executeMiddlewareForStatic P req onRequest app
        | None => Dispatch.ret false
        end
    | None => Dispatch.ret false
    end in
  match NodeApp.middleware (NodeApp.manifest app) with
  | NodeApp.NoMiddleware => Dispatch.ret false
  | NodeApp.Loader load =>
      Dispatch.emit MiddlewareLoad ;;;
      middlewareModule <- Dispatch.liftResult load ;;
      run middlewareModule
  | NodeApp.Loaded m => run (Some m)
  end.

(** The [try] / [catch] around it: log, and fall through. *)
Definition runMiddleware (P : Platform) (app : NodeApp.App)
    (req : NodeApp.NodeRequest) : Dispatch.M bool :=
  Dispatch.tryCatch (attemptMiddleware P app req)
    (fun err =>
       Dispatch.emit
         (LoggerError ("Error executing middleware for static page: "
                       +:+ renderThrown err)) ;;;
       Dispatch.ret false).

(** The headers-map block. *)
Definition injectHeaders (P : Platform) (app : NodeApp.App)
    (req : NodeApp.NodeRequest) (pathname : string) : Dispatch.M unit :=
  match NodeApp.headersMap app with
  | Some ((_ :: _) as headersMap) =>
      routeData <- Dispatch.liftState (NodeApp.matchRoute (host P) app req true) ;;
      match routeData with
      | Some rd =>
          if NodeApp.prerender rd then
            match find (fun header => includes pathname (NodeApp.pathname header))
                    headersMap with
            | Some matchedRoute =>
                Dispatch.forEach
                  (fun header =>
                     Dispatch.emit (SetHeader (NodeApp.key header) (NodeApp.value header)))
                  (NodeApp.entry_headers matchedRoute)
            | None => Dispatch.ret tt
            end
          else Dispatch.ret tt
      | None => Dispatch.ret tt
      end
  | _ => Dispatch.ret tt
  end.

Definition redirect (location : string) : Dispatch.M unit :=
  Dispatch.emit (SetStatusCode 301) ;;;
  Dispatch.emit (SetHeader "Location" location) ;;;
  Dispatch.emit (End None).

Definition querySuffix (urlQuery : option string) : string :=
  match urlQuery with
  | Some q => if JS.truthy q then "?" +:+ q else ""
  | None => ""
  end.

(** [send(req, pathname, ...)] with its three listeners, piped to [res]. *)
Definition streamFile (P : Platform) (app : NodeApp.App) (opts : Options)
    (req : NodeApp.NodeRequest) (pathname : string) : Dispatch.M unit :=
  let pathname := prependForwardSlash (NodeApp.removeBase app pathname) in
  let cache :=
    if JS.startsWith ("/" +:+ assets opts +:+ "/") pathname
    then [("Cache-Control", "public, max-age=31536000, immutable")]
    else [] in
  match send P req pathname (client opts) (JS.startsWith "/.well-known/" pathname) with
  | SendError => Dispatch.emit Ssr
  | SendStreams => Dispatch.emit (StreamFile pathname cache)
  | SendFailsAfterFile =>
      Dispatch.emit (StreamFile pathname cache) ;;;
      Dispatch.emit ConsoleError ;;;
      Dispatch.emit (WriteHead 500 "" []) ;;;
      Dispatch.emit (End (Some "Internal server error"))
  end.

(** The handler from the directory test on. *)
Definition serveStatic (P : Platform) (app : NodeApp.App) (opts : Options)
    (req : NodeApp.NodeRequest) (urlPath : string) (urlQuery : option string)
  : Dispatch.M unit :=
  let filePath := pathJoin P (client opts) (NodeApp.removeBase app urlPath) in
  let isDirectory := default false (lstatIsDirectory P filePath) in
  let hasSlash := JS.endsWith "/" urlPath in
  injectHeaders P app req urlPath ;;;
  match default Ignore (trailingSlash opts) with
  | Never =>
      if isDirectory && negb (String.eqb urlPath "/") && hasSlash then
        redirect (JS.dropLast urlPath +:+ querySuffix urlQuery)
      else if isDirectory && negb hasSlash then
        streamFile P app opts req (urlPath +:+ "/index.html")
      else streamFile P app opts req urlPath
  | Ignore =>
      if isDirectory && negb hasSlash then
        streamFile P app opts req (urlPath +:+ "/index.html")
      else streamFile P app opts req urlPath
  | Always =>
      if negb hasSlash && negb (hasFileExtension P urlPath)
         && negb (isInternalPath P urlPath) then
        redirect (urlPath +:+ "/" +:+ querySuffix urlQuery)
      else streamFile P app opts req urlPath
  end.

(** The middleware block of the handler: whether the response was
    handled there. *)
Definition preExecute (P : Platform) (app : NodeApp.App) (opts : Options)
    (req : NodeApp.NodeRequest) (urlPath : string) : Dispatch.M bool :=
  if runMiddlewareOnRequest opts && isPrerenderedHTMLPage urlPath
  then runMiddleware P app req
  else Dispatch.ret false.

(** The listener [createStaticHandler(app, options)] returns. *)
Definition createStaticHandler (P : Platform) (app : NodeApp.App) (opts : Options)
    (req : NodeApp.NodeRequest) : Dispatch.M unit :=
  match NodeApp.url req with
  | Some (String _ _ as url) =>
      let parts := JS.split "?" url in
      let urlPath := hd "" parts in
      let urlQuery := nth_error parts 1 in
      handled <- preExecute P app opts req urlPath ;;
      if handled then Dispatch.ret tt
      else serveStatic P app opts req urlPath urlQuery
  | _ => Dispatch.emit Ssr
  end.

End ServeStatic.

(** ** A concrete platform and concrete requests *)

Module Examples.

(** Modelled from the spec: [App.validateForwardedHost], which
    core/app/index.ts defines.  The spec has a forwarded hostname validated
    against the configured allow-list of entries (protocol, hostname
    pattern, optional port); here an entry accepts a host when its
    protocol, if any, is the resolved one and its hostname is the
    forwarded text. *)
Definition allowListPolicy (forwardedHost : string)
    (allowed : list RemotePattern) (proto : string) : bool :=
  existsb (fun p =>
             match rp_protocol p with
             | Some pr => String.eqb pr proto
             | None => true
             end
             && match rp_hostname p with
                | Some h => String.eqb h forwardedHost
                | None => false
                end) allowed.

Definition modelHost : NodeApp.Host := NodeApp.mkHost Url.construct allowListPolicy.

(** A plain TCP socket: an event emitter, not encrypted. *)
Definition tcpSocket : NodeApp.Socket :=
  NodeApp.mkSocket false (Some "203.0.113.9") true true true.

Definition request (m : option string) (target : string)
    (hs : list (string * HeaderValue)) (b : option NodeApp.BodyOverride)
  : NodeApp.NodeRequest :=
  NodeApp.mkNodeRequest m (Some target) (list_to_map hs) tcpSocket None b.

(** [GET /] with a forwarded port that is not a number. *)
Definition badForwardedPort : NodeApp.NodeRequest :=
  request (Some "GET") "/"
    [("host", Single "example.com"); ("x-forwarded-port", Single "abc")] None.

(** [GET /attacker.test/x] with an empty forwarded host. *)
Definition emptyForwardedHost : NodeApp.NodeRequest :=
  request (Some "GET") "/attacker.test/x"
    [("host", Single "example.com"); ("x-forwarded-host", Single "")] None.

(** [GET /] with an empty string as body override. *)
Definition getWithEmptyBody : NodeApp.NodeRequest :=
  request (Some "GET") "/"
    [("host", Single "example.com")] (Some (NodeApp.BodyString "")).

(** [POST /submit] with an empty string as body override. *)
Definition postWithEmptyBody : NodeApp.NodeRequest :=
  request (Some "POST") "/submit"
    [("host", Single "example.com")] (Some (NodeApp.BodyString "")).

(** A request without a method. *)
Definition noMethod : NodeApp.NodeRequest :=
  request None "/" [("host", Single "example.com")] None.

(** [GET /blog/?page=2]. *)
Definition blogSlash : NodeApp.NodeRequest :=
  request (Some "GET") "/blog/?page=2" [("host", Single "example.com")] None.

Definition favicon : NodeApp.NodeRequest :=
  request (Some "GET") "/favicon.png" [("host", Single "example.com")] None.

Definition page : NodeApp.NodeRequest :=
  request (Some "GET") "/account" [("host", Single "example.com")] None.

(** [GET /account] with a forwarded host the allow-list does not have. *)
Definition untrustedForwardedHost : NodeApp.NodeRequest :=
  request (Some "GET") "/account"
    [("host", Single "example.com"); ("x-forwarded-host", Single "evil.test")] None.

(** A file system in which [/blog] is a directory, and a [send] that
    finds every file. *)
Definition platform : ServeStatic.Platform :=
  ServeStatic.mkPlatform modelHost
    (fun root p => root +:+ p)
    (fun p => Some (String.eqb p "/srv/client/blog/" || String.eqb p "/srv/client/blog"))
    (fun _ => false) (fun _ => false)
    (fun _ _ _ _ => ServeStatic.SendStreams).

(** A middleware that records a session cookie on the context and
    answers itself, without calling [next]. *)
Definition gatekeeper : NodeApp.MiddlewareHandler :=
  fun _ => NodeApp.MwSettles ["session=abc; Path=/"] false
             (Some (mkResponse 302 "" [("Location", "/login")] None)).

(** A middleware that records a cookie, calls [next] and returns what
    [next] gave it. *)
Definition greeter : NodeApp.MiddlewareHandler :=
  fun _ => NodeApp.MwSettles ["middleware-cookie=value; Path=/; HttpOnly"] true
             (Some emptyResponse).

(** A middleware that throws. *)
Definition faulty : NodeApp.MiddlewareHandler :=
  fun _ => NodeApp.MwThrows (ErrorObject "Error" "boom").

Definition appWith (mw : NodeApp.MiddlewareHandler) : NodeApp.App :=
  NodeApp.mkApp
    (NodeApp.mkManifest None None []
       (NodeApp.Loaded (NodeApp.mkMiddlewareModule (Some mw))))
    None (fun _ _ => None) (fun p => p) None.

Definition options (mode : ServeStatic.TrailingSlash) (runMiddleware : bool)
  : ServeStatic.Options :=
  ServeStatic.mkOptions "/srv/client" "_astro" (Some mode) runMiddleware.

End Examples.

(** ** NodeApp.writeResponse, chunk by chunk

    [writeResponse] above takes the body as one value.  Here the body is
    what its reader yields, call after call, and the destination is followed
    through [finish] and [close].  The destination is taken to stay open
    while the body is written: after [end()] it emits [finish];
    [destroy()] destroys the socket under it, which emits [close], and
    with it the destination. *)

Module ResponseWriter.

(** What one [reader.read()] gives: a chunk, or a rejection.  The end of
    the list is [{ done: true }]. *)
Inductive Read :=
| Chunk (value : string)
| Rejects (e : Thrown).

(** The [Response] that is written: [None] as body is a [null] body. *)
Record Source := mkSource {
  src_status : nat;
  src_statusText : string;
  src_headers : list (string * string);
  src_body : option (list Read)
}.

(** What happens to the destination and to the reader, in order. *)
Inductive Sink :=
| StatusMessage (text : string)     (* destination.statusMessage = statusText *)
| Head (code : nat) (hs : list (string * string))   (* destination.writeHead *)
| Written (chunk : string)          (* destination.write *)
| Ended                             (* destination.end() *)
| Destroyed (cause : option Thrown) (* destination.destroy(err) *)
| ReaderCancelled.                  (* reader.cancel(), from the 'close' listener *)

(** [err instanceof Error ? destination.destroy(err) : destination.destroy()]. *)
Definition destroyCause (e : Thrown) : option Thrown :=
  match e with
  | ErrorObject _ _ => Some e
  | OtherValue _ => None
  end.

(** The read loop and what follows it: every chunk is written; when the
    reader is done the destination is ended, and [close] cancels the
    reader; when a read rejects, the failure payload is written, the
    destination destroyed, and [close] cancels the reader. *)
Fixpoint pump (script : list Read) : list Sink :=
  match script with
  | [] => [Ended; ReaderCancelled]
  | Chunk value :: rest => Written value :: pump rest
  | Rejects e :: _ =>
      [Written "Internal server error"; Destroyed (destroyCause e); ReaderCancelled]
  end.

(** [runCleanup], registered for [finish] and for [close] when a clean-up
    is found on [destination.req]: it runs the clean-up and unregisters
    itself from both events.  [None] is no listener. *)
Definition fire (listener : option nat) (w : NodeApp.World)
  : option nat * NodeApp.World :=
  match listener with
  | Some c => (None, NodeApp.cleanup c w)
  | None => (None, w)
  end.

(** The world once the destination has emitted its events.  After
    [end()]: [finish], then [close] of the destination, each calling
    [runCleanup] if it is still registered.  After [destroy()]: the socket
    is destroyed and emits [close], which reaches [runCleanup] and then the
    [onSocketClose] listeners of the socket. *)
Definition settle (ended : bool) (w : NodeApp.World) : NodeApp.World :=
  let listener := NodeApp.cleanupSlot w in
  if ended then
    let '(listener, w1) := fire listener w in
    snd (fire listener w1)
  else
    match listener with
    | Some held => NodeApp.closeWhileHeld held w
    | None => NodeApp.socketClose w
    end.

(** Whether the destination is ended (rather than destroyed). *)
Fixpoint completes (script : list Read) : bool :=
  match script with
  | [] => true
  | Chunk _ :: rest => completes rest
  | Rejects _ :: _ => false
  end.

(** Whether a read of the body rejects. *)
Definition fails (source : Source) : bool :=
  match src_body source with
  | Some script => negb (completes script)
  | None => false
  end.

Definition writeResponse (http2 : bool) (source : Source) (w : NodeApp.World)
  : list Sink * NodeApp.World :=
  let statusMessage :=
    if http2 then [] else [StatusMessage (src_statusText source)] in
  let head := Head (src_status source) (src_headers source) in
  match src_body source with
  | None => ((statusMessage ++ [head; Ended])%list, settle true w)
  | Some script =>
      ((statusMessage ++ head :: pump script)%list, settle (completes script) w)
  end.

(** The chunks a script yields before its first rejection. *)
Fixpoint chunksBeforeFailure (script : list Read) : list string :=
  match script with
  | Chunk value :: rest => value :: chunksBeforeFailure rest
  | _ => []
  end.

Definition isHead (e : Sink) : bool :=
  match e with Head _ _ => true | _ => false end.

Definition written (fx : list Sink) : list string :=
  flat_map (fun e => match e with Written chunk => [chunk] | _ => [] end) fx.

(** A [Response] of the dispatcher as a source: its body is one chunk. *)
Definition ofResponse (r : Response) : Source :=
  mkSource (status r) (statusText r) (resp_headers r)
    (match resp_body r with
     | Some chunk => Some [Chunk chunk]
     | None => None
     end).

(** A sink event as the dispatcher records it; the reader and the status
    message have no counterpart there. *)
Definition toEffect (reason : string) (e : Sink) : list Effect :=
  match e with
  | Head code hs => [WriteHead code reason hs]
  | Written chunk => [Write chunk]
  | Ended => [End None]
  | StatusMessage _ | Destroyed _ | ReaderCancelled => []
  end.

End ResponseWriter.

(** ** Observations on a dispatch *)

Definition isSsr (e : Effect) : bool :=
  match e with Ssr => true | _ => false end.

Definition isInvocation (e : Effect) : bool :=
  match e with MiddlewareInvoked _ => true | _ => false end.

(** The contexts the middleware was invoked with. *)
Definition invocations (fx : list Effect) : list NodeApp.APIContext :=
  flat_map (fun e => match e with MiddlewareInvoked ctx => [ctx] | _ => [] end) fx.

(** Effects that put a status or a body on the response. *)
Definition isResponseWrite (e : Effect) : bool :=
  match e with
  | WriteHead _ _ _ | Write _ | SetStatusCode _ | End _ | StreamFile _ _ => true
  | _ => false
  end.

(** What the middleware block of the handler can do: load and invoke the
    middleware, log, and write the middleware's response. *)
Definition isMiddlewareStageEffect (e : Effect) : bool :=
  match e with
  | MiddlewareLoad | MiddlewareInvoked _ | LoggerError _
  | WriteHead _ _ _ | Write _ | End None => true
  | _ => false
  end.

(** What the static stage can do: set headers, redirect, stream a file,
    answer 500 after a stream error, or hand over to SSR. *)
Definition isStaticStageEffect (e : Effect) : bool :=
  match e with
  | SetHeader _ _ | SetStatusCode _ | End _ | StreamFile _ _ | ConsoleError
  | WriteHead _ _ _ | Ssr => true
  | _ => false
  end.

Definition isStatusSetter (e : Effect) : bool :=
  match e with SetStatusCode _ => true | _ => false end.

(** ** Worlds without wiring *)

(** No listener, no clean-up on the request, and only controllers that
    were never wired. *)
Definition unwired (w : NodeApp.World) : Prop :=
  NodeApp.closeListeners w = []
  /\ NodeApp.cleanupSlot w = None
  /\ forall cid c, NodeApp.ctrls w !! cid = Some c ->
                   c = NodeApp.mkCtrl false false false false false 0 0.

(** ** More concrete requests *)

Module Cases.

(** A socket object without [on], as test doubles have. *)
Definition bareSocket : NodeApp.Socket :=
  NodeApp.mkSocket true None false false false.

Definition bareRequest : NodeApp.NodeRequest :=
  NodeApp.mkNodeRequest (Some "GET") (Some "/") (list_to_map [("host", Single "example.com")])
    bareSocket None None.

(** [POST /upload] behind a proxy, with the array [[7]] as body override. *)
Definition proxied : NodeApp.NodeRequest :=
  Examples.request (Some "POST") "/upload"
    [("host", Single "example.com");
     ("x-forwarded-proto", Single "https, http,http");
     ("x-forwarded-for", Single " 198.51.100.4 , 10.0.0.1")]
    (Some (NodeApp.BodyObject ["0"] "[7]" false)).

(** A world in which the socket was destroyed before any adaptation. *)
Definition closedWorld : NodeApp.World := NodeApp.mkWorld [] [] None true.

Definition blog : NodeApp.NodeRequest :=
  Examples.request (Some "GET") "/blog?page=2" [("host", Single "example.com")] None.

Definition pageWithAssetQuery : NodeApp.NodeRequest :=
  Examples.request (Some "GET") "/account?next=/a.css"
    [("host", Single "example.com")] None.

(** A platform whose [send] finds no file. *)
Definition emptyDisk : ServeStatic.Platform :=
  ServeStatic.mkPlatform Examples.modelHost
    (fun root p => root +:+ p) (fun _ => None)
    (fun _ => false) (fun _ => false)
    (fun _ _ _ _ => ServeStatic.SendError).

(** A middleware that returns nothing and does not call [next]. *)
Definition silent : NodeApp.MiddlewareHandler :=
  fun _ => NodeApp.MwSettles [] false None.

(** A middleware that throws a string. *)
Definition throwsText : NodeApp.MiddlewareHandler :=
  fun _ => NodeApp.MwThrows (OtherValue "denied").

Definition localisedApp : NodeApp.App :=
  NodeApp.mkApp
    (NodeApp.mkManifest
       (Some (NodeApp.mkI18n
                (Some (NodeApp.LocalesArray
                         [NodeApp.LocaleCode "en";
                          NodeApp.LocaleObject "spanish" ["es"; "es-AR"];
                          NodeApp.LocaleCode "fr"]))
                (Some "en")))
       (Some "https://example.com") [] NodeApp.NoMiddleware)
    None (fun _ _ => None) (fun p => p) None.

Definition brokenSiteApp : NodeApp.App :=
  NodeApp.mkApp
    (NodeApp.mkManifest None (Some "not a url") [] NodeApp.NoMiddleware)
    None (fun _ _ => None) (fun p => p) None.

Definition sampleRequest : NodeApp.Request :=
  NodeApp.mkRequest (Url.mkURL "http" "example.com" None "/account") "GET" ∅
    None None 0 None.

Definition sampleRoute : NodeApp.RouteData :=
  NodeApp.mkRouteData (NodeApp.ParamsArray ["slug"]) true "/blog/[slug]".

(** A socket with [on], but neither [off] nor [removeListener]. *)
Definition listenOnlySocket : NodeApp.Socket :=
  NodeApp.mkSocket false (Some "203.0.113.9") true false false.

Definition listenOnly : NodeApp.NodeRequest :=
  NodeApp.mkNodeRequest (Some "GET") (Some "/account")
    (list_to_map [("host", Single "example.com")]) listenOnlySocket None None.

(** A request without a method, with an empty string as body override. *)
Definition noMethodEmptyBody : NodeApp.NodeRequest :=
  Examples.request None "/" [("host", Single "example.com")]
    (Some (NodeApp.BodyString "")).

(** [GET /blog?a=1?b=2]. *)
Definition blogTwoQueries : NodeApp.NodeRequest :=
  Examples.request (Some "GET") "/blog?a=1?b=2" [("host", Single "example.com")] None.

(** [Response.redirect("/login")]: a response with immutable headers. *)
Definition redirectResponse : Response :=
  responseObject 302 "" [("location", "/login")] None true.

(** A middleware that records a cookie and answers with
    [Response.redirect]. *)
Definition redirector : NodeApp.MiddlewareHandler :=
  fun _ => NodeApp.MwSettles ["session=abc; Path=/"] false (Some redirectResponse).

End Cases.

(** * Properties *)

(** ** String lemmas *)

Lemma prefix_append (p r : string) : String.prefix p (p +:+ r) = true.
Proof.
  induction p as [|c p IH]; simpl.
  - destruct r; reflexivity.
  - destruct (ascii_dec c c) as [_|n]; [exact IH | contradiction].
Qed.

Lemma endsWith_refl (s : string) : JS.endsWith s s = true.
Proof.
  destruct s; simpl; rewrite ?String.eqb_refl, ?Ascii.eqb_refl; reflexivity.
Qed.

Lemma endsWith_append (a s : string) : JS.endsWith s (a +:+ s) = true.
Proof.
  induction a as [|c a IH]; simpl.
  - apply endsWith_refl.
  - rewrite IH. apply orb_true_r.
Qed.

Lemma append_empty_r (s : string) : s +:+ "" = s.
Proof.
  induction s as [|c s IH]; [reflexivity|].
  change (String c (s +:+ "") = String c s). now rewrite IH.
Qed.

Lemma toLowerCase_append (a b : string) :
  JS.toLowerCase (a +:+ b) = JS.toLowerCase a +:+ JS.toLowerCase b.
Proof. induction a as [|c a IH]; simpl; [reflexivity | now rewrite IH]. Qed.

Lemma split_lacks (c : ascii) (s : string) :
  JS.lacks c s = true -> JS.split c s = [s].
Proof.
  induction s as [|d s IH]; simpl; intros Hl; [reflexivity|].
  apply andb_true_iff in Hl as [Hd Hs].
  apply negb_true_iff in Hd. rewrite Hd, (IH Hs). reflexivity.
Qed.

Lemma split_append (c : ascii) (p q : string) :
  JS.lacks c p = true ->
  JS.split c (p +:+ String c q) = p :: JS.split c q.
Proof.
  induction p as [|d p IH]; simpl; intros Hl.
  - rewrite Ascii.eqb_refl. reflexivity.
  - apply andb_true_iff in Hl as [Hd Hp].
    apply negb_true_iff in Hd. rewrite Hd, (IH Hp). reflexivity.
Qed.

(** ** createRequest: what it returns *)

Section CreateRequest.

Import NodeApp.

Variable H : Host.

(** The request [createRequest] builds once the URL is resolved. *)
Lemma createRequest_resolved (req : NodeRequest) (opts : Options) (w : World)
    (u : Url.URL) :
  resolveURL H req (allowedDomains opts) = Ok u ->
  exists r w',
    createRequest H req opts w = (Ok r, w')
    /\ req_url r = u
    /\ req_method r = requestMethod req
    /\ req_body r =
         (if bodyAllowed req opts then Some (bp_body (makeRequestBody req)) else None)
    /\ req_duplex r =
         (if bodyAllowed req opts then bp_duplex (makeRequestBody req) else None)
    /\ (signal r, w') = wire (getRequestSocket req) w.
Proof.
  intros Hu. unfold createRequest. rewrite Hu.
  destruct (wire (getRequestSocket req) w) as [cid w'] eqn:Hw.
  eexists _, _. split; [reflexivity|]. simpl.
  destruct (bodyAllowed req opts); repeat split; reflexivity.
Qed.

(** It throws exactly when both URL texts are refused, and then leaves
    the world as it was. *)
Lemma createRequest_propagates (req : NodeRequest) (opts : Options) (w : World)
    (e : Thrown) :
  resolveURL H req (allowedDomains opts) = Throw e ->
  createRequest H req opts w = (Throw e, w).
Proof. intros Hu. unfold createRequest. rewrite Hu. reflexivity. Qed.

Lemma createRequest_inv (req : NodeRequest) (opts : Options) (w w' : World)
    (r : Request) :
  createRequest H req opts w = (Ok r, w') ->
  exists u, resolveURL H req (allowedDomains opts) = Ok u.
Proof.
  unfold createRequest.
  destruct (resolveURL H req (allowedDomains opts)) as [u|e]; [eauto|].
  intros Heq. inversion Heq.
Qed.

Lemma createRequest_fields (req : NodeRequest) (opts : Options) (w w' : World)
    (r : Request) :
  createRequest H req opts w = (Ok r, w') ->
  req_method r = requestMethod req
  /\ req_body r =
       (if bodyAllowed req opts then Some (bp_body (makeRequestBody req)) else None)
  /\ req_duplex r =
       (if bodyAllowed req opts then bp_duplex (makeRequestBody req) else None)
  /\ (signal r, w') = wire (getRequestSocket req) w.
Proof.
  intros Hc. destruct (createRequest_inv _ _ _ _ _ Hc) as [u Hu].
  destruct (createRequest_resolved req opts w u Hu)
    as (r' & w'' & Hc' & _ & Hm & Hb & Hd & Hw).
  rewrite Hc in Hc'. inversion Hc'; subst. auto.
Qed.

End CreateRequest.

(** ** createRequest: method and body *)

Section MethodAndBody.

Import NodeApp.

Variable H : Host.

Lemma requestMethod_default (req : NodeRequest) :
  method req = None \/ method req = Some "" -> requestMethod req = "GET".
Proof. unfold requestMethod. intros [-> | ->]; reflexivity. Qed.

Lemma bodyAllowed_false (req : NodeRequest) (opts : Options) :
  method req = Some "GET" \/ method req = Some "HEAD" \/ skipBody opts = true ->
  bodyAllowed req opts = false.
Proof.
  unfold bodyAllowed, requestMethod.
  intros [-> | [-> | ->]]; simpl; [reflexivity | reflexivity |].
  apply andb_false_r.
Qed.

Lemma bodyAllowed_true (req : NodeRequest) (opts : Options) :
  requestMethod req <> "GET" -> requestMethod req <> "HEAD" ->
  skipBody opts = false -> bodyAllowed req opts = true.
Proof.
  intros Hg Hh Hs. unfold bodyAllowed. rewrite Hs.
  apply String.eqb_neq in Hg, Hh. rewrite Hg, Hh. reflexivity.
Qed.

Lemma makeRequestBody_empty_override (req : NodeRequest) :
  body req = Some (BodyString "")
  \/ (exists json, body req = Some (BodyObject [] json false)) ->
  makeRequestBody req = asyncIterableToBodyProps TransportStream.
Proof. unfold makeRequestBody. intros [-> | [json ->]]; reflexivity. Qed.

(** C8: when the method is GET or HEAD, or [skipBody] is set, every
    request [createRequest] produces has no body (and no duplex marker),
    whatever the transport stream or the body override hold; and it does
    produce one whenever the URL resolves. *)
Theorem createRequest_no_body (req : NodeRequest) (opts : Options) (w : World) :
  method req = Some "GET" \/ method req = Some "HEAD" \/ skipBody opts = true ->
  (forall r w', createRequest H req opts w = (Ok r, w') ->
                req_body r = None /\ req_duplex r = None)
  /\ (forall u, resolveURL H req (allowedDomains opts) = Ok u ->
                exists r w', createRequest H req opts w = (Ok r, w')
                             /\ req_body r = None).
Proof.
  intros Hm. pose proof (bodyAllowed_false req opts Hm) as Hb. split.
  - intros r w' Hc.
    destruct (createRequest_fields H _ _ _ _ _ Hc) as (_ & Hbody & Hdup & _).
    rewrite Hb in Hbody, Hdup. auto.
  - intros u Hu.
    destruct (createRequest_resolved H req opts w u Hu)
      as (r & w' & Hc & _ & _ & Hbody & _).
    rewrite Hb in Hbody. eauto.
Qed.

(** C10: a transport request without a method, or with the empty one,
    is normalised to a GET request; the missing method makes nothing
    fail, a request is produced whenever the URL resolves. *)
Theorem createRequest_default_method (req : NodeRequest) (opts : Options)
    (w : World) :
  method req = None \/ method req = Some "" ->
  (forall r w', createRequest H req opts w = (Ok r, w') -> req_method r = "GET")
  /\ (forall u, resolveURL H req (allowedDomains opts) = Ok u ->
                exists r w', createRequest H req opts w = (Ok r, w')
                             /\ req_method r = "GET").
Proof.
  intros Hm. pose proof (requestMethod_default req Hm) as Hg. split.
  - intros r w' Hc.
    destruct (createRequest_fields H _ _ _ _ _ Hc) as (Hmeth & _).
    congruence.
  - intros u Hu.
    destruct (createRequest_resolved H req opts w u Hu)
      as (r & w' & Hc & _ & Hmeth & _).
    exists r, w'. split; [exact Hc | congruence].
Qed.

(** C9, amended: for a request whose method is present, not empty and
    neither GET nor HEAD, adapted with [skipBody] off, an override that is
    the empty string, or an object without own keys and without an async
    iterator, is ignored: every request [createRequest] produces has the
    transport request's own stream as body, with the half-duplex marker. *)
Theorem createRequest_ignores_empty_override (req : NodeRequest)
    (opts : Options) (w : World) (m : string) :
  body req = Some (BodyString "")
  \/ (exists json, body req = Some (BodyObject [] json false)) ->
  method req = Some m ->
  m <> "" -> m <> "GET" -> m <> "HEAD" ->
  skipBody opts = false ->
  makeRequestBody req = asyncIterableToBodyProps TransportStream
  /\ (forall r w', createRequest H req opts w = (Ok r, w') ->
                   req_method r = m
                   /\ req_body r = Some (StreamBody TransportStream)
                   /\ req_duplex r = Some "half").
Proof.
  intros Hov Hm Hne Hg Hh Hs.
  pose proof (makeRequestBody_empty_override req Hov) as Hmk.
  assert (Hmeth : requestMethod req = m).
  { unfold requestMethod. rewrite Hm. destruct m; [contradiction | reflexivity]. }
  assert (Hb : bodyAllowed req opts = true)
    by (apply bodyAllowed_true; [rewrite Hmeth; exact Hg | rewrite Hmeth; exact Hh | exact Hs]).
  split; [exact Hmk|].
  intros r w' Hc.
  destruct (createRequest_fields H _ _ _ _ _ Hc) as (Hrm & Hbody & Hdup & _).
  rewrite Hb, Hmk in Hbody, Hdup. rewrite Hrm, Hmeth. auto.
Qed.

End MethodAndBody.

Lemma resolveURL_getWithEmptyBody :
  NodeApp.resolveURL Examples.modelHost Examples.getWithEmptyBody [] =
  Ok (Url.mkURL "http" "example.com" None "/").
Proof. vm_compute. reflexivity. Qed.

Lemma resolveURL_postWithEmptyBody :
  NodeApp.resolveURL Examples.modelHost Examples.postWithEmptyBody [] =
  Ok (Url.mkURL "http" "example.com" None "/submit").
Proof. vm_compute. reflexivity. Qed.

Lemma resolveURL_noMethod :
  NodeApp.resolveURL Examples.modelHost Examples.noMethod [] =
  Ok (Url.mkURL "http" "example.com" None "/").
Proof. vm_compute. reflexivity. Qed.

Lemma createRequest_no_body_witness :
  (NodeApp.method Examples.getWithEmptyBody = Some "GET"
   \/ NodeApp.method Examples.getWithEmptyBody = Some "HEAD"
   \/ NodeApp.skipBody NodeApp.defaultOptions = true)
  /\ exists r w',
       NodeApp.createRequest Examples.modelHost Examples.getWithEmptyBody
         NodeApp.defaultOptions NodeApp.emptyWorld = (Ok r, w')
       /\ NodeApp.req_body r = None.
Proof.
  split; [left; reflexivity|].
  exact (proj2 (createRequest_no_body Examples.modelHost Examples.getWithEmptyBody
                  NodeApp.defaultOptions NodeApp.emptyWorld (or_introl eq_refl))
           _ resolveURL_getWithEmptyBody).
Defined.

Lemma createRequest_default_method_witness :
  (NodeApp.method Examples.noMethod = None
   \/ NodeApp.method Examples.noMethod = Some "")
  /\ exists r w',
       NodeApp.createRequest Examples.modelHost Examples.noMethod
         NodeApp.defaultOptions NodeApp.emptyWorld = (Ok r, w')
       /\ NodeApp.req_method r = "GET".
Proof.
  split; [left; reflexivity|].
  exact (proj2 (createRequest_default_method Examples.modelHost Examples.noMethod
                  NodeApp.defaultOptions NodeApp.emptyWorld (or_introl eq_refl))
           _ resolveURL_noMethod).
Defined.

Lemma createRequest_ignores_empty_override_witness :
  NodeApp.body Examples.postWithEmptyBody = Some (NodeApp.BodyString "")
  /\ NodeApp.method Examples.postWithEmptyBody = Some "POST"
  /\ NodeApp.skipBody NodeApp.defaultOptions = false
  /\ exists r w',
       NodeApp.createRequest Examples.modelHost Examples.postWithEmptyBody
         NodeApp.defaultOptions NodeApp.emptyWorld = (Ok r, w')
       /\ NodeApp.req_method r = "POST"
       /\ NodeApp.req_body r = Some (NodeApp.StreamBody NodeApp.TransportStream)
       /\ NodeApp.req_duplex r = Some "half".
Proof.
  split; [reflexivity|]. split; [reflexivity|]. split; [reflexivity|].
  destruct (createRequest_resolved Examples.modelHost Examples.postWithEmptyBody
              NodeApp.defaultOptions NodeApp.emptyWorld _ resolveURL_postWithEmptyBody)
    as (r & w' & Hc & _).
  exists r, w'. split; [exact Hc|].
  refine (proj2 (createRequest_ignores_empty_override Examples.modelHost
                   Examples.postWithEmptyBody NodeApp.defaultOptions
                   NodeApp.emptyWorld "POST" (or_introl eq_refl) eq_refl
                   _ _ _ eq_refl) r w' Hc); discriminate.
Defined.

Lemma resolveURL_noMethodEmptyBody :
  NodeApp.resolveURL Examples.modelHost Cases.noMethodEmptyBody [] =
  Ok (Url.mkURL "http" "example.com" None "/").
Proof. vm_compute. reflexivity. Qed.

(** C9 as stated fails on a GET request, and on a request without a
    method, which is adapted as a GET request: the empty override is
    ignored, but no body is attached at all. *)
Lemma empty_override_on_GET_attaches_nothing :
  (NodeApp.method Examples.getWithEmptyBody = Some "GET"
   /\ NodeApp.body Examples.getWithEmptyBody = Some (NodeApp.BodyString "")
   /\ exists r w',
        NodeApp.createRequest Examples.modelHost Examples.getWithEmptyBody
          NodeApp.defaultOptions NodeApp.emptyWorld = (Ok r, w')
        /\ NodeApp.req_body r = None
        /\ NodeApp.req_body r <> Some (NodeApp.StreamBody NodeApp.TransportStream)
        /\ NodeApp.req_duplex r <> Some "half")
  /\ (NodeApp.method Cases.noMethodEmptyBody = None
      /\ NodeApp.body Cases.noMethodEmptyBody = Some (NodeApp.BodyString "")
      /\ exists r w',
           NodeApp.createRequest Examples.modelHost Cases.noMethodEmptyBody
             NodeApp.defaultOptions NodeApp.emptyWorld = (Ok r, w')
           /\ NodeApp.req_method r = "GET"
           /\ NodeApp.req_body r = None
           /\ NodeApp.req_duplex r <> Some "half").
Proof.
  split.
  - split; [reflexivity|]. split; [reflexivity|].
    destruct (createRequest_resolved Examples.modelHost Examples.getWithEmptyBody
                NodeApp.defaultOptions NodeApp.emptyWorld _ resolveURL_getWithEmptyBody)
      as (r & w' & Hc & _ & _ & Hbody & Hdup & _).
    exists r, w'. split; [exact Hc|].
    change (NodeApp.bodyAllowed Examples.getWithEmptyBody NodeApp.defaultOptions)
      with false in Hbody, Hdup.
    rewrite Hbody, Hdup. repeat split; discriminate.
  - split; [reflexivity|]. split; [reflexivity|].
    destruct (createRequest_resolved Examples.modelHost Cases.noMethodEmptyBody
                NodeApp.defaultOptions NodeApp.emptyWorld _ resolveURL_noMethodEmptyBody)
      as (r & w' & Hc & _ & Hmeth & Hbody & Hdup & _).
    exists r, w'. split; [exact Hc|].
    change (NodeApp.bodyAllowed Cases.noMethodEmptyBody NodeApp.defaultOptions)
      with false in Hbody, Hdup.
    rewrite Hmeth, Hbody, Hdup. repeat split. discriminate.
Qed.

(** ** createRequest: the request URL *)

Section RequestURL.

Import NodeApp.

Variable H : Host.

(** When the first URL text is accepted, that is the request URL. *)
Lemma resolveURL_primary (req : NodeRequest) (allowed : list RemotePattern)
    (u : Url.URL) :
  newURL H (primaryURLText H req allowed) = Some u ->
  resolveURL H req allowed = Ok u.
Proof. intros Hp. unfold resolveURL. rewrite Hp. reflexivity. Qed.

(** [createRequest] does not throw when the platform accepts the
    fallback text. *)
Lemma resolveURL_fallback_accepted (req : NodeRequest)
    (allowed : list RemotePattern) (u : Url.URL) :
  newURL H (fallbackURLText req) = Some u ->
  exists u', resolveURL H req allowed = Ok u'.
Proof.
  intros Hf. unfold resolveURL.
  destruct (newURL H (primaryURLText H req allowed)); [eauto|].
  rewrite Hf. eauto.
Qed.

(** It throws when the platform refuses both texts. *)
Lemma resolveURL_both_refused (req : NodeRequest) (allowed : list RemotePattern) :
  newURL H (primaryURLText H req allowed) = None ->
  newURL H (fallbackURLText req) = None ->
  resolveURL H req allowed = Throw invalidURL.
Proof. intros Hp Hf. unfold resolveURL. rewrite Hp, Hf. reflexivity. Qed.

(** A non-empty forwarded host the policy rejects is discarded: the host
    of both URL texts is the connection-provided one. *)
Lemma rejected_forwarded_host_is_discarded (req : NodeRequest)
    (allowed : list RemotePattern) (fh : string) :
  getFirstForwardedValue (headers req !! "x-forwarded-host") = Some fh ->
  fh <> "" ->
  validateForwardedHost H fh allowed (protocol req) = false ->
  hostname H req allowed = providedHostname req
  /\ primaryURLText H req allowed =
       protocol req +:+ "://"
       +:+ getHostnamePort (providedHostname req) (forwardedPort req)
       +:+ JS.template (url req).
Proof.
  intros Hfh Hne Hrej.
  assert (Hh : hostname H req allowed = providedHostname req).
  { unfold hostname, forwardedHostname. rewrite Hfh, Hrej.
    destruct fh; [contradiction | reflexivity]. }
  split; [exact Hh|]. unfold primaryURLText. rewrite Hh. reflexivity.
Qed.

(** An empty forwarded host is never offered to the policy and replaces
    the connection-provided host. *)
Lemma empty_forwarded_host_is_kept (req : NodeRequest)
    (allowed : list RemotePattern) :
  getFirstForwardedValue (headers req !! "x-forwarded-host") = Some "" ->
  hostname H req allowed = Some (Single "").
Proof.
  intros Hfh. unfold hostname, forwardedHostname. rewrite Hfh. reflexivity.
Qed.

End RequestURL.

(** C1, at a request whose forwarded port is not a number: the first URL
    text is refused, the fallback text still carries the forwarded port and
    is refused as well, and [createRequest] throws. *)
Theorem createRequest_throws_on_bad_forwarded_port :
  NodeApp.primaryURLText Examples.modelHost Examples.badForwardedPort []
    = "http://example.com:abc/"
  /\ NodeApp.fallbackURLText Examples.badForwardedPort = "http://example.com:abc"
  /\ Url.parse "http://example.com:abc/" = Url.Failure
  /\ Url.parse "http://example.com:abc" = Url.Failure
  /\ NodeApp.createRequest Examples.modelHost Examples.badForwardedPort
       NodeApp.defaultOptions NodeApp.emptyWorld
     = (Throw NodeApp.invalidURL, NodeApp.emptyWorld).
Proof. repeat split; vm_compute; reflexivity. Qed.

(** C3, at a request whose forwarded host is the empty text: the policy
    does not accept it, yet it is the host the URL text is built from, and
    the URL the platform parses out of that text takes its host from the
    request path, not from the [host] header. *)
Theorem empty_forwarded_host_overrides_host_header :
  let allowed := [mkRemotePattern (Some "http") (Some "example.com") None] in
  NodeApp.getFirstForwardedValue
    (NodeApp.headers Examples.emptyForwardedHost !! "x-forwarded-host") = Some ""
  /\ Examples.allowListPolicy "" allowed "http" = false
  /\ NodeApp.providedHostname Examples.emptyForwardedHost = Some (Single "example.com")
  /\ NodeApp.hostname Examples.modelHost Examples.emptyForwardedHost allowed
       = Some (Single "")
  /\ NodeApp.primaryURLText Examples.modelHost Examples.emptyForwardedHost allowed
       = "http:///attacker.test/x"
  /\ exists r w',
       NodeApp.createRequest Examples.modelHost Examples.emptyForwardedHost
         (NodeApp.mkOptions false allowed) NodeApp.emptyWorld = (Ok r, w')
       /\ Url.host (NodeApp.req_url r) = "attacker.test".
Proof.
  intros allowed. repeat (split; [vm_compute; reflexivity|]).
  assert (Hu : NodeApp.resolveURL Examples.modelHost Examples.emptyForwardedHost
                 (NodeApp.allowedDomains (NodeApp.mkOptions false allowed))
               = Ok (Url.mkURL "http" "attacker.test" None "/x"))
    by (vm_compute; reflexivity).
  destruct (createRequest_resolved Examples.modelHost Examples.emptyForwardedHost
              (NodeApp.mkOptions false allowed) NodeApp.emptyWorld _ Hu)
    as (r & w' & Hc & Hurl & _).
  exists r, w'. split; [exact Hc|]. rewrite Hurl. reflexivity.
Qed.

(** A forwarded host that is not on the allow-list: the request URL has
    the host of the [host] header. *)
Example untrusted_forwarded_host_is_not_used :
  NodeApp.resolveURL Examples.modelHost Examples.untrustedForwardedHost
    [mkRemotePattern (Some "http") (Some "example.com") None]
  = Ok (Url.mkURL "http" "example.com" None "/account").
Proof. vm_compute. reflexivity. Qed.

(** ** The dispatcher: which effects a stage can have *)

Section Only.

Import Dispatch.

Variable p : Effect -> bool.

Lemma only_ret {A} (a : A) : only p (ret a).
Proof. intros w. constructor. Qed.

Lemma only_emit (e : Effect) : p e = true -> only p (emit e).
Proof. intros He w. repeat constructor. exact He. Qed.

Lemma only_throw {A} (e : Thrown) : only p (@throw A e).
Proof. intros w. constructor. Qed.

Lemma only_modify (f : NodeApp.World -> NodeApp.World) : only p (modify f).
Proof. intros w. constructor. Qed.

Lemma only_liftState {A} (f : NodeApp.World -> Result A * NodeApp.World) :
  only p (liftState f).
Proof. intros w. unfold liftState. destruct (f w). constructor. Qed.

Lemma only_liftResult {A} (r : Result A) : only p (liftResult r).
Proof. intros w. constructor. Qed.

Lemma only_bind {A B} (m : M A) (k : A -> M B) :
  only p m -> (forall a, only p (k a)) -> only p (bind m k).
Proof.
  intros Hm Hk w. unfold bind. specialize (Hm w).
  destruct (outcome (m w)) as [a|e]; simpl; [|exact Hm].
  apply Forall_app. split; [exact Hm | apply Hk].
Qed.

Lemma only_tryCatch {A} (m : M A) (h : Thrown -> M A) :
  only p m -> (forall e, only p (h e)) -> only p (tryCatch m h).
Proof.
  intros Hm Hh w. unfold tryCatch. specialize (Hm w).
  destruct (outcome (m w)) as [a|e]; simpl; [exact Hm|].
  apply Forall_app. split; [exact Hm | apply Hh].
Qed.

Lemma only_forEach {A} (f : A -> M unit) (l : list A) :
  (forall a, only p (f a)) -> only p (forEach f l).
Proof.
  intros Hf. induction l as [|x l IH]; simpl.
  - apply only_ret.
  - apply only_bind; [apply Hf | intros _; exact IH].
Qed.

End Only.

Create HintDb dispatch.

#[local] Hint Resolve only_ret only_emit only_throw only_modify only_liftState
  only_liftResult only_forEach : dispatch.

Section StaticStage.

Import Dispatch ServeStatic.

Variables (P : Platform) (app : NodeApp.App) (opts : Options)
          (req : NodeApp.NodeRequest).

Lemma injectHeaders_only_headers (pathname : string) :
  only (fun e => match e with SetHeader _ _ => true | _ => false end)
    (injectHeaders P app req pathname).
Proof.
  unfold injectHeaders.
  destruct (NodeApp.headersMap app) as [[|h hm]|]; auto with dispatch.
  apply only_bind; [auto with dispatch|].
  intros [rd|]; [|auto with dispatch].
  destruct (NodeApp.prerender rd); [|auto with dispatch].
  destruct (find _ _); auto with dispatch.
Qed.

Lemma only_weaken {A} (p q : Effect -> bool) (m : M A) :
  (forall e, p e = true -> q e = true) -> only p m -> only q m.
Proof. intros Hpq Hm w. eapply Forall_impl; [apply Hm | exact Hpq]. Qed.

Lemma redirect_effects (location : string) (w : NodeApp.World) :
  redirect location w =
  mkRun [SetStatusCode 301; SetHeader "Location" location; End None] w (Ok tt).
Proof. reflexivity. Qed.

Lemma streamFile_not_middleware (pathname : string) :
  only notMiddleware (streamFile P app opts req pathname).
Proof.
  unfold streamFile. destruct (send P req _ _ _).
  - auto with dispatch.
  - auto with dispatch.
  - repeat (apply only_bind; [auto with dispatch | intros _]).
    auto with dispatch.
Qed.

Lemma serveStatic_not_middleware (urlPath : string) (urlQuery : option string) :
  only notMiddleware (serveStatic P app opts req urlPath urlQuery).
Proof.
  unfold serveStatic. apply only_bind.
  - eapply only_weaken; [|apply injectHeaders_only_headers].
    intros [] He; (discriminate || reflexivity).
  - intros _.
    destruct (default Ignore (trailingSlash opts));
      repeat match goal with
             | |- only _ (if ?b then _ else _) => destruct b
             end;
      try apply streamFile_not_middleware;
      intros w; rewrite redirect_effects; repeat constructor.
Qed.

(** The handler, for a request that has a target. *)
Lemma createStaticHandler_target (u : string) :
  NodeApp.url req = Some u -> u <> "" ->
  createStaticHandler P app opts req =
  (handled <- preExecute P app opts req (hd "" (JS.split "?" u)) ;;
   if handled then ret tt
   else serveStatic P app opts req (hd "" (JS.split "?" u))
          (nth_error (JS.split "?" u) 1)).
Proof.
  intros Hu Hne. unfold createStaticHandler. rewrite Hu.
  destruct u; [contradiction | reflexivity].
Qed.

Lemma createStaticHandler_no_target :
  NodeApp.url req = None \/ NodeApp.url req = Some "" ->
  createStaticHandler P app opts req = emit Ssr.
Proof. unfold createStaticHandler. intros [-> | ->]; reflexivity. Qed.

End StaticStage.

Lemma path_of_target (p tail : string) :
  JS.lacks "?" p = true ->
  tail = "" \/ (exists rest, tail = String "?" rest) ->
  hd "" (JS.split "?" (p +:+ tail)) = p.
Proof.
  intros Hp [-> | [rest ->]].
  - rewrite append_empty_r, (split_lacks _ _ Hp). reflexivity.
  - rewrite (split_append _ _ _ Hp). reflexivity.
Qed.

Lemma hasAssetExtension_suffix (stem x : string) :
  In (JS.toLowerCase x) ServeMiddleware.assetExtensions ->
  ServeStatic.hasAssetExtension (stem +:+ "." +:+ x) = true.
Proof.
  intros Hin. unfold ServeStatic.hasAssetExtension.
  apply existsb_exists. exists (JS.toLowerCase x). split; [exact Hin|].
  rewrite toLowerCase_append. apply endsWith_append.
Qed.

Lemma isPrerenderedHTMLPage_same (urlPath : string) :
  ServeMiddleware.isPrerenderedHTMLPage urlPath = ServeStatic.isPrerenderedHTMLPage urlPath.
Proof. reflexivity. Qed.

Lemma isPrerenderedHTMLPage_asset (urlPath : string) :
  (exists rest, urlPath = "/_astro/" +:+ rest)
  \/ (exists stem x, urlPath = stem +:+ "." +:+ x
                     /\ In (JS.toLowerCase x) ServeMiddleware.assetExtensions) ->
  ServeStatic.isPrerenderedHTMLPage urlPath = false.
Proof.
  unfold ServeStatic.isPrerenderedHTMLPage, JS.startsWith.
  intros [[rest ->] | (stem & x & -> & Hin)].
  - rewrite prefix_append. reflexivity.
  - rewrite (hasAssetExtension_suffix stem x Hin), orb_true_r. reflexivity.
Qed.

(** C6: a request whose path begins with [/_astro/], or ends with a dot
    and one of the asset extensions in any letter case, is classified as
    an asset, and dispatching it neither loads nor invokes the middleware,
    whatever [runMiddlewareOnRequest] is; [/_astro/app.js] and
    [/favicon.png] are such paths. *)
Theorem assets_never_trigger_middleware (P : ServeStatic.Platform)
    (app : NodeApp.App) (opts : ServeStatic.Options) (req : NodeApp.NodeRequest)
    (w : NodeApp.World) (urlPath tail : string) :
  NodeApp.url req = Some (urlPath +:+ tail) ->
  JS.lacks "?" urlPath = true ->
  tail = "" \/ (exists rest, tail = String "?" rest) ->
  (exists rest, urlPath = "/_astro/" +:+ rest)
  \/ (exists stem x, urlPath = stem +:+ "." +:+ x
                     /\ In (JS.toLowerCase x) ServeMiddleware.assetExtensions) ->
  ServeStatic.isPrerenderedHTMLPage urlPath = false
  /\ (forall routeData,
        ServeMiddleware.shouldRunMiddleware (Some urlPath) routeData true = false)
  /\ Forall (fun e => isMiddlewareEffect e = false)
       (Dispatch.effects (ServeStatic.createStaticHandler P app opts req w))
  /\ (forall src,
        ServeStatic.createStaticHandler P (NodeApp.withMiddleware app src) opts req w
        = ServeStatic.createStaticHandler P app opts req w)
  /\ ServeStatic.isPrerenderedHTMLPage "/_astro/app.js" = false
  /\ ServeStatic.isPrerenderedHTMLPage "/favicon.png" = false.
Proof.
  intros Hu Hp Htail Hasset.
  pose proof (isPrerenderedHTMLPage_asset urlPath Hasset) as Hpage.
  split; [exact Hpage|]. split.
  { intros rd. unfold ServeMiddleware.shouldRunMiddleware.
    rewrite isPrerenderedHTMLPage_same, Hpage.
    destruct (JS.truthy urlPath); reflexivity. }
  split; [|split; [|split; reflexivity]].
  - destruct (String.eqb_spec (urlPath +:+ tail) "") as [He|Hne].
    + rewrite (createStaticHandler_no_target P app opts req)
        by (right; congruence).
      repeat constructor.
    + rewrite (createStaticHandler_target P app opts req _ Hu Hne).
      rewrite (path_of_target urlPath tail Hp Htail).
      unfold ServeStatic.preExecute. rewrite Hpage, andb_false_r.
      pose proof (serveStatic_not_middleware P app opts req urlPath
                    (nth_error (JS.split "?" (urlPath +:+ tail)) 1) w) as Hs.
      unfold Dispatch.bind, Dispatch.ret. simpl.
      eapply Forall_impl; [exact Hs|].
      intros e He. unfold notMiddleware in He. now apply negb_true_iff in He.
  - intros src.
    destruct (String.eqb_spec (urlPath +:+ tail) "") as [He|Hne].
    + rewrite !createStaticHandler_no_target by (right; congruence).
      reflexivity.
    + rewrite !(createStaticHandler_target P _ opts req _ Hu Hne).
      rewrite (path_of_target urlPath tail Hp Htail).
      unfold ServeStatic.preExecute. rewrite Hpage, andb_false_r.
      reflexivity.
Qed.

Lemma assets_never_trigger_middleware_witness :
  NodeApp.url Examples.favicon = Some ("/favicon.png" +:+ "")
  /\ JS.lacks "?" "/favicon.png" = true
  /\ Forall (fun e => isMiddlewareEffect e = false)
       (Dispatch.effects
          (ServeStatic.createStaticHandler Examples.platform
             (Examples.appWith Examples.gatekeeper)
             (Examples.options ServeStatic.Ignore true)
             Examples.favicon NodeApp.emptyWorld)).
Proof.
  split; [reflexivity|]. split; [reflexivity|].
  refine (proj1 (proj2 (proj2
    (assets_never_trigger_middleware Examples.platform
       (Examples.appWith Examples.gatekeeper)
       (Examples.options ServeStatic.Ignore true)
       Examples.favicon NodeApp.emptyWorld "/favicon.png" ""
       eq_refl eq_refl (or_introl eq_refl) _)))).
  right. exists "/favicon", "png". split; [reflexivity|].
  simpl. tauto.
Defined.

(** ** The dispatcher: middleware pre-execution *)

Section PreExecution.

Import Dispatch ServeStatic.

Variables (P : Platform) (app : NodeApp.App) (opts : Options)
          (req : NodeApp.NodeRequest).

Lemma bind_run {A B} (m : M A) (k : A -> M B) (w : NodeApp.World) :
  bind m k w =
  match outcome (m w) with
  | Ok a =>
      mkRun (effects (m w) ++ effects (k a (final (m w))))
        (final (k a (final (m w)))) (outcome (k a (final (m w))))
  | Throw e => mkRun (effects (m w)) (final (m w)) (Throw e)
  end.
Proof. reflexivity. Qed.

Lemma target_path (p : string) (q : option string) :
  JS.lacks "?" p = true ->
  hd "" (JS.split "?" (requestTarget p q)) = p.
Proof.
  intros Hp. unfold requestTarget. apply path_of_target; [exact Hp|].
  destruct q; eauto.
Qed.

Lemma target_query (p : string) (q : option string) :
  JS.lacks "?" p = true ->
  (forall s, q = Some s -> JS.lacks "?" s = true) ->
  nth_error (JS.split "?" (requestTarget p q)) 1 = q.
Proof.
  intros Hp Hq. unfold requestTarget. destruct q as [s|].
  - rewrite (split_append _ _ _ Hp), (split_lacks _ _ (Hq s eq_refl)).
    reflexivity.
  - rewrite append_empty_r, (split_lacks _ _ Hp). reflexivity.
Qed.

(** The [catch] clause: an error of the attempt is logged and the block
    reports that nothing was handled. *)
Lemma runMiddleware_catches (w : NodeApp.World) (e : Thrown) :
  outcome (attemptMiddleware P app req w) = Throw e ->
  runMiddleware P app req w =
  mkRun (effects (attemptMiddleware P app req w)
         ++ [LoggerError ("Error executing middleware for static page: "
                          +:+ renderThrown e)])%list
    (final (attemptMiddleware P app req w)) (Ok false).
Proof.
  intros He. unfold runMiddleware, tryCatch. rewrite He. reflexivity.
Qed.

(** The middleware block never throws. *)
Lemma preExecute_total (urlPath : string) (w : NodeApp.World) :
  exists handled, outcome (preExecute P app opts req urlPath w) = Ok handled.
Proof.
  unfold preExecute.
  destruct (runMiddlewareOnRequest opts && isPrerenderedHTMLPage urlPath);
    [|eexists; reflexivity].
  unfold runMiddleware, tryCatch.
  destruct (outcome (attemptMiddleware P app req w)) eqn:Ho; simpl; eauto.
Qed.

(** Loading fails. *)
Lemma attempt_load_fails (w : NodeApp.World) (e : Thrown) :
  NodeApp.middleware (NodeApp.manifest app) = NodeApp.Loader (Throw e) ->
  attemptMiddleware P app req w = mkRun [MiddlewareLoad] w (Throw e).
Proof. intros Hm. unfold attemptMiddleware. rewrite Hm. reflexivity. Qed.

(** Invocation fails. *)
Lemma attempt_invocation_fails (w w1 : NodeApp.World) (e : Thrown)
    (m : NodeApp.MiddlewareModule) (h : NodeApp.MiddlewareHandler)
    (r : NodeApp.Request) :
  NodeApp.middleware (NodeApp.manifest app) = NodeApp.Loaded m
  \/ NodeApp.middleware (NodeApp.manifest app) = NodeApp.Loader (Ok (Some m)) ->
  NodeApp.onRequest m = Some h ->
  NodeApp.createRequest (host P) req
    (NodeApp.mkOptions false (default [] (NodeApp.getAllowedDomains app))) w
  = (Ok r, w1) ->
  h (staticContext r) = NodeApp.MwThrows e ->
  exists pre,
    Forall (fun x => isMiddlewareEffect x = true) pre
    /\ attemptMiddleware P app req w = mkRun pre w1 (Throw e).
Proof.
  intros Hm Hh Hc Hthrow.
  destruct Hm as [Hm | Hm].
  - exists [MiddlewareInvoked (staticContext r)]. split; [repeat constructor|].
    unfold attemptMiddleware. rewrite Hm, Hh.
    unfold executeMiddlewareForStatic, bind, liftState. rewrite Hc. simpl.
    rewrite Hthrow. reflexivity.
  - exists [MiddlewareLoad; MiddlewareInvoked (staticContext r)].
    split; [repeat constructor|].
    unfold attemptMiddleware. rewrite Hm.
    unfold executeMiddlewareForStatic, bind, liftState, liftResult. simpl.
    rewrite Hh. rewrite Hc. simpl. rewrite Hthrow. reflexivity.
Qed.

(** Whatever error the attempt ends with, the handler logs it and goes
    on with the static stage. *)
Lemma handler_fails_open (w : NodeApp.World) (u : string) (e : Thrown) :
  NodeApp.url req = Some u -> u <> "" ->
  runMiddlewareOnRequest opts = true ->
  isPrerenderedHTMLPage (hd "" (JS.split "?" u)) = true ->
  outcome (attemptMiddleware P app req w) = Throw e ->
  let attempt := attemptMiddleware P app req w in
  let static := serveStatic P app opts req (hd "" (JS.split "?" u))
                  (nth_error (JS.split "?" u) 1) (final attempt) in
  let run := createStaticHandler P app opts req w in
  effects run =
    (effects attempt
     ++ LoggerError ("Error executing middleware for static page: "
                     +:+ renderThrown e) :: effects static)%list
  /\ outcome run = outcome static
  /\ final run = final static.
Proof.
  intros Hu Hne Hrun Hpage He. cbv zeta.
  rewrite (createStaticHandler_target P app opts req u Hu Hne), bind_run.
  unfold preExecute. rewrite Hrun, Hpage. cbn [andb].
  rewrite (runMiddleware_catches w e He). cbn [outcome effects final].
  rewrite <- app_assoc. auto.
Qed.

End PreExecution.

(** C7: when middleware pre-execution is attempted and loading the
    middleware or invoking it raises an error, the handler catches it, logs
    it through the adapter logger, and continues with the static stage
    (file streaming, or the SSR fallback when no file is found): before the
    log entry only the middleware ran, and from there on the handler's
    effects, outcome and final state are those of the static stage, so the
    error is not propagated. *)
Theorem middleware_errors_fail_open (P : ServeStatic.Platform) (app : NodeApp.App)
    (opts : ServeStatic.Options) (req : NodeApp.NodeRequest) (w : NodeApp.World)
    (u : string) (e : Thrown) :
  NodeApp.url req = Some u -> u <> "" ->
  ServeStatic.runMiddlewareOnRequest opts = true ->
  ServeStatic.isPrerenderedHTMLPage (hd "" (JS.split "?" u)) = true ->
  (NodeApp.middleware (NodeApp.manifest app) = NodeApp.Loader (Throw e)
   \/ exists m h r w1,
        (NodeApp.middleware (NodeApp.manifest app) = NodeApp.Loaded m
         \/ NodeApp.middleware (NodeApp.manifest app) = NodeApp.Loader (Ok (Some m)))
        /\ NodeApp.onRequest m = Some h
        /\ NodeApp.createRequest (ServeStatic.host P) req
             (NodeApp.mkOptions false (default [] (NodeApp.getAllowedDomains app))) w
           = (Ok r, w1)
        /\ h (ServeStatic.staticContext r) = NodeApp.MwThrows e) ->
  exists pre w1,
    let static := ServeStatic.serveStatic P app opts req (hd "" (JS.split "?" u))
                    (nth_error (JS.split "?" u) 1) w1 in
    let run := ServeStatic.createStaticHandler P app opts req w in
    Forall (fun x => isMiddlewareEffect x = true) pre
    /\ Dispatch.effects run =
         (pre ++ LoggerError ("Error executing middleware for static page: "
                              +:+ renderThrown e) :: Dispatch.effects static)%list
    /\ Dispatch.outcome run = Dispatch.outcome static
    /\ Dispatch.final run = Dispatch.final static.
Proof.
  intros Hu Hne Hrun Hpage Hfail.
  assert (Hattempt : exists pre w1,
             Forall (fun x => isMiddlewareEffect x = true) pre
             /\ ServeStatic.attemptMiddleware P app req w = Dispatch.mkRun pre w1 (Throw e)).
  { destruct Hfail as [Hload | (m & h & r & w1 & Hm & Hh & Hc & Hthrow)].
    - exists [MiddlewareLoad], w. split; [repeat constructor|].
      apply attempt_load_fails. exact Hload.
    - destruct (attempt_invocation_fails P app req w w1 e m h r Hm Hh Hc Hthrow)
        as (pre & Hpre & Ha).
      exists pre, w1. auto. }
  destruct Hattempt as (pre & w1 & Hpre & Ha).
  exists pre, w1. cbv zeta. split; [exact Hpre|].
  assert (Ho : Dispatch.outcome (ServeStatic.attemptMiddleware P app req w) = Throw e)
    by (rewrite Ha; reflexivity).
  pose proof (handler_fails_open P app opts req w u e Hu Hne Hrun Hpage Ho) as Hopen.
  cbv zeta in Hopen. rewrite Ha in Hopen. exact Hopen.
Qed.

Lemma resolveURL_page :
  NodeApp.resolveURL Examples.modelHost Examples.page [] =
  Ok (Url.mkURL "http" "example.com" None "/account").
Proof. vm_compute. reflexivity. Qed.

Lemma middleware_errors_fail_open_witness :
  let app := Examples.appWith Examples.faulty in
  let opts := Examples.options ServeStatic.Ignore true in
  let e := ErrorObject "Error" "boom" in
  NodeApp.url Examples.page = Some "/account"
  /\ ServeStatic.runMiddlewareOnRequest opts = true
  /\ ServeStatic.isPrerenderedHTMLPage (hd "" (JS.split "?" "/account")) = true
  /\ exists pre w1,
       Forall (fun x => isMiddlewareEffect x = true) pre
       /\ Dispatch.effects
            (ServeStatic.createStaticHandler Examples.platform app opts
               Examples.page NodeApp.emptyWorld) =
          (pre ++ LoggerError ("Error executing middleware for static page: "
                               +:+ renderThrown e)
               :: Dispatch.effects
                    (ServeStatic.serveStatic Examples.platform app opts Examples.page
                       (hd "" (JS.split "?" "/account"))
                       (nth_error (JS.split "?" "/account") 1) w1))%list.
Proof.
  intros app opts e.
  split; [reflexivity|]. split; [reflexivity|]. split; [reflexivity|].
  destruct (createRequest_resolved Examples.modelHost Examples.page
              (NodeApp.mkOptions false []) NodeApp.emptyWorld _ resolveURL_page)
    as (r & w1 & Hc & _).
  destruct (middleware_errors_fail_open Examples.platform app opts Examples.page
              NodeApp.emptyWorld "/account" e eq_refl
              ltac:(discriminate) eq_refl eq_refl
              (or_intror (ex_intro _ (NodeApp.mkMiddlewareModule (Some Examples.faulty))
                 (ex_intro _ Examples.faulty
                    (ex_intro _ r
                       (ex_intro _ w1
                          (conj (or_introl eq_refl)
                             (conj eq_refl (conj Hc eq_refl)))))))))
    as (pre & w1' & Hpre & Heff & _).
  exists pre, w1'. split; [exact Hpre | exact Heff].
Defined.

(** ** The dispatcher: trailing-slash mode [never] *)

Section NeverMode.

Import Dispatch ServeStatic.

Variables (P : Platform) (app : NodeApp.App) (opts : Options)
          (req : NodeApp.NodeRequest).

(** Unless it handled the response, the middleware block wrote nothing
    to it. *)
Lemma attemptMiddleware_silent (w : NodeApp.World) :
  outcome (attemptMiddleware P app req w) <> Ok true ->
  Forall (fun e => isSilent e = true) (effects (attemptMiddleware P app req w)).
Proof.
  assert (Hexec : forall h w0,
             outcome (executeMiddlewareForStatic P req h app w0) <> Ok true ->
             Forall (fun e => isSilent e = true)
               (effects (executeMiddlewareForStatic P req h app w0))).
  { intros h w0. unfold executeMiddlewareForStatic.
    rewrite bind_run. unfold liftState.
    destruct (NodeApp.createRequest _ _ _ _) as [[r|e] w1];
      cbn [outcome effects final]; [|intros _; constructor].
    rewrite bind_run. cbn [emit outcome effects final].
    destruct (h (staticContext r)) as [e|cookies nextCalled [resp|]];
      [intros _; repeat constructor | | intros _; repeat constructor].
    destruct nextCalled; [intros _; repeat constructor|].
    intros Hne. exfalso. apply Hne.
    unfold writeResponse. destruct (resp_body resp); reflexivity. }
  unfold attemptMiddleware.
  destruct (NodeApp.middleware (NodeApp.manifest app)) as [|load|m].
  - intros _. constructor.
  - destruct load as [[m|]|e];
      cbn [bind liftResult emit ret outcome effects final List.app];
      try solve [intros _; repeat constructor].
    destruct (NodeApp.onRequest m) as [h|];
      cbn [ret outcome effects final List.app];
      [|intros _; repeat constructor].
    intros Hne. constructor; [reflexivity|].
    apply Hexec. exact Hne.
  - destruct (NodeApp.onRequest m) as [h|]; [apply Hexec | intros _; constructor].
Qed.

Lemma preExecute_silent (urlPath : string) (w : NodeApp.World) :
  outcome (preExecute P app opts req urlPath w) = Ok false ->
  Forall (fun e => isSilent e = true) (effects (preExecute P app opts req urlPath w)).
Proof.
  unfold preExecute.
  destruct (runMiddlewareOnRequest opts && isPrerenderedHTMLPage urlPath);
    [|intros _; constructor].
  unfold runMiddleware, tryCatch.
  destruct (outcome (attemptMiddleware P app req w)) as [handled|e] eqn:Ho.
  - intros Hh. apply attemptMiddleware_silent. congruence.
  - intros _. simpl. apply Forall_app. split.
    + apply attemptMiddleware_silent. congruence.
    + repeat constructor.
Qed.

(** The static stage on a directory with a trailing slash. *)
Lemma serveStatic_never_redirects (w : NodeApp.World) (urlPath : string)
    (urlQuery : option string) :
  trailingSlash opts = Some Never ->
  JS.endsWith "/" urlPath = true -> urlPath <> "/" ->
  lstatIsDirectory P (pathJoin P (client opts) (NodeApp.removeBase app urlPath))
    = Some true ->
  outcome (injectHeaders P app req urlPath w) = Ok tt ->
  serveStatic P app opts req urlPath urlQuery w =
  mkRun (effects (injectHeaders P app req urlPath w)
         ++ [SetStatusCode 301;
             SetHeader "Location" (JS.dropLast urlPath +:+ querySuffix urlQuery);
             End None])%list
    (final (injectHeaders P app req urlPath w)) (Ok tt).
Proof.
  intros Hmode Hslash Hroot Hdir Hinj.
  unfold serveStatic. rewrite bind_run, Hinj, Hmode, Hdir, Hslash. simpl default.
  apply String.eqb_neq in Hroot. rewrite Hroot. simpl.
  reflexivity.
Qed.

End NeverMode.

(** C5, amended: under trailing-slash mode [never], for a request whose
    path ends with a slash, is not [/] and resolves to a directory, whose
    query (if any) contains no further [?], and for which middleware
    pre-execution did not handle the response and the header-map lookup
    completed: the handler answers 301 with [Location] the path without
    its last slash, followed by [?] and the query when the query is not
    empty, and stops; nothing is streamed and SSR is not invoked. *)
Theorem never_mode_redirects_directory_slash (P : ServeStatic.Platform)
    (app : NodeApp.App) (opts : ServeStatic.Options) (req : NodeApp.NodeRequest)
    (w : NodeApp.World) (path : string) (query : option string) :
  ServeStatic.trailingSlash opts = Some ServeStatic.Never ->
  NodeApp.url req = Some (ServeStatic.requestTarget path query) ->
  JS.lacks "?" path = true ->
  (forall q, query = Some q -> JS.lacks "?" q = true) ->
  JS.endsWith "/" path = true ->
  path <> "/" ->
  ServeStatic.lstatIsDirectory P
    (ServeStatic.pathJoin P (ServeStatic.client opts) (NodeApp.removeBase app path))
    = Some true ->
  Dispatch.outcome (ServeStatic.preExecute P app opts req path w) = Ok false ->
  Dispatch.outcome
    (ServeStatic.injectHeaders P app req path
       (Dispatch.final (ServeStatic.preExecute P app opts req path w))) = Ok tt ->
  let pre := ServeStatic.preExecute P app opts req path w in
  let inj := ServeStatic.injectHeaders P app req path (Dispatch.final pre) in
  let run := ServeStatic.createStaticHandler P app opts req w in
  Dispatch.effects run =
    (Dispatch.effects pre ++ Dispatch.effects inj
     ++ [SetStatusCode 301;
         SetHeader "Location" (JS.dropLast path +:+ ServeStatic.querySuffix query);
         End None])%list
  /\ Dispatch.outcome run = Ok tt
  /\ sentStatus (Dispatch.effects run) = [301]
  /\ Forall (fun e => isServing e = false) (Dispatch.effects run).
Proof.
  intros Hmode Hu Hp Hq Hslash Hroot Hdir Hpre Hinj. cbv zeta.
  assert (Hne : ServeStatic.requestTarget path query <> "").
  { destruct path; [discriminate Hslash | discriminate]. }
  pose proof (preExecute_silent P app opts req path w Hpre) as Hsilent.
  pose proof (injectHeaders_only_headers P app req path
                (Dispatch.final (ServeStatic.preExecute P app opts req path w)))
    as Hheaders.
  rewrite (createStaticHandler_target P app opts req _ Hu Hne).
  rewrite (target_path path query Hp), (target_query path query Hp Hq).
  rewrite bind_run, Hpre.
  rewrite (serveStatic_never_redirects P app opts req _ path query
             Hmode Hslash Hroot Hdir Hinj).
  cbn [Dispatch.effects Dispatch.outcome Dispatch.final].
  set (fxPre := Dispatch.effects (ServeStatic.preExecute P app opts req path w)) in *.
  set (fxInj := Dispatch.effects (ServeStatic.injectHeaders P app req path _)) in *.
  assert (HpreQuiet : forall e, isSilent e = true ->
                                isServing e = false /\ sentStatus [e] = []).
  { intros []; simpl; intros; (discriminate || auto). }
  assert (HinjQuiet : forall e,
             match e with SetHeader _ _ => true | _ => false end = true ->
             isServing e = false /\ sentStatus [e] = []).
  { intros []; simpl; intros; (discriminate || auto). }
  assert (Hstatus : forall fx,
             Forall (fun e => isServing e = false /\ sentStatus [e] = []) fx ->
             sentStatus fx = [] /\ Forall (fun e => isServing e = false) fx).
  { induction 1 as [|e fx [Hs He] _ [IH1 IH2]]; [split; constructor|].
    split; [|constructor; assumption].
    destruct e; simpl in *; (discriminate || assumption). }
  destruct (Hstatus fxPre) as [Hs1 Hf1];
    [eapply Forall_impl; [exact Hsilent | exact HpreQuiet]|].
  destruct (Hstatus fxInj) as [Hs2 Hf2];
    [eapply Forall_impl; [exact Hheaders | exact HinjQuiet]|].
  split; [reflexivity|]. split; [reflexivity|]. split.
  - unfold sentStatus in *. rewrite !flat_map_app, Hs1, Hs2. reflexivity.
  - rewrite !Forall_app. repeat split; auto; repeat constructor.
Qed.

Lemma never_mode_redirects_directory_slash_witness :
  let P := Examples.platform in
  let app := Examples.appWith Examples.greeter in
  let opts := Examples.options ServeStatic.Never true in
  let run := ServeStatic.createStaticHandler P app opts Examples.blogSlash
               NodeApp.emptyWorld in
  ServeStatic.trailingSlash opts = Some ServeStatic.Never
  /\ NodeApp.url Examples.blogSlash
     = Some (ServeStatic.requestTarget "/blog/" (Some "page=2"))
  /\ JS.endsWith "/" "/blog/" = true
  /\ ServeStatic.lstatIsDirectory P
       (ServeStatic.pathJoin P (ServeStatic.client opts)
          (NodeApp.removeBase app "/blog/")) = Some true
  /\ Dispatch.outcome
       (ServeStatic.preExecute P app opts Examples.blogSlash "/blog/"
          NodeApp.emptyWorld) = Ok false
  /\ Dispatch.outcome run = Ok tt
  /\ sentStatus (Dispatch.effects run) = [301]
  /\ Forall (fun e => isServing e = false) (Dispatch.effects run).
Proof.
  intros P app opts run.
  assert (Hpre : Dispatch.outcome
                   (ServeStatic.preExecute P app opts Examples.blogSlash "/blog/"
                      NodeApp.emptyWorld) = Ok false)
    by (vm_compute; reflexivity).
  assert (Hinj : Dispatch.outcome
                   (ServeStatic.injectHeaders P app Examples.blogSlash "/blog/"
                      (Dispatch.final
                         (ServeStatic.preExecute P app opts Examples.blogSlash
                            "/blog/" NodeApp.emptyWorld))) = Ok tt)
    by (vm_compute; reflexivity).
  assert (Hq : forall q, Some "page=2" = Some q -> JS.lacks "?" q = true)
    by (intros q Heq; injection Heq as <-; reflexivity).
  assert (Hroot : "/blog/" <> "/") by discriminate.
  split; [reflexivity|]. split; [reflexivity|]. split; [reflexivity|].
  split; [reflexivity|]. split; [exact Hpre|].
  exact (proj2 (never_mode_redirects_directory_slash P app opts Examples.blogSlash
                  NodeApp.emptyWorld "/blog/" (Some "page=2")
                  eq_refl eq_refl eq_refl Hq eq_refl Hroot eq_refl Hpre Hinj)).
Defined.

(** C5 as stated fails when middleware pre-execution handles the
    response: mode [never], a path with a trailing slash that is not the
    root and is a directory, and the client receives the middleware's 302. *)
Lemma never_mode_redirect_preempted_by_middleware :
  let P := Examples.platform in
  let app := Examples.appWith Examples.gatekeeper in
  let opts := Examples.options ServeStatic.Never true in
  let run := ServeStatic.createStaticHandler P app opts Examples.blogSlash
               NodeApp.emptyWorld in
  ServeStatic.trailingSlash opts = Some ServeStatic.Never
  /\ NodeApp.url Examples.blogSlash
     = Some (ServeStatic.requestTarget "/blog/" (Some "page=2"))
  /\ JS.endsWith "/" "/blog/" = true
  /\ "/blog/" <> "/"
  /\ ServeStatic.lstatIsDirectory P
       (ServeStatic.pathJoin P (ServeStatic.client opts)
          (NodeApp.removeBase app "/blog/")) = Some true
  /\ Dispatch.outcome run = Ok tt
  /\ sentStatus (Dispatch.effects run) = [302]
  /\ sentHeaders (Dispatch.effects run) = [("Location", "/login")]
  /\ ~ In (SetStatusCode 301) (Dispatch.effects run).
Proof.
  intros P app opts run.
  repeat (split; [first [reflexivity | discriminate | vm_compute; reflexivity]|]).
  intros Hin.
  assert (Hst : In 301 (sentStatus (Dispatch.effects run))).
  { unfold sentStatus. apply in_flat_map. exists (SetStatusCode 301).
    split; [exact Hin | left; reflexivity]. }
  assert (Hs : sentStatus (Dispatch.effects run) = [302]) by (vm_compute; reflexivity).
  rewrite Hs in Hst. destruct Hst as [Heq | []]. discriminate Heq.
Qed.

(** ** The dispatcher: cookies recorded by the middleware *)

Section Cookies.

Import Dispatch.

Lemma appendCookies_headers (cookies : list string) (r : Response) :
  resp_headers (NodeApp.appendCookies cookies r) =
  (resp_headers r ++ map (fun c => ("set-cookie", c)) cookies)%list.
Proof.
  unfold NodeApp.appendCookies. revert r.
  induction cookies as [|c cookies IH]; intros r; simpl.
  - now rewrite app_nil_r.
  - rewrite IH. simpl. now rewrite <- app_assoc.
Qed.

Lemma setCookies_recorded (cookies : list string) :
  setCookies (map (fun c => ("set-cookie", c)) cookies) = cookies.
Proof.
  unfold setCookies. induction cookies as [|c cookies IH]; [reflexivity|].
  simpl. f_equal. exact IH.
Qed.

(** [executeMiddlewareOnly] merges the recorded cookies into whatever
    response the middleware returned, whether or not [next] was called,
    when the headers of that response accept them. *)
Lemma executeMiddlewareOnly_merges_cookies (H : NodeApp.Host) (app : NodeApp.App)
    (request : NodeApp.Request) (routeData : option NodeApp.RouteData)
    (mw : NodeApp.MiddlewareHandler) (locals : option (list (string * string)))
    (ctx : NodeApp.APIContext) (cookies : list string) (nextCalled : bool)
    (r : Response) :
  NodeApp.createMiddlewareContext H app request routeData locals = Ok ctx ->
  mw ctx = NodeApp.MwSettles cookies nextCalled (Some r) ->
  NodeApp.appendThrows cookies r = false ->
  exists merged,
    NodeApp.executeMiddlewareOnly H app request routeData mw locals
    = Ok (NodeApp.mkMiddlewareResult (negb nextCalled) (Some merged))
    /\ setCookies (resp_headers merged)
       = (setCookies (resp_headers r) ++ cookies)%list.
Proof.
  intros Hctx Hmw Happ. exists (NodeApp.appendCookies cookies r). split.
  - unfold NodeApp.executeMiddlewareOnly. rewrite Hctx, Hmw, Happ.
    destruct nextCalled; reflexivity.
  - rewrite appendCookies_headers. unfold setCookies at 1.
    rewrite filter_app, map_app. fold (setCookies (resp_headers r)).
    fold (setCookies (map (fun c => ("set-cookie", c)) cookies)).
    now rewrite setCookies_recorded.
Qed.

(** The static handler's own [executeMiddlewareForStatic] writes the
    response the middleware returned as it is: the headers sent are the
    response's, whatever was recorded on the context. *)
Lemma executeMiddlewareForStatic_sends_response_headers (P : ServeStatic.Platform)
    (req : NodeApp.NodeRequest) (mw : NodeApp.MiddlewareHandler) (app : NodeApp.App)
    (w w1 : NodeApp.World) (request : NodeApp.Request) (cookies : list string)
    (r : Response) :
  NodeApp.createRequest (ServeStatic.host P) req
    (NodeApp.mkOptions false (default [] (NodeApp.getAllowedDomains app))) w
  = (Ok request, w1) ->
  mw (ServeStatic.staticContext request) = NodeApp.MwSettles cookies false (Some r) ->
  outcome (ServeStatic.executeMiddlewareForStatic P req mw app w) = Ok true
  /\ sentHeaders (effects (ServeStatic.executeMiddlewareForStatic P req mw app w))
     = resp_headers r.
Proof.
  intros Hc Hmw. unfold ServeStatic.executeMiddlewareForStatic.
  rewrite bind_run. unfold liftState. rewrite Hc.
  cbn [outcome effects final]. rewrite bind_run.
  cbn [emit outcome effects final]. rewrite Hmw. cbn [negb].
  unfold writeResponse. destruct (resp_body r); simpl; rewrite app_nil_r; auto.
Qed.

End Cookies.

(** C2, at two dispatches with middleware pre-execution enabled.  A
    middleware that records a cookie and answers without calling [next]:
    the response written carries the middleware's headers and no
    [set-cookie].  A middleware that records a cookie and calls [next]: the
    static file is streamed with no [set-cookie].  [executeMiddlewareOnly]
    does append the recorded cookie in both cases. *)
Theorem static_dispatch_drops_recorded_cookies :
  let P := Examples.platform in
  let opts := Examples.options ServeStatic.Ignore true in
  let answered := ServeStatic.createStaticHandler P
                    (Examples.appWith Examples.gatekeeper) opts Examples.page
                    NodeApp.emptyWorld in
  let continued := ServeStatic.createStaticHandler P
                     (Examples.appWith Examples.greeter) opts Examples.page
                     NodeApp.emptyWorld in
  (sentStatus (Dispatch.effects answered) = [302]
   /\ sentHeaders (Dispatch.effects answered) = [("Location", "/login")]
   /\ setCookies (sentHeaders (Dispatch.effects answered)) = [])
  /\ (In (StreamFile "/account" []) (Dispatch.effects continued)
      /\ sentHeaders (Dispatch.effects continued) = []
      /\ setCookies (sentHeaders (Dispatch.effects continued)) = [])
  /\ (forall request,
        NodeApp.executeMiddlewareOnly Examples.modelHost
          (Examples.appWith Examples.gatekeeper) request None Examples.gatekeeper None
        = Ok (NodeApp.mkMiddlewareResult true
                (Some (mkResponse 302 ""
                         [("Location", "/login");
                          ("set-cookie", "session=abc; Path=/")] None))))
  /\ (forall request,
        NodeApp.executeMiddlewareOnly Examples.modelHost
          (Examples.appWith Examples.greeter) request None Examples.greeter None
        = Ok (NodeApp.mkMiddlewareResult false
                (Some (mkResponse 200 ""
                         [("set-cookie", "middleware-cookie=value; Path=/; HttpOnly")]
                         None)))).
Proof.
  intros P opts answered continued.
  split; [repeat split; vm_compute; reflexivity|].
  split; [|split; intros request; reflexivity].
  split; [|split; vm_compute; reflexivity].
  assert (Hfx : exists ctx, Dispatch.effects continued
                            = [MiddlewareInvoked ctx; StreamFile "/account" []]).
  { eexists. vm_compute. reflexivity. }
  destruct Hfx as [ctx ->]. right. left. reflexivity.
Qed.

(** ** Cancellation wiring *)

Section Wiring.

Import NodeApp.

Lemma removeListener_single (cid : nat) : removeListener cid [cid] = [].
Proof. unfold removeListener. simpl. rewrite Nat.eqb_refl. reflexivity. Qed.

(** [cleanup] on a wired controller that was not cleaned up. *)
Lemma cleanup_live (w : World) (cid : nat) (c : Ctrl) :
  ctrls w !! cid = Some c -> wired c = true -> cleanedUp c = false ->
  cleanup cid w =
  mkWorld
    (<[cid := mkCtrl true true (aborted c) false (canUnsubscribe c)
                (S (cleanupRuns c)) (abortFires c)]> (ctrls w))
    (removeSocketListener c cid (closeListeners w)) None (destroyed w).
Proof. intros Hc Hw Hcl. unfold cleanup. rewrite Hc, Hw, Hcl. reflexivity. Qed.

(** [cleanup] on anything else does nothing. *)
Lemma cleanup_idle (w : World) (cid : nat) :
  (forall c, ctrls w !! cid = Some c -> wired c = false \/ cleanedUp c = true) ->
  cleanup cid w = w.
Proof.
  intros Hc. unfold cleanup. destruct (ctrls w !! cid) as [c|]; [|reflexivity].
  destruct (Hc c eq_refl) as [-> | ->]; [reflexivity|].
  rewrite orb_true_r. reflexivity.
Qed.

(** The clean-up is idempotent. *)
Lemma cleanup_idempotent (w : World) (cid : nat) :
  cleanup cid (cleanup cid w) = cleanup cid w.
Proof.
  destruct (ctrls w !! cid) as [c|] eqn:Hc.
  - destruct (wired c) eqn:Hw; [destruct (cleanedUp c) eqn:Hcl|].
    + rewrite !(cleanup_idle w cid); auto.
      all: intros c' Hc'; rewrite Hc in Hc'; injection Hc' as <-; auto.
    + rewrite (cleanup_live w cid c Hc Hw Hcl).
      apply cleanup_idle. simpl. intros c'.
      rewrite list_lookup_insert_eq by (eapply lookup_lt_Some; exact Hc).
      intros [= <-]. right. reflexivity.
    + rewrite !(cleanup_idle w cid); auto.
      all: intros c' Hc'; rewrite Hc in Hc'; injection Hc' as <-; auto.
  - rewrite !(cleanup_idle w cid); auto.
    all: intros c' Hc'; rewrite Hc in Hc'; discriminate.
Qed.

(** Aborting an aborted controller does nothing. *)
Lemma abort_aborted (w : World) (cid : nat) :
  isAborted cid w = true -> abort cid w = w.
Proof.
  unfold isAborted, abort. destruct (ctrls w !! cid) as [c|]; [|discriminate].
  intros ->. reflexivity.
Qed.

Lemma isAborted_cleanup (w : World) (cid : nat) :
  isAborted cid (cleanup cid w) = isAborted cid w.
Proof.
  unfold isAborted. destruct (ctrls w !! cid) as [c|] eqn:Hc.
  - destruct (wired c) eqn:Hw; [destruct (cleanedUp c) eqn:Hcl|].
    + rewrite cleanup_idle; [rewrite Hc; reflexivity|].
      intros c' Hc'. rewrite Hc in Hc'. injection Hc' as <-. auto.
    + rewrite (cleanup_live w cid c Hc Hw Hcl). simpl.
      rewrite list_lookup_insert_eq by (eapply lookup_lt_Some; exact Hc).
      reflexivity.
    + rewrite cleanup_idle; [rewrite Hc; reflexivity|].
      intros c' Hc'. rewrite Hc in Hc'. injection Hc' as <-. auto.
  - rewrite cleanup_idle; [rewrite Hc; reflexivity|].
    intros c' Hc'. rewrite Hc in Hc'. discriminate.
Qed.

Lemma isAborted_abort (w : World) (cid : nat) (c : Ctrl) :
  ctrls w !! cid = Some c -> isAborted cid (abort cid w) = true.
Proof.
  intros Hc. unfold abort. rewrite Hc.
  destruct (aborted c) eqn:Ha.
  - unfold isAborted. rewrite Hc. exact Ha.
  - match goal with |- isAborted cid (if _ then cleanup cid ?w' else _) = true =>
      assert (Hw' : isAborted cid w' = true) end.
    { unfold isAborted. simpl.
      rewrite list_lookup_insert_eq by (eapply lookup_lt_Some; exact Hc).
      reflexivity. }
    destruct (abortListener c); [rewrite isAborted_cleanup|]; exact Hw'.
Qed.

(** Repeated fire requests are no-ops. *)
Lemma abort_idempotent (w : World) (cid : nat) :
  abort cid (abort cid w) = abort cid w.
Proof.
  destruct (ctrls w !! cid) as [c|] eqn:Hc.
  - apply abort_aborted. eapply isAborted_abort. exact Hc.
  - unfold abort. rewrite Hc. rewrite Hc. reflexivity.
Qed.

(** *** The invariant *)

Lemma wellWired_empty : wellWired emptyWorld.
Proof. split; [intros cid c Hc; discriminate Hc | reflexivity]. Qed.

Lemma wellWired_destroyed (w : World) (d : bool) :
  wellWired w ->
  wellWired (mkWorld (ctrls w) (closeListeners w) (cleanupSlot w) d).
Proof. intros Hw. exact Hw. Qed.

(** Without a slot no controller is waiting. *)
Lemma wellWired_idle (w : World) (cid : nat) (c : Ctrl) :
  wellWired w -> cleanupSlot w = None -> ctrls w !! cid = Some c ->
  wired c = false \/ cleanedUp c = true.
Proof.
  intros [Hok _] Hslot Hc.
  destruct (Hok cid c Hc) as (_ & _ & _ & _ & _ & _ & Hlive).
  destruct (wired c); [|auto]. destruct (cleanedUp c); [auto|].
  specialize (Hlive eq_refl eq_refl). congruence.
Qed.

(** The controller in the slot: wired, waiting, able to unsubscribe, and
    the only listener. *)
Lemma wellWired_slot (w : World) (cid : nat) :
  wellWired w -> cleanupSlot w = Some cid ->
  closeListeners w = [cid]
  /\ ctrls w !! cid = Some (mkCtrl true false false true true 0 0).
Proof.
  intros [Hok Hslot] Hs. rewrite Hs in Hslot.
  destruct Hslot as (Hl & c & Hc & Hw & Hcl). split; [exact Hl|].
  destruct (Hok cid c Hc) as (Hr & Hf & Ha & _ & Hu & Hal & _).
  rewrite Hc. f_equal. destruct c as [wi cl ab al cu cr af]. simpl in *.
  subst wi cl. specialize (Hu eq_refl). subst cu cr al.
  destruct ab; [specialize (Ha eq_refl); discriminate|]. subst af. reflexivity.
Qed.

(** A waiting controller is the one in the slot. *)
Lemma wellWired_live (w : World) (cid : nat) (c : Ctrl) :
  wellWired w -> ctrls w !! cid = Some c ->
  wired c = true -> cleanedUp c = false ->
  cleanupSlot w = Some cid.
Proof.
  intros [Hok _] Hc Hw Hcl.
  destruct (Hok cid c Hc) as (_ & _ & _ & _ & _ & _ & Hlive). auto.
Qed.

(** Retiring the controller of the slot keeps the invariant. *)
Lemma wellWired_retire (w : World) (cid : nat) (a : bool) :
  wellWired w -> cleanupSlot w = Some cid ->
  wellWired
    (mkWorld (<[cid := mkCtrl true true a false true 1 (if a then 1 else 0)]> (ctrls w))
       [] None (destroyed w)).
Proof.
  intros Hw Hs. destruct (wellWired_slot w cid Hw Hs) as [_ Hc].
  split; [|reflexivity]. simpl. intros cid' c'.
  destruct (decide (cid = cid')) as [<-|Hne].
  - rewrite list_lookup_insert_eq by (eapply lookup_lt_Some; exact Hc).
    intros [= <-]. repeat split; simpl; auto; discriminate.
  - rewrite list_lookup_insert_ne by exact Hne. intros Hc'.
    destruct Hw as [Hok _].
    destruct (Hok cid' c' Hc') as (Hr & Hf & Ha & Hu & Hcu & Hal & Hlive).
    repeat split; auto.
    intros Hwi Hcl. specialize (Hlive Hwi Hcl). congruence.
Qed.

(** The clean-up of the slot. *)
Lemma cleanup_slot (w : World) (cid : nat) :
  wellWired w -> cleanupSlot w = Some cid ->
  cleanup cid w =
  mkWorld (<[cid := mkCtrl true true false false true 1 0]> (ctrls w))
    [] None (destroyed w).
Proof.
  intros Hw Hs. destruct (wellWired_slot w cid Hw Hs) as [Hl Hc].
  rewrite (cleanup_live w cid _ Hc eq_refl eq_refl). simpl.
  unfold removeSocketListener. simpl. rewrite Hl, removeListener_single.
  reflexivity.
Qed.

(** The [close] listener of the slot. *)
Lemma onSocketClose_slot (w : World) (cid : nat) :
  wellWired w -> cleanupSlot w = Some cid ->
  onSocketClose cid w =
  mkWorld (<[cid := mkCtrl true true true false true 1 1]> (ctrls w))
    [] None (destroyed w).
Proof.
  intros Hw Hs. destruct (wellWired_slot w cid Hw Hs) as [Hl Hc].
  pose proof (lookup_lt_Some _ _ _ Hc) as Hlt.
  unfold onSocketClose. rewrite (cleanup_slot w cid Hw Hs).
  unfold isAborted, abort. simpl.
  rewrite list_lookup_insert_eq by exact Hlt. simpl.
  rewrite list_insert_insert_eq. reflexivity.
Qed.

Lemma wellWired_cleanup (w : World) (cid : nat) :
  wellWired w -> wellWired (cleanup cid w).
Proof.
  intros Hw. destruct (ctrls w !! cid) as [c|] eqn:Hc.
  - destruct (wired c) eqn:Hwi; [destruct (cleanedUp c) eqn:Hcl|].
    + rewrite cleanup_idle; [exact Hw|].
      intros c' Hc'. rewrite Hc in Hc'. injection Hc' as <-. auto.
    + pose proof (wellWired_live w cid c Hw Hc Hwi Hcl) as Hs.
      rewrite (cleanup_slot w cid Hw Hs).
      exact (wellWired_retire w cid false Hw Hs).
    + rewrite cleanup_idle; [exact Hw|].
      intros c' Hc'. rewrite Hc in Hc'. injection Hc' as <-. auto.
  - rewrite cleanup_idle; [exact Hw|].
    intros c' Hc'. rewrite Hc in Hc'. discriminate.
Qed.

Lemma emitClose_slot (w : World) (cid : nat) :
  wellWired w -> cleanupSlot w = Some cid ->
  emitClose w = onSocketClose cid w.
Proof.
  intros Hw Hs. destruct (wellWired_slot w cid Hw Hs) as [Hl _].
  unfold emitClose. rewrite Hl. reflexivity.
Qed.

Lemma emitClose_quiet (w : World) :
  closeListeners w = [] -> emitClose w = w.
Proof. intros Hl. unfold emitClose. rewrite Hl. reflexivity. Qed.

Lemma wellWired_emitClose (w : World) :
  wellWired w -> wellWired (emitClose w).
Proof.
  intros Hw. destruct (cleanupSlot w) as [cid|] eqn:Hs.
  - rewrite (emitClose_slot w cid Hw Hs), (onSocketClose_slot w cid Hw Hs).
    exact (wellWired_retire w cid true Hw Hs).
  - rewrite emitClose_quiet; [exact Hw|].
    destruct Hw as [_ Hslot]. rewrite Hs in Hslot. exact Hslot.
Qed.

Lemma wellWired_socketClose (w : World) :
  wellWired w -> wellWired (socketClose w).
Proof.
  intros Hw. unfold socketClose. apply wellWired_emitClose.
  exact (wellWired_destroyed w true Hw).
Qed.

(** On a well-wired world the order in which [runCleanup] and the
    [close] listener of the slot are reached does not matter: the
    connection closing under a response leaves what a plain close
    leaves. *)
Lemma closeWhileHeld_wired (w : World) (held : nat) :
  wellWired w -> closeWhileHeld held w = socketClose w.
Proof.
  intros Hw. unfold closeWhileHeld, socketClose, emitClose.
  set (wd := mkWorld (ctrls w) (closeListeners w) (cleanupSlot w) true).
  assert (Hwd : wellWired wd) by exact (wellWired_destroyed w true Hw).
  change (closeListeners w) with (closeListeners wd).
  destruct (cleanupSlot wd) as [cid|] eqn:Hs.
  - destruct (wellWired_slot wd cid Hwd Hs) as [Hl Hc].
    pose proof (lookup_lt_Some _ _ _ Hc) as Hlt.
    rewrite Hl. cbn [fold_left].
    destruct (decide (held = cid)) as [->|Hne].
    + rewrite (onSocketClose_slot wd cid Hwd Hs), (cleanup_slot wd cid Hwd Hs).
      unfold onSocketClose. rewrite cleanup_idle.
      * unfold isAborted, abort. cbn [ctrls].
        rewrite list_lookup_insert_eq by exact Hlt. cbn.
        rewrite list_insert_insert_eq. reflexivity.
      * cbn [ctrls]. intros c.
        rewrite list_lookup_insert_eq by exact Hlt.
        intros [= <-]. right. reflexivity.
    + rewrite (cleanup_idle wd held); [reflexivity|].
      intros c Hc'. destruct (wired c) eqn:Hwi; [|auto].
      destruct (cleanedUp c) eqn:Hcl; [auto|].
      pose proof (wellWired_live wd held c Hwd Hc' Hwi Hcl) as Hslot.
      congruence.
  - assert (Hl : closeListeners wd = []).
    { destruct Hwd as [_ Hslot]. rewrite Hs in Hslot. exact Hslot. }
    rewrite Hl. cbn [fold_left]. apply cleanup_idle.
    intros c Hc. exact (wellWired_idle wd held c Hwd Hs Hc).
Qed.

(** Registering a new controller when the slot is free. *)
Lemma wellWired_register (w : World) (d : bool) :
  wellWired w -> cleanupSlot w = None ->
  wellWired
    (mkWorld (ctrls w ++ [mkCtrl true false false true true 0 0])
       [length (ctrls w)] (Some (length (ctrls w))) d).
Proof.
  intros Hw Hs. split; simpl.
  - intros cid c Hc. apply lookup_snoc_Some in Hc as [[Hlt Hc] | [-> <-]].
    + destruct (wellWired_idle w cid c Hw Hs Hc) as [Hwi | Hcl];
        destruct Hw as [Hok _];
        destruct (Hok cid c Hc) as (Hr & Hf & Ha & Hu & Hcu & Hal & Hlive);
        repeat split; auto; intros; congruence.
    + repeat split; simpl; auto; discriminate.
  - split; [reflexivity|]. eexists.
    split; [apply list_lookup_middle; reflexivity|]. split; reflexivity.
Qed.

Lemma length_retired (w : World) : length (retired w) = length (ctrls w).
Proof. unfold retired. destruct (cleanupSlot w); [apply length_insert | reflexivity]. Qed.

(** The wiring block on an emitter socket, in closed form. *)
Lemma wire_emitter (s : Socket) (w : World) :
  wellWired w -> has_off s || has_removeListener s = true ->
  wire (Some s) w =
  (length (ctrls w),
   if destroyed w
   then mkWorld (retired w ++ [mkCtrl true true true false true 1 1]) [] None true
   else mkWorld (retired w ++ [mkCtrl true false false true true 0 0])
          [length (ctrls w)] (Some (length (ctrls w))) false)
  /\ wellWired (snd (wire (Some s) w)).
Proof.
  intros Hw Hs. unfold wire. rewrite Hs.
  set (w1 := match cleanupSlot w with
             | Some existingCleanup => cleanup existingCleanup w
             | None => w
             end).
  assert (Hw1 : wellWired w1 /\ w1 = mkWorld (retired w) [] None (destroyed w)).
  { unfold w1, retired. destruct (cleanupSlot w) as [old|] eqn:Hslot.
    - rewrite (cleanup_slot w old Hw Hslot). split; [|reflexivity].
      exact (wellWired_retire w old false Hw Hslot).
    - split; [exact Hw|]. destruct Hw as [_ Hl]. rewrite Hslot in Hl.
      destruct w; simpl in *. congruence. }
  destruct Hw1 as [Hw1 Heq].
  pose proof (wellWired_register w1 (destroyed w1) Hw1) as Hreg.
  rewrite Heq in Hreg |- *. simpl in *. specialize (Hreg eq_refl).
  rewrite length_retired in *.
  destruct (destroyed w); [|split; [reflexivity | exact Hreg]].
  rewrite (onSocketClose_slot _ _ Hreg eq_refl). simpl.
  rewrite insert_app_r_alt by (rewrite length_retired; lia).
  rewrite length_retired, Nat.sub_diag. simpl. split; [reflexivity|].
  pose proof (wellWired_retire _ _ true Hreg eq_refl) as Hret. simpl in Hret.
  rewrite insert_app_r_alt in Hret by (rewrite length_retired; lia).
  rewrite length_retired, Nat.sub_diag in Hret. exact Hret.
Qed.

(** *** Reachable worlds *)

Variable H : Host.
Variable req : NodeRequest.
Hypothesis emitter : emitterSocket req = true.

Lemma emitter_socket :
  exists s, getRequestSocket req = Some s
            /\ has_off s || has_removeListener s = true.
Proof.
  unfold emitterSocket in emitter.
  destruct (getRequestSocket req) as [s|]; [eauto | discriminate].
Qed.

Lemma wellWired_step (w : World) (ev : Event) :
  wellWired w -> wellWired (step H req w ev).
Proof.
  intros Hw. destruct ev as [opts| | |cid|held]; simpl.
  - unfold createRequest.
    destruct (resolveURL H req (allowedDomains opts)); [|exact Hw].
    destruct emitter_socket as (s & -> & Hs).
    pose proof (proj2 (wire_emitter s w Hw Hs)) as Hwire.
    destruct (wire (Some s) w). exact Hwire.
  - apply wellWired_socketClose, Hw.
  - apply wellWired_emitClose, Hw.
  - apply wellWired_cleanup, Hw.
  - rewrite (closeWhileHeld_wired w held Hw). apply wellWired_socketClose, Hw.
Qed.

Lemma wellWired_run (evs : list Event) (w : World) :
  wellWired w -> wellWired (run H req evs w).
Proof.
  revert w. induction evs as [|ev evs IH]; intros w Hw; [exact Hw|].
  apply IH, wellWired_step, Hw.
Qed.

(** Once the listeners are gone, further [close] events change nothing. *)
Lemma run_close_quiet (k : nat) (w : World) :
  closeListeners w = [] -> run H req (repeat CloseAgain k) w = w.
Proof.
  intros Hl. induction k as [|k IH]; [reflexivity|].
  simpl. rewrite (emitClose_quiet w Hl). exact IH.
Qed.

(** C4, amended: for a transport request whose socket exposes [on] and
    [off] or [removeListener], in every world reached by adaptations,
    close events (also under a response that holds a clean-up) and
    clean-up calls: no clean-up body and no abort signal ever ran twice,
    and the socket has at most one [close] listener.  Adapting the request
    again first runs the clean-up found on it (it has then run exactly
    once and its listener is gone) and installs the new one in its place;
    however often [close] fires after that, the clean-up and the abort of
    the new request run exactly once.  An adaptation that returned once
    returns again from every such world.  Running a clean-up or an abort a
    second time changes nothing. *)
Theorem readapting_replaces_cleanup_and_close_fires_once (evs : list Event) :
  let w := run H req evs emptyWorld in
  (forall cid c, ctrls w !! cid = Some c ->
                 cleanupRuns c <= 1 /\ abortFires c <= 1)
  /\ length (closeListeners w) <= 1
  /\ (forall opts r w',
        createRequest H req opts w = (Ok r, w') ->
        (forall old, cleanupSlot w = Some old ->
                     ~ In old (closeListeners w')
                     /\ exists c, ctrls w' !! old = Some c
                                  /\ cleanedUp c = true /\ cleanupRuns c = 1)
        /\ length (closeListeners w') <= 1
        /\ (destroyed w = false ->
             cleanupSlot w' = Some (signal r)
             /\ closeListeners w' = [signal r])
        /\ (forall k,
              exists c,
                ctrls (run H req (repeat CloseAgain (S k)) w') !! signal r = Some c
                /\ cleanedUp c = true /\ aborted c = true
                /\ cleanupRuns c = 1 /\ abortFires c = 1))
  /\ (forall opts w0 r0 w0',
        createRequest H req opts w0 = (Ok r0, w0') ->
        exists r w', createRequest H req opts w = (Ok r, w'))
  /\ (forall cid, cleanup cid (cleanup cid w) = cleanup cid w
                  /\ abort cid (abort cid w) = abort cid w).
Proof.
  intros w. assert (Hw : wellWired w) by apply wellWired_run, wellWired_empty.
  split; [|split; [|split; [|split]]].
  - intros cid c Hc. destruct Hw as [Hok _].
    destruct (Hok cid c Hc) as (Hr & Hf & _). rewrite Hr, Hf.
    destruct (cleanedUp c), (aborted c); lia.
  - destruct Hw as [_ Hslot].
    destruct (cleanupSlot w); [destruct Hslot as [-> _] | rewrite Hslot];
      simpl; lia.
  - intros opts r w' Hc.
    destruct (createRequest_fields H _ _ _ _ _ Hc) as (_ & _ & _ & Hwire).
    destruct emitter_socket as (s & Hsock & Hs). rewrite Hsock in Hwire.
    destruct (wire_emitter s w Hw Hs) as [Hform Hw'].
    rewrite <- Hwire in Hw'. simpl in Hw'.
    rewrite Hform in Hwire. injection Hwire as Hsig Hw'eq.
    assert (Hlen : forall c0, length (ctrls w) < length (retired w ++ [c0]))
      by (intros c0; rewrite length_app, length_retired; simpl; lia).
    split; [|split; [|split]].
    + intros old Hold.
      destruct (wellWired_slot w old Hw Hold) as [_ Hlook].
      pose proof (lookup_lt_Some _ _ _ Hlook) as Hlt.
      assert (Hret : forall c0,
                 (retired w ++ [c0])%list !! old
                 = Some (mkCtrl true true false false true 1 0)).
      { intros c0. rewrite lookup_app_l by (rewrite length_retired; exact Hlt).
        unfold retired. rewrite Hold. apply list_lookup_insert_eq, Hlt. }
      rewrite Hw'eq. destruct (destroyed w); simpl.
      * split; [tauto|]. eexists. split; [apply Hret|]. split; reflexivity.
      * split; [intros [Heq | []]; lia|].
        eexists. split; [apply Hret|]. split; reflexivity.
    + rewrite Hw'eq. destruct (destroyed w); simpl; lia.
    + intros Hd. rewrite Hw'eq, Hd, Hsig. split; reflexivity.
    + intros k. simpl.
      destruct (destroyed w) eqn:Hd.
      * rewrite emitClose_quiet, run_close_quiet by (rewrite Hw'eq; reflexivity).
        rewrite Hw'eq, Hsig. simpl. eexists.
        split; [apply list_lookup_middle; rewrite length_retired; reflexivity|].
        repeat split; reflexivity.
      * assert (Hslot' : cleanupSlot w' = Some (signal r))
          by (rewrite Hw'eq, Hsig; reflexivity).
        rewrite (emitClose_slot w' _ Hw' Hslot').
        rewrite (onSocketClose_slot w' _ Hw' Hslot').
        rewrite run_close_quiet by reflexivity. simpl.
        rewrite Hw'eq, Hsig. simpl. eexists.
        split; [apply list_lookup_insert_eq, Hlen|].
        repeat split; reflexivity.
  - intros opts w0 r0 w0' Hc0.
    destruct (createRequest_inv H _ _ _ _ _ Hc0) as [u Hu].
    destruct (createRequest_resolved H req opts w u Hu) as (r & w' & Hc & _).
    exists r, w'. exact Hc.
  - intros cid. split; [apply cleanup_idempotent | apply abort_idempotent].
Qed.

End Wiring.

Lemma readapting_replaces_cleanup_and_close_fires_once_witness :
  NodeApp.emitterSocket Examples.page = true
  /\ let w := NodeApp.run Examples.modelHost Examples.page
                [NodeApp.Adapt NodeApp.defaultOptions] NodeApp.emptyWorld in
     NodeApp.cleanupSlot w = Some 0
     /\ exists r w',
          NodeApp.createRequest Examples.modelHost Examples.page
            NodeApp.defaultOptions w = (Ok r, w')
          /\ NodeApp.closeListeners w' = [NodeApp.signal r]
          /\ NodeApp.cleanupSlot w' = Some (NodeApp.signal r)
          /\ ~ In 0 (NodeApp.closeListeners w')
          /\ exists c, NodeApp.ctrls w' !! 0 = Some c
                       /\ NodeApp.cleanedUp c = true /\ NodeApp.cleanupRuns c = 1.
Proof.
  split; [reflexivity|]. cbv zeta.
  assert (Hw : NodeApp.run Examples.modelHost Examples.page
                 [NodeApp.Adapt NodeApp.defaultOptions] NodeApp.emptyWorld
               = NodeApp.mkWorld [NodeApp.mkCtrl true false false true true 0 0]
                   [0] (Some 0) false)
    by (vm_compute; reflexivity).
  destruct (readapting_replaces_cleanup_and_close_fires_once Examples.modelHost
              Examples.page eq_refl [NodeApp.Adapt NodeApp.defaultOptions])
    as (_ & _ & Hreadapt & Hreturns & _).
  destruct (createRequest_resolved Examples.modelHost Examples.page
              NodeApp.defaultOptions NodeApp.emptyWorld _ resolveURL_page)
    as (r0 & w0 & Hc0 & _).
  destruct (Hreturns NodeApp.defaultOptions NodeApp.emptyWorld r0 w0 Hc0)
    as (r & w' & Hc).
  destruct (Hreadapt NodeApp.defaultOptions r w' Hc) as (Hold & _ & Hnew & _).
  rewrite Hw in Hold, Hnew, Hc |- *.
  split; [reflexivity|]. exists r, w'. split; [exact Hc|].
  destruct (Hnew eq_refl) as [Hslot Hl].
  destruct (Hold 0 eq_refl) as [Hgone Hc0'].
  split; [exact Hl|]. split; [exact Hslot|]. split; [exact Hgone | exact Hc0'].
Defined.

(** C4 as stated fails on a socket that has [on] but neither [off] nor
    [removeListener]: the second adaptation runs the first clean-up, which
    cannot unsubscribe, so both listeners stay on the socket and a close
    aborts the replaced controller too.  It also fails on a socket without
    [on]: nothing is wired, and a close aborts nothing. *)
Lemma readapting_accumulates_listeners_without_off :
  NodeApp.emitterSocket Cases.listenOnly = false
  /\ (let w := NodeApp.run Examples.modelHost Cases.listenOnly
                 [NodeApp.Adapt NodeApp.defaultOptions;
                  NodeApp.Adapt NodeApp.defaultOptions] NodeApp.emptyWorld in
      NodeApp.closeListeners w = [0; 1]
      /\ NodeApp.ctrls (NodeApp.run Examples.modelHost Cases.listenOnly
                          [NodeApp.SocketCloses] w)
         = [NodeApp.mkCtrl true true true false false 1 1;
            NodeApp.mkCtrl true true true false false 1 1])
  /\ NodeApp.ctrls (NodeApp.run Examples.modelHost Cases.bareRequest
                      [NodeApp.Adapt NodeApp.defaultOptions; NodeApp.SocketCloses]
                      NodeApp.emptyWorld)
     = [NodeApp.mkCtrl false false false false false 0 0].
Proof. repeat split; vm_compute; reflexivity. Qed.

(** Two adaptations of one request, then the connection closes and the
    event fires once more: one listener at any time, and each clean-up and
    each abort ran as the counters show. *)
Example readapt_then_close_twice :
  let adapted := NodeApp.run Examples.modelHost Examples.page
                   [NodeApp.Adapt NodeApp.defaultOptions;
                    NodeApp.Adapt NodeApp.defaultOptions] NodeApp.emptyWorld in
  let closed := NodeApp.run Examples.modelHost Examples.page
                  [NodeApp.SocketCloses; NodeApp.CloseAgain] adapted in
  adapted = NodeApp.mkWorld
              [NodeApp.mkCtrl true true false false true 1 0;
               NodeApp.mkCtrl true false false true true 0 0]
              [1] (Some 1) false
  /\ closed = NodeApp.mkWorld
                [NodeApp.mkCtrl true true false false true 1 0;
                 NodeApp.mkCtrl true true true false true 1 1]
                [] None true.
Proof. split; vm_compute; reflexivity. Qed.

(** * Further properties *)

(** ** Forwarded header values *)

Lemma lacks_trimStart (c : ascii) (s : string) :
  JS.lacks c s = true -> JS.lacks c (JS.trimStart s) = true.
Proof.
  induction s as [|d s IH]; simpl; [auto|]. intros Hl.
  destruct (JS.isWhiteSpace d); [|exact Hl].
  apply andb_true_iff in Hl as [_ Hs]. auto.
Qed.

Lemma lacks_trimEnd (c : ascii) (s : string) :
  JS.lacks c s = true -> JS.lacks c (JS.trimEnd s) = true.
Proof.
  induction s as [|d s IH]; simpl; [auto|]. intros Hl.
  apply andb_true_iff in Hl as [Hd Hs]. specialize (IH Hs).
  destruct (JS.trimEnd s) as [|e r].
  - destruct (JS.isWhiteSpace d); simpl; [reflexivity | now rewrite Hd].
  - simpl in *. now rewrite Hd, IH.
Qed.

Lemma trimEnd_idempotent (s : string) : JS.trimEnd (JS.trimEnd s) = JS.trimEnd s.
Proof.
  induction s as [|d s IH]; simpl; [reflexivity|].
  destruct (JS.trimEnd s) as [|e r] eqn:Ht.
  - destruct (JS.isWhiteSpace d) eqn:Hw; simpl; [reflexivity | now rewrite Hw].
  - simpl. simpl in IH. rewrite IH. reflexivity.
Qed.

(** A text that is empty or begins with a character that is not white
    space. *)
Lemma trimStart_shape (s : string) :
  match JS.trimStart s with
  | EmptyString => True
  | String c _ => JS.isWhiteSpace c = false
  end.
Proof.
  induction s as [|d s IH]; simpl; [exact I|].
  destruct (JS.isWhiteSpace d) eqn:Hw; [exact IH | exact Hw].
Qed.

Lemma trim_idempotent (s : string) : JS.trim (JS.trim s) = JS.trim s.
Proof.
  unfold JS.trim. pose proof (trimStart_shape s) as Hshape.
  destruct (JS.trimStart s) as [|c t]; [reflexivity|].
  assert (Hhead : exists r, JS.trimEnd (String c t) = String c r).
  { simpl. destruct (JS.trimEnd t); [rewrite Hshape|]; eauto. }
  destruct Hhead as [r Hr]. rewrite Hr. simpl JS.trimStart. rewrite Hshape.
  rewrite <- Hr. apply trimEnd_idempotent.
Qed.

(** X1: a forwarded header that is present always yields a value: the
    text before the first comma, without the white space around it.  The
    value holds no comma and trimming it again changes nothing. *)
Theorem getFirstForwardedValue_is_trimmed_first_item (v : HeaderValue)
    (first : string) :
  JS.lacks "," first = true ->
  NodeApp.toString v = first
  \/ (exists rest, NodeApp.toString v = first +:+ String "," rest) ->
  NodeApp.getFirstForwardedValue (Some v) = Some (JS.trim first)
  /\ JS.lacks "," (JS.trim first) = true
  /\ JS.trim (JS.trim first) = JS.trim first.
Proof.
  intros Hl Hv. split; [|split].
  - unfold NodeApp.getFirstForwardedValue.
    destruct Hv as [-> | [rest ->]].
    + rewrite (split_lacks _ _ Hl). reflexivity.
    + rewrite (split_append _ _ _ Hl). reflexivity.
  - unfold JS.trim. apply lacks_trimEnd, lacks_trimStart, Hl.
  - apply trim_idempotent.
Qed.

Lemma getFirstForwardedValue_is_trimmed_first_item_witness :
  JS.lacks "," "https" = true
  /\ NodeApp.getFirstForwardedValue (Some (Single "https, http,http")) = Some "https".
Proof.
  split; [reflexivity|].
  exact (proj1 (getFirstForwardedValue_is_trimmed_first_item
                  (Single "https, http,http") "https" eq_refl
                  (or_intror (ex_intro _ " http,http" eq_refl)))).
Defined.

(** ** Host and port *)

Lemma hasPortSuffix_append (h d : string) :
  JS.truthy d = true -> JS.allDigits d = true ->
  NodeApp.hasPortSuffix (h +:+ String ":" d) = true.
Proof.
  intros Ht Hd. induction h as [|c h IH].
  - change (NodeApp.hasPortSuffix (String ":" d) = true). simpl.
    rewrite Ht, Hd. reflexivity.
  - change (NodeApp.hasPortSuffix (String c (h +:+ String ":" d)) = true).
    simpl. rewrite IH. apply orb_true_r.
Qed.

(** X2: a host that already ends in a colon and digits keeps its port,
    whatever the forwarded port is; and once a numeric port was appended,
    resolving again with any other port gives the same text, so a port is
    never appended twice. *)
Theorem getHostnamePort_keeps_port_of_host (h d p : string) (q : option string) :
  JS.truthy d = true -> JS.allDigits d = true ->
  JS.truthy p = true -> JS.allDigits p = true ->
  NodeApp.getHostnamePort (Some (Single (h +:+ String ":" d))) q
    = h +:+ String ":" d
  /\ NodeApp.getHostnamePort
       (Some (Single (NodeApp.getHostnamePort (Some (Single h)) (Some p)))) q
     = NodeApp.getHostnamePort (Some (Single h)) (Some p).
Proof.
  intros Htd Hd Htp Hp. split.
  - unfold NodeApp.getHostnamePort.
    rewrite (hasPortSuffix_append h d Htd Hd). reflexivity.
  - assert (Hs : NodeApp.hasPortSuffix
                   (NodeApp.getHostnamePort (Some (Single h)) (Some p)) = true).
    { unfold NodeApp.getHostnamePort at 1.
      destruct (NodeApp.hasPortSuffix h) eqn:Hh; [exact Hh|].
      rewrite Htp. apply (hasPortSuffix_append h p Htp Hp). }
    unfold NodeApp.getHostnamePort at 1. rewrite Hs. reflexivity.
Qed.

Lemma getHostnamePort_keeps_port_of_host_witness :
  JS.allDigits "8080" = true
  /\ NodeApp.getHostnamePort (Some (Single ("example.com" +:+ String ":" "8080")))
       (Some "443")
     = "example.com" +:+ String ":" "8080".
Proof.
  split; [reflexivity|].
  exact (proj1 (getHostnamePort_keeps_port_of_host "example.com" "8080" "443"
                  (Some "443") eq_refl eq_refl eq_refl eq_refl)).
Defined.

(** ** Client address and body *)

Section Adapter.

Import NodeApp.

Variable H : Host.

Lemma createRequest_clientAddress (req : NodeRequest) (opts : Options)
    (w w' : World) (r : Request) :
  createRequest H req opts w = (Ok r, w') -> clientAddress r = clientIp req.
Proof.
  unfold createRequest.
  destruct (resolveURL H req (allowedDomains opts)); [|discriminate].
  destruct (wire (getRequestSocket req) w). intros [= <- _]. reflexivity.
Qed.

(** X3: the client address stored on a request is never the empty text.
    It is the first [x-forwarded-for] value when that is not empty, and
    otherwise the socket's remote address, if that is not empty. *)
Theorem createRequest_client_address (req : NodeRequest) (opts : Options)
    (w w' : World) (r : Request) :
  createRequest H req opts w = (Ok r, w') ->
  clientAddress r <> Some ""
  /\ (forall ip, getFirstForwardedValue (headers req !! "x-forwarded-for") = Some ip ->
                 ip <> "" -> clientAddress r = Some ip)
  /\ (getFirstForwardedValue (headers req !! "x-forwarded-for") = None
      \/ getFirstForwardedValue (headers req !! "x-forwarded-for") = Some "" ->
      forall ip, remoteAddress (socket req) = Some ip -> ip <> "" ->
                 clientAddress r = Some ip)
  /\ (getFirstForwardedValue (headers req !! "x-forwarded-for") = None
      \/ getFirstForwardedValue (headers req !! "x-forwarded-for") = Some "" ->
      remoteAddress (socket req) = None \/ remoteAddress (socket req) = Some "" ->
      clientAddress r = None).
Proof.
  intros Hc. rewrite (createRequest_clientAddress _ _ _ _ _ Hc).
  unfold clientIp. repeat split.
  - destruct (getFirstForwardedValue _) as [[|c ip]|];
      simpl; try discriminate;
      destruct (remoteAddress (socket req)) as [[|d a]|]; simpl; discriminate.
  - intros ip -> Hne. destruct ip; [contradiction | reflexivity].
  - intros [-> | ->] ip -> Hne; destruct ip; (contradiction || reflexivity).
  - intros [-> | ->] [-> | ->]; reflexivity.
Qed.

Lemma makeRequestBody_duplex (req : NodeRequest) :
  match bp_body (makeRequestBody req) with
  | StreamBody _ => bp_duplex (makeRequestBody req) = Some "half"
  | BufferBody _ => bp_duplex (makeRequestBody req) = None
  end.
Proof.
  unfold makeRequestBody.
  destruct (body req) as [[s| |keys json iter|]|]; simpl;
    try destruct (JS.truthy s); try destruct keys; try destruct iter;
    reflexivity.
Qed.

(** X4: whatever the body override is, a request carries the half-duplex
    marker exactly when its body is a stream; a buffered body never has
    it, and a request without body has none either. *)
Theorem createRequest_duplex_iff_streaming (req : NodeRequest) (opts : Options)
    (w w' : World) (r : Request) :
  createRequest H req opts w = (Ok r, w') ->
  (req_duplex r = Some "half" <-> exists src, req_body r = Some (StreamBody src))
  /\ (req_duplex r = None <->
      req_body r = None \/ exists text, req_body r = Some (BufferBody text)).
Proof.
  intros Hc.
  destruct (createRequest_fields H _ _ _ _ _ Hc) as (_ & -> & -> & _).
  pose proof (makeRequestBody_duplex req) as Hd.
  destruct (bodyAllowed req opts).
  - destruct (bp_body (makeRequestBody req)) as [text|src]; rewrite Hd.
    + split; split.
      * discriminate.
      * intros [src Hs]. discriminate.
      * eauto.
      * reflexivity.
    + split; split.
      * eauto.
      * reflexivity.
      * discriminate.
      * intros [Hn | [text Ht]]; discriminate.
  - split; split.
    + discriminate.
    + intros [src Hs]. discriminate.
    + auto.
    + reflexivity.
Qed.

End Adapter.

Lemma resolveURL_proxied :
  NodeApp.resolveURL Examples.modelHost Cases.proxied [] =
  Ok (Url.mkURL "https" "example.com" None "/upload").
Proof. vm_compute. reflexivity. Qed.

Lemma createRequest_client_address_witness :
  exists r w',
    NodeApp.createRequest Examples.modelHost Cases.proxied NodeApp.defaultOptions
      NodeApp.emptyWorld = (Ok r, w')
    /\ NodeApp.clientAddress r = Some "198.51.100.4".
Proof.
  destruct (createRequest_resolved Examples.modelHost Cases.proxied
              NodeApp.defaultOptions NodeApp.emptyWorld _ resolveURL_proxied)
    as (r & w' & Hc & _).
  exists r, w'. split; [exact Hc|].
  refine (proj1 (proj2 (createRequest_client_address Examples.modelHost
                          Cases.proxied NodeApp.defaultOptions
                          NodeApp.emptyWorld w' r Hc))
            "198.51.100.4" eq_refl _).
  discriminate.
Defined.

Lemma createRequest_duplex_iff_streaming_witness :
  exists r w',
    NodeApp.createRequest Examples.modelHost Cases.proxied NodeApp.defaultOptions
      NodeApp.emptyWorld = (Ok r, w')
    /\ (NodeApp.req_duplex r = Some "half" <->
        exists src, NodeApp.req_body r = Some (NodeApp.StreamBody src)).
Proof.
  destruct (createRequest_resolved Examples.modelHost Cases.proxied
              NodeApp.defaultOptions NodeApp.emptyWorld _ resolveURL_proxied)
    as (r & w' & Hc & _).
  exists r, w'. split; [exact Hc|].
  exact (proj1 (createRequest_duplex_iff_streaming Examples.modelHost
                  Cases.proxied NodeApp.defaultOptions NodeApp.emptyWorld w' r Hc)).
Defined.

(** ** Cancellation wiring: further cases *)

Section WiringCases.

Import NodeApp.

Variable H : Host.
Variable req : NodeRequest.

Lemma unwired_step (w : World) (ev : Event) :
  getRequestSocket req = None -> unwired w -> unwired (step H req w ev).
Proof.
  intros Hsock (Hl & Hs & Hc). destruct ev as [opts| | |cid|held]; simpl.
  - unfold createRequest.
    destruct (resolveURL H req (allowedDomains opts)); [|split; auto].
    rewrite Hsock. simpl. repeat split; auto.
    intros cid c Hlook. apply lookup_snoc_Some in Hlook as [[_ Hlook] | [_ <-]];
      [eauto | reflexivity].
  - unfold socketClose, emitClose. simpl. rewrite Hl. simpl. split; auto.
  - unfold emitClose. rewrite Hl. simpl. split; auto.
  - rewrite cleanup_idle; [split; auto|].
    intros c Hlook. rewrite (Hc cid c Hlook). left. reflexivity.
  - unfold closeWhileHeld. rewrite Hl. cbn [fold_left].
    rewrite cleanup_idle; [split; auto|].
    cbn [ctrls]. intros c Hlook. rewrite (Hc held c Hlook). left. reflexivity.
Qed.

Lemma unwired_run (evs : list Event) (w : World) :
  getRequestSocket req = None -> unwired w -> unwired (run H req evs w).
Proof.
  intros Hsock. revert w. induction evs as [|ev evs IH]; intros w Hw; [exact Hw|].
  simpl. apply IH, unwired_step; assumption.
Qed.

(** X5: a request on which the adapter finds no socket with [on]
    (neither [req.socket] nor the socket of the HTTP/2 session has one) is
    adapted without any wiring.  Through every sequence of adaptations,
    close events and clean-up calls the socket has no [close] listener,
    the request has no clean-up attached, and no controller is ever
    aborted or cleaned up; each adaptation that returns yields a request
    with a signal of its own. *)
Theorem no_emitter_no_wiring (evs : list Event) :
  getRequestSocket req = None ->
  let w := run H req evs emptyWorld in
  unwired w
  /\ forall opts r w',
       createRequest H req opts w = (Ok r, w') ->
       signal r = length (ctrls w)
       /\ ctrls w' !! signal r = Some (mkCtrl false false false false false 0 0)
       /\ closeListeners w' = [] /\ cleanupSlot w' = None.
Proof.
  intros Hsock w.
  assert (Hw : unwired w).
  { apply unwired_run; [exact Hsock|].
    repeat split. intros cid c Hc. discriminate Hc. }
  split; [exact Hw|]. intros opts r w' Hc.
  destruct (createRequest_fields H _ _ _ _ _ Hc) as (_ & _ & _ & Hwire).
  rewrite Hsock in Hwire. simpl in Hwire. injection Hwire as Hsig ->.
  destruct Hw as (Hl & Hs & _). simpl. rewrite Hsig. repeat split; auto.
  apply list_lookup_middle. reflexivity.
Qed.

Hypothesis emitter : emitterSocket req = true.

(** X6: for a request whose socket exposes [on] and [off] or
    [removeListener]: when the socket is already destroyed at adaptation
    time, the new request's signal is aborted at once: its clean-up and
    its abort have run exactly once when [createRequest] returns, and
    neither a listener nor a clean-up is left behind. *)
Theorem destroyed_socket_aborts_at_once (evs : list Event) (opts : Options)
    (r : Request) (w' : World) :
  let w := run H req evs emptyWorld in
  destroyed w = true ->
  createRequest H req opts w = (Ok r, w') ->
  ctrls w' !! signal r = Some (mkCtrl true true true false true 1 1)
  /\ closeListeners w' = []
  /\ cleanupSlot w' = None.
Proof.
  intros w Hd Hc.
  assert (Hw : wellWired w) by (apply wellWired_run; [exact emitter | apply wellWired_empty]).
  destruct (createRequest_fields H _ _ _ _ _ Hc) as (_ & _ & _ & Hwire).
  destruct (emitter_socket req emitter) as (s & Hsock & Hs).
  rewrite Hsock in Hwire.
  destruct (wire_emitter s w Hw Hs) as [Hform _].
  rewrite Hform, Hd in Hwire. injection Hwire as Hsig ->. simpl.
  rewrite Hsig. repeat split.
  apply list_lookup_middle. rewrite length_retired. reflexivity.
Qed.

(** Once cleaned up, a controller stays as it is. *)
Lemma cleaned_up_is_frozen_step (w : World) (ev : Event) (cid : nat) (c : Ctrl) :
  wellWired w -> ctrls w !! cid = Some c -> cleanedUp c = true ->
  ctrls (step H req w ev) !! cid = Some c.
Proof.
  intros Hw Hc Hcl.
  pose proof (lookup_lt_Some _ _ _ Hc) as Hlt.
  assert (Hslot : forall s, cleanupSlot w = Some s -> s <> cid).
  { intros s Hs ->. destruct (wellWired_slot w cid Hw Hs) as [_ Hlook].
    rewrite Hlook in Hc. injection Hc as <-. discriminate. }
  assert (Hclose : forall d,
             ctrls (emitClose (mkWorld (ctrls w) (closeListeners w)
                                 (cleanupSlot w) d)) !! cid = Some c).
  { intros d. pose proof (wellWired_destroyed w d Hw) as Hwd.
    destruct (cleanupSlot w) as [s|] eqn:Hs.
    - rewrite (emitClose_slot _ s Hwd eq_refl), (onSocketClose_slot _ s Hwd eq_refl).
      simpl. rewrite list_lookup_insert_ne by (apply Hslot; reflexivity). exact Hc.
    - rewrite emitClose_quiet; [exact Hc|]. simpl.
      destruct Hw as [_ Hl]. rewrite Hs in Hl. exact Hl. }
  destruct ev as [opts| | |cid'|held]; simpl;
    [| | | |rewrite (closeWhileHeld_wired w held Hw); apply Hclose].
  - unfold createRequest.
    destruct (resolveURL H req (allowedDomains opts)); [|exact Hc].
    destruct (emitter_socket req emitter) as (s & -> & Hs).
    destruct (wire_emitter s w Hw Hs) as [Hform _].
    destruct (wire (Some s) w) as [n w1]. injection Hform as _ ->. simpl.
    assert (Hret : retired w !! cid = Some c).
    { unfold retired. destruct (cleanupSlot w) as [old|] eqn:Hold; [|exact Hc].
      rewrite list_lookup_insert_ne by (apply Hslot; reflexivity). exact Hc. }
    destruct (destroyed w); simpl; apply lookup_app_l_Some, Hret.
  - apply Hclose.
  - specialize (Hclose (destroyed w)). destruct w. exact Hclose.
  - destruct (ctrls w !! cid') as [c'|] eqn:Hc'.
    + destruct (wired c') eqn:Hwi; [destruct (cleanedUp c') eqn:Hcl'|].
      * rewrite cleanup_idle; [exact Hc|].
        intros c0 Hc0. rewrite Hc' in Hc0. injection Hc0 as <-. auto.
      * pose proof (wellWired_live w cid' c' Hw Hc' Hwi Hcl') as Hs.
        rewrite (cleanup_slot w cid' Hw Hs). simpl.
        rewrite list_lookup_insert_ne by (apply Hslot; exact Hs). exact Hc.
      * rewrite cleanup_idle; [exact Hc|].
        intros c0 Hc0. rewrite Hc' in Hc0. injection Hc0 as <-. auto.
    + rewrite cleanup_idle; [exact Hc|].
      intros c0 Hc0. rewrite Hc' in Hc0. discriminate.
Qed.

(** X7: for a request whose socket exposes [on] and [off] or
    [removeListener]: a controller that is cleaned up once an event has
    been handled never changes again, whatever adaptations, clean-up calls
    and close events follow; so a request whose clean-up ran on [finish],
    before the connection closed, is never aborted by a later [close].  A
    clean-up that runs while a [close] is being delivered, from the
    response's own [close], does not stop that delivery: the controller of
    the slot ends cleaned up and aborted. *)
Theorem cleaned_up_is_final (evs later : list Event) (cid : nat) :
  let w := run H req evs emptyWorld in
  (forall c, ctrls w !! cid = Some c -> cleanedUp c = true ->
             ctrls (run H req later w) !! cid = Some c)
  /\ (cleanupSlot w = Some cid ->
      ctrls (step H req w (ClosesWhileHeld cid)) !! cid
      = Some (mkCtrl true true true false true 1 1)).
Proof.
  intros w.
  assert (Hw : wellWired w) by (apply wellWired_run; [exact emitter | apply wellWired_empty]).
  split.
  - intros c Hc Hcl. clearbody w. revert w Hw Hc.
    induction later as [|ev later IH]; intros w Hw Hc; [exact Hc|].
    simpl. apply IH.
    + apply wellWired_step; assumption.
    + apply cleaned_up_is_frozen_step; assumption.
  - intros Hs. cbn [step].
    rewrite (closeWhileHeld_wired w cid Hw). unfold socketClose.
    pose proof (wellWired_destroyed w true Hw) as Hwd.
    rewrite (emitClose_slot _ cid Hwd Hs), (onSocketClose_slot _ cid Hwd Hs).
    cbn [ctrls]. apply list_lookup_insert_eq.
    destruct (wellWired_slot w cid Hw Hs) as [_ Hc].
    eapply lookup_lt_Some. exact Hc.
Qed.

End WiringCases.

Lemma no_emitter_no_wiring_witness :
  NodeApp.getRequestSocket Cases.bareRequest = None
  /\ unwired (NodeApp.run Examples.modelHost Cases.bareRequest
                [NodeApp.Adapt NodeApp.defaultOptions; NodeApp.SocketCloses]
                NodeApp.emptyWorld).
Proof.
  split; [reflexivity|].
  exact (proj1 (no_emitter_no_wiring Examples.modelHost Cases.bareRequest
                  [NodeApp.Adapt NodeApp.defaultOptions; NodeApp.SocketCloses]
                  eq_refl)).
Defined.

Lemma destroyed_socket_aborts_at_once_witness :
  exists r w',
    NodeApp.destroyed
      (NodeApp.run Examples.modelHost Examples.page [NodeApp.SocketCloses]
         NodeApp.emptyWorld) = true
    /\ NodeApp.createRequest Examples.modelHost Examples.page NodeApp.defaultOptions
         (NodeApp.run Examples.modelHost Examples.page [NodeApp.SocketCloses]
            NodeApp.emptyWorld) = (Ok r, w')
    /\ NodeApp.ctrls w' !! NodeApp.signal r
       = Some (NodeApp.mkCtrl true true true false true 1 1).
Proof.
  destruct (createRequest_resolved Examples.modelHost Examples.page
              NodeApp.defaultOptions
              (NodeApp.run Examples.modelHost Examples.page [NodeApp.SocketCloses]
                 NodeApp.emptyWorld) _ resolveURL_page)
    as (r & w' & Hc & _).
  exists r, w'. split; [reflexivity|]. split; [exact Hc|].
  exact (proj1 (destroyed_socket_aborts_at_once Examples.modelHost Examples.page
                  eq_refl [NodeApp.SocketCloses] NodeApp.defaultOptions r w'
                  eq_refl Hc)).
Defined.

Lemma cleaned_up_is_final_witness :
  let c := NodeApp.mkCtrl true true false false true 1 0 in
  let w := NodeApp.run Examples.modelHost Examples.page
             [NodeApp.Adapt NodeApp.defaultOptions; NodeApp.RunCleanup 0]
             NodeApp.emptyWorld in
  NodeApp.emitterSocket Examples.page = true
  /\ NodeApp.ctrls w !! 0 = Some c
  /\ NodeApp.ctrls
       (NodeApp.run Examples.modelHost Examples.page
          [NodeApp.SocketCloses; NodeApp.CloseAgain; NodeApp.ClosesWhileHeld 0] w)
       !! 0 = Some c.
Proof.
  intros c w. split; [reflexivity|].
  assert (Hc : NodeApp.ctrls w !! 0 = Some c) by (vm_compute; reflexivity).
  split; [exact Hc|].
  exact (proj1 (cleaned_up_is_final Examples.modelHost Examples.page eq_refl
                  [NodeApp.Adapt NodeApp.defaultOptions; NodeApp.RunCleanup 0]
                  [NodeApp.SocketCloses; NodeApp.CloseAgain; NodeApp.ClosesWhileHeld 0]
                  0) c Hc eq_refl).
Defined.

(** ** Writing a response *)

Section Writer.

Import ResponseWriter.

Lemma pump_no_head (script : list Read) : List.filter isHead (pump script) = [].
Proof.
  induction script as [|[value|e] rest IH]; simpl; auto.
Qed.

Lemma pump_written (script : list Read) :
  written (pump script) =
  (chunksBeforeFailure script
   ++ (if completes script then [] else ["Internal server error"]))%list.
Proof.
  induction script as [|[value|e] rest IH]; simpl; [reflexivity | | reflexivity].
  unfold written in *. simpl. now rewrite IH.
Qed.

Lemma pump_ending (script : list Read) :
  (completes script = true ->
   In Ended (pump script) /\ forall cause, ~ In (Destroyed cause) (pump script))
  /\ (completes script = false ->
      ~ In Ended (pump script) /\ exists cause, In (Destroyed cause) (pump script)).
Proof.
  induction script as [|[value|e] rest [IHt IHf]]; simpl.
  - split; [|discriminate]. intros _. split; [auto|].
    intros cause [Hx | [Hx | []]]; discriminate.
  - split.
    + intros Hc. destruct (IHt Hc) as [Hin Hno]. split; [auto|].
      intros cause [Hx | Hx]; [discriminate | exact (Hno cause Hx)].
    + intros Hc. destruct (IHf Hc) as [Hno [cause Hin]]. split; [|eauto].
      intros [Hx | Hx]; [discriminate | exact (Hno Hx)].
  - split; [discriminate|]. intros _. split; [|eauto 6].
    intros [Hx | [Hx | [Hx | []]]]; discriminate.
Qed.

(** X8: writing a response sends the head exactly once, before anything
    else is written; the chunks written are those the body yields before
    its first failure, in order, followed by the failure payload when a
    read fails; and the destination is ended when the body completes and
    destroyed when it fails, never both. *)
Theorem writeResponse_head_once_then_chunks (http2 : bool) (source : Source)
    (w : NodeApp.World) :
  let fx := fst (writeResponse http2 source w) in
  let script := default [] (src_body source) in
  List.filter isHead fx = [Head (src_status source) (src_headers source)]
  /\ (exists before after,
        fx = (before ++ Head (src_status source) (src_headers source) :: after)%list
        /\ written before = [])
  /\ written fx =
       (chunksBeforeFailure script
        ++ (if completes script then [] else ["Internal server error"]))%list
  /\ (completes script = true ->
      In Ended fx /\ forall cause, ~ In (Destroyed cause) fx)
  /\ (completes script = false ->
      ~ In Ended fx /\ exists cause, In (Destroyed cause) fx).
Proof.
  intros fx script. subst fx script. unfold writeResponse.
  destruct (src_body source) as [script|]; simpl.
  - pose proof (pump_ending script) as [Ht Hf].
    destruct http2; simpl; rewrite ?pump_no_head.
    + split; [reflexivity|]. split; [exists [], (pump script); auto|].
      split; [apply pump_written|]. split; intros Hc.
      * destruct (Ht Hc) as [Hin Hno]. split; [auto|].
        intros cause [Hx | Hx]; [discriminate | exact (Hno cause Hx)].
      * destruct (Hf Hc) as [Hno [cause Hin]]. split; [|eauto].
        intros [Hx | Hx]; [discriminate | exact (Hno Hx)].
    + split; [reflexivity|].
      split; [exists [StatusMessage (src_statusText source)], (pump script); auto|].
      split; [apply pump_written|]. split; intros Hc.
      * destruct (Ht Hc) as [Hin Hno]. split; [auto|].
        intros cause [Hx | [Hx | Hx]]; [discriminate | discriminate | exact (Hno cause Hx)].
      * destruct (Hf Hc) as [Hno [cause Hin]]. split; [|eauto].
        intros [Hx | [Hx | Hx]]; [discriminate | discriminate | exact (Hno Hx)].
  - destruct http2; simpl.
    + split; [reflexivity|]. split; [exists [], [Ended]; auto|].
      split; [reflexivity|]. split; [|discriminate]. intros _. split; [auto|].
      intros cause [Hx | [Hx | []]]; discriminate.
    + split; [reflexivity|].
      split; [exists [StatusMessage (src_statusText source)], [Ended]; auto|].
      split; [reflexivity|]. split; [|discriminate]. intros _. split; [auto|].
      intros cause [Hx | [Hx | [Hx | []]]]; discriminate.
Qed.

(** The world after a response was written: the clean-up found on the
    request has been called; when a read failed, the connection has closed
    under the response. *)
Lemma writeResponse_world (http2 : bool) (source : Source) (w : NodeApp.World) :
  snd (writeResponse http2 source w) =
  match NodeApp.cleanupSlot w with
  | Some c => if fails source then NodeApp.closeWhileHeld c w else NodeApp.cleanup c w
  | None => if fails source then NodeApp.socketClose w else w
  end.
Proof.
  unfold writeResponse, settle, fire, fails.
  destruct (src_body source) as [script|]; simpl;
    [destruct (completes script)|]; destruct (NodeApp.cleanupSlot w); reflexivity.
Qed.

End Writer.

(** The dispatcher's one-value [writeResponse] is the chunk-by-chunk
    one on a body of at most one chunk: the same head, write and end, in
    the same order, and the same world afterwards. *)
Lemma writeResponse_refines (http2 : bool) (r : Response) (w : NodeApp.World) :
  Dispatch.effects (writeResponse r w) =
    flat_map (ResponseWriter.toEffect (statusText r))
      (fst (ResponseWriter.writeResponse http2 (ResponseWriter.ofResponse r) w))
  /\ Dispatch.final (writeResponse r w) =
       snd (ResponseWriter.writeResponse http2 (ResponseWriter.ofResponse r) w)
  /\ Dispatch.outcome (writeResponse r w) = Ok tt.
Proof.
  split; [|split].
  - unfold writeResponse, ResponseWriter.writeResponse, ResponseWriter.ofResponse.
    destruct (resp_body r); destruct http2; reflexivity.
  - rewrite writeResponse_world.
    unfold writeResponse, ResponseWriter.fails, ResponseWriter.ofResponse.
    destruct (resp_body r); reflexivity.
  - unfold writeResponse. destruct (resp_body r); reflexivity.
Qed.

Section WriterCleanup.

Import ResponseWriter NodeApp.

Variable H : Host.
Variable req : NodeRequest.
Hypothesis emitter : emitterSocket req = true.

(** X9: for a request whose socket exposes [on] and [off] or
    [removeListener]: once a response was written and the destination has
    emitted its events, the clean-up attached by the last adaptation has
    run exactly once, its [close] listener is gone and the request carries
    no clean-up any more.  When the body completed (or there was none) the
    signal is not aborted and the connection is as it was; when a read
    failed, destroying the destination closed the connection, and the
    signal was aborted, once.  Without a clean-up on the request no
    controller changes. *)
Theorem writeResponse_runs_cleanup_once (evs : list Event) (http2 : bool)
    (source : Source) :
  let w := run H req evs emptyWorld in
  let w' := snd (ResponseWriter.writeResponse http2 source w) in
  (forall cid, cleanupSlot w = Some cid ->
     ctrls w' !! cid
     = Some (if fails source
             then mkCtrl true true true false true 1 1
             else mkCtrl true true false false true 1 0)
     /\ closeListeners w' = []
     /\ cleanupSlot w' = None)
  /\ destroyed w' = (fails source || destroyed w)
  /\ (cleanupSlot w = None ->
      ctrls w' = ctrls w /\ closeListeners w' = [] /\ cleanupSlot w' = None).
Proof.
  intros w w'. subst w'. rewrite writeResponse_world.
  assert (Hw : wellWired w) by (apply wellWired_run; [exact emitter | apply wellWired_empty]).
  pose proof (wellWired_destroyed w true Hw) as Hwd.
  assert (Hclosed : forall cid, cleanupSlot w = Some cid ->
             socketClose w =
             mkWorld (<[cid := mkCtrl true true true false true 1 1]> (ctrls w))
               [] None true).
  { intros cid Hs. unfold socketClose.
    rewrite (emitClose_slot _ cid Hwd Hs), (onSocketClose_slot _ cid Hwd Hs).
    reflexivity. }
  assert (Hquiet : cleanupSlot w = None -> closeListeners w = []).
  { intros Hs. destruct Hw as [_ Hl]. rewrite Hs in Hl. exact Hl. }
  split; [|split].
  - intros cid Hs. rewrite Hs.
    destruct (wellWired_slot w cid Hw Hs) as [_ Hc].
    pose proof (lookup_lt_Some _ _ _ Hc) as Hlt.
    destruct (fails source).
    + rewrite (closeWhileHeld_wired w cid Hw), (Hclosed cid Hs). cbn.
      repeat split. apply list_lookup_insert_eq, Hlt.
    + rewrite (cleanup_slot w cid Hw Hs). cbn.
      repeat split. apply list_lookup_insert_eq, Hlt.
  - destruct (cleanupSlot w) as [cid|] eqn:Hs; destruct (fails source); cbn [orb].
    + rewrite (closeWhileHeld_wired w cid Hw), (Hclosed cid eq_refl). reflexivity.
    + rewrite (cleanup_slot w cid Hw Hs). reflexivity.
    + unfold socketClose. rewrite emitClose_quiet by (apply Hquiet; reflexivity).
      reflexivity.
    + reflexivity.
  - intros Hs. rewrite Hs. destruct (fails source).
    + unfold socketClose. rewrite emitClose_quiet by exact (Hquiet Hs).
      cbn. auto.
    + auto.
Qed.

End WriterCleanup.

Lemma writeResponse_runs_cleanup_once_witness :
  let w := NodeApp.run Examples.modelHost Examples.page
             [NodeApp.Adapt NodeApp.defaultOptions] NodeApp.emptyWorld in
  let failing := ResponseWriter.mkSource 200 "OK" []
                   (Some [ResponseWriter.Chunk "<h1>";
                          ResponseWriter.Rejects (ErrorObject "Error" "boom")]) in
  let complete := ResponseWriter.mkSource 200 "OK" []
                    (Some [ResponseWriter.Chunk "<h1>"]) in
  NodeApp.emitterSocket Examples.page = true
  /\ NodeApp.cleanupSlot w = Some 0
  /\ NodeApp.ctrls (snd (ResponseWriter.writeResponse false failing w)) !! 0
     = Some (NodeApp.mkCtrl true true true false true 1 1)
  /\ NodeApp.ctrls (snd (ResponseWriter.writeResponse false complete w)) !! 0
     = Some (NodeApp.mkCtrl true true false false true 1 0).
Proof.
  intros w failing complete. split; [reflexivity|].
  assert (Hs : NodeApp.cleanupSlot w = Some 0) by (vm_compute; reflexivity).
  split; [exact Hs|]. split.
  - exact (proj1 (proj1 (writeResponse_runs_cleanup_once Examples.modelHost
                           Examples.page eq_refl
                           [NodeApp.Adapt NodeApp.defaultOptions] false failing)
                    0 Hs)).
  - exact (proj1 (proj1 (writeResponse_runs_cleanup_once Examples.modelHost
                           Examples.page eq_refl
                           [NodeApp.Adapt NodeApp.defaultOptions] false complete)
                    0 Hs)).
Defined.

(** ** The dispatcher: the stages of a dispatch *)

Section Stages.

Import Dispatch ServeStatic.

Variables (P : Platform) (app : NodeApp.App) (opts : Options)
          (req : NodeApp.NodeRequest).

(** The handler when the middleware block handled the response. *)
Lemma handler_handled (w : NodeApp.World) (u : string) :
  NodeApp.url req = Some u -> u <> "" ->
  outcome (preExecute P app opts req (hd "" (JS.split "?" u)) w) = Ok true ->
  createStaticHandler P app opts req w =
  mkRun (effects (preExecute P app opts req (hd "" (JS.split "?" u)) w))
    (final (preExecute P app opts req (hd "" (JS.split "?" u)) w)) (Ok tt).
Proof.
  intros Hu Hne Hpre.
  rewrite (createStaticHandler_target P app opts req u Hu Hne), bind_run, Hpre.
  cbn [ret effects final outcome]. now rewrite app_nil_r.
Qed.

(** The handler when it did not. *)
Lemma handler_continues (w : NodeApp.World) (u : string) :
  NodeApp.url req = Some u -> u <> "" ->
  outcome (preExecute P app opts req (hd "" (JS.split "?" u)) w) = Ok false ->
  let pre := preExecute P app opts req (hd "" (JS.split "?" u)) w in
  let static := serveStatic P app opts req (hd "" (JS.split "?" u))
                  (nth_error (JS.split "?" u) 1) (final pre) in
  createStaticHandler P app opts req w =
  mkRun (effects pre ++ effects static) (final static) (outcome static).
Proof.
  intros Hu Hne Hpre. cbv zeta.
  rewrite (createStaticHandler_target P app opts req u Hu Hne), bind_run, Hpre.
  reflexivity.
Qed.

Lemma silent_effects_write_nothing (fx : list Effect) :
  Forall (fun e => isSilent e = true) fx ->
  sentStatus fx = [] /\ sentHeaders fx = []
  /\ Forall (fun e => isServing e = false) fx
  /\ Forall (fun e => isResponseWrite e = false) fx
  /\ List.filter isSsr fx = [].
Proof.
  induction 1 as [|e fx He _ (IH1 & IH2 & IH3 & IH4 & IH5)];
    [repeat split; constructor|].
  destruct e; simpl in *; try discriminate; repeat split; auto.
Qed.

Lemma header_effects_write_nothing (fx : list Effect) :
  Forall (fun e => match e with SetHeader _ _ => true | _ => false end = true) fx ->
  sentStatus fx = []
  /\ Forall (fun e => isServing e = false) fx
  /\ Forall (fun e => isResponseWrite e = false) fx
  /\ List.filter isSsr fx = []
  /\ Forall (fun e => forall code, e <> SetStatusCode code) fx.
Proof.
  induction 1 as [|e fx He _ (IH1 & IH2 & IH3 & IH4 & IH5)];
    [repeat split; constructor|].
  destruct e; simpl in *; try discriminate; repeat split; auto.
Qed.

(** The static stage under mode [always], on a path without trailing
    slash that is neither a file name nor an internal path. *)
Lemma serveStatic_always_redirects (w : NodeApp.World) (urlPath : string)
    (urlQuery : option string) :
  trailingSlash opts = Some Always ->
  JS.endsWith "/" urlPath = false ->
  hasFileExtension P urlPath = false ->
  isInternalPath P urlPath = false ->
  outcome (injectHeaders P app req urlPath w) = Ok tt ->
  serveStatic P app opts req urlPath urlQuery w =
  mkRun (effects (injectHeaders P app req urlPath w)
         ++ [SetStatusCode 301;
             SetHeader "Location" (urlPath +:+ "/" +:+ querySuffix urlQuery);
             End None])%list
    (final (injectHeaders P app req urlPath w)) (Ok tt).
Proof.
  intros Hmode Hslash Hext Hint Hinj.
  unfold serveStatic. rewrite bind_run, Hinj, Hmode, Hslash, Hext, Hint.
  reflexivity.
Qed.

End Stages.

(** X10: under trailing-slash mode [always], for a request whose path
    (the target up to its first [?]) has no trailing slash, no file
    extension and is not an internal path, which the middleware block did
    not handle and whose header-map lookup did not throw: the handler
    answers 301 with [Location] the path, a slash, and [?] with the query
    if the query is not empty, and stops, whether or not anything exists
    at that path; nothing is streamed and SSR is not invoked.  The query
    is what stands between the first and the second [?] of the target; a
    further [?] and what follows it are dropped. *)
Theorem always_mode_redirects_to_slash (P : ServeStatic.Platform)
    (app : NodeApp.App) (opts : ServeStatic.Options) (req : NodeApp.NodeRequest)
    (w : NodeApp.World) (u : string) :
  ServeStatic.trailingSlash opts = Some ServeStatic.Always ->
  NodeApp.url req = Some u ->
  u <> "" ->
  let path := hd "" (JS.split "?" u) in
  let query := nth_error (JS.split "?" u) 1 in
  JS.endsWith "/" path = false ->
  ServeStatic.hasFileExtension P path = false ->
  ServeStatic.isInternalPath P path = false ->
  Dispatch.outcome (ServeStatic.preExecute P app opts req path w) = Ok false ->
  Dispatch.outcome
    (ServeStatic.injectHeaders P app req path
       (Dispatch.final (ServeStatic.preExecute P app opts req path w))) = Ok tt ->
  let pre := ServeStatic.preExecute P app opts req path w in
  let inj := ServeStatic.injectHeaders P app req path (Dispatch.final pre) in
  let run := ServeStatic.createStaticHandler P app opts req w in
  Dispatch.effects run =
    (Dispatch.effects pre ++ Dispatch.effects inj
     ++ [SetStatusCode 301;
         SetHeader "Location" (path +:+ "/" +:+ ServeStatic.querySuffix query);
         End None])%list
  /\ Dispatch.outcome run = Ok tt
  /\ sentStatus (Dispatch.effects run) = [301]
  /\ Forall (fun e => isServing e = false) (Dispatch.effects run).
Proof.
  intros Hmode Hu Hne path query Hslash Hext Hint Hpre Hinj. cbv zeta.
  pose proof (handler_continues P app opts req w _ Hu Hne Hpre) as Hrun.
  cbv zeta in Hrun. rewrite Hrun.
  fold path. fold query.
  rewrite (serveStatic_always_redirects P app opts req _ path query
             Hmode Hslash Hext Hint Hinj).
  cbn [Dispatch.effects Dispatch.outcome Dispatch.final].
  destruct (silent_effects_write_nothing _
              (preExecute_silent P app opts req path w Hpre))
    as (Hs1 & _ & Hf1 & _).
  destruct (header_effects_write_nothing _
              (injectHeaders_only_headers P app req path
                 (Dispatch.final (ServeStatic.preExecute P app opts req path w))))
    as (Hs2 & Hf2 & _).
  split; [reflexivity|]. split; [reflexivity|]. split.
  - unfold sentStatus in *. rewrite !flat_map_app, Hs1, Hs2. reflexivity.
  - rewrite !Forall_app. repeat split; auto; repeat constructor.
Qed.

Lemma always_mode_redirects_to_slash_witness :
  let P := Examples.platform in
  let app := Examples.appWith Examples.greeter in
  let opts := Examples.options ServeStatic.Always true in
  let run := ServeStatic.createStaticHandler P app opts Cases.blogTwoQueries
               NodeApp.emptyWorld in
  ServeStatic.trailingSlash opts = Some ServeStatic.Always
  /\ NodeApp.url Cases.blogTwoQueries = Some "/blog?a=1?b=2"
  /\ JS.endsWith "/" "/blog" = false
  /\ Dispatch.outcome run = Ok tt
  /\ sentStatus (Dispatch.effects run) = [301]
  /\ In (SetHeader "Location" "/blog/?a=1") (Dispatch.effects run).
Proof.
  intros P app opts run.
  assert (Hpre : Dispatch.outcome
                   (ServeStatic.preExecute P app opts Cases.blogTwoQueries "/blog"
                      NodeApp.emptyWorld) = Ok false)
    by (vm_compute; reflexivity).
  assert (Hinj : Dispatch.outcome
                   (ServeStatic.injectHeaders P app Cases.blogTwoQueries "/blog"
                      (Dispatch.final
                         (ServeStatic.preExecute P app opts Cases.blogTwoQueries
                            "/blog" NodeApp.emptyWorld))) = Ok tt)
    by (vm_compute; reflexivity).
  assert (Hne : "/blog?a=1?b=2" <> "") by discriminate.
  destruct (always_mode_redirects_to_slash P app opts Cases.blogTwoQueries
              NodeApp.emptyWorld "/blog?a=1?b=2"
              eq_refl eq_refl Hne eq_refl eq_refl eq_refl Hpre Hinj)
    as (Heff & Hout & Hst & _).
  split; [reflexivity|]. split; [reflexivity|]. split; [reflexivity|].
  split; [exact Hout|]. split; [exact Hst|].
  fold run in Heff. rewrite Heff. apply in_or_app. right. apply in_or_app. right.
  right. left. reflexivity.
Defined.

(** ** The dispatcher: what a dispatch can do *)

Section Shapes.

Import Dispatch ServeStatic.

Variables (P : Platform) (app : NodeApp.App) (opts : Options)
          (req : NodeApp.NodeRequest).

Lemma writeResponse_run (r : Response) (w : NodeApp.World) :
  exists body w',
    writeResponse r w =
    mkRun (WriteHead (status r) (statusText r) (resp_headers r) :: body ++ [End None])
      w' (Ok tt)
    /\ (body = [] \/ exists chunk, body = [Write chunk]).
Proof.
  unfold writeResponse. destruct (resp_body r) as [chunk|].
  - eexists [Write chunk], _. split; [reflexivity | eauto].
  - eexists [], _. split; [reflexivity | auto].
Qed.

(** What [executeMiddlewareForStatic] does, by what the adaptation and
    the middleware do. *)
Lemma executeMiddlewareForStatic_run (h : NodeApp.MiddlewareHandler)
    (w : NodeApp.World) :
  match NodeApp.createRequest (host P) req
          (NodeApp.mkOptions false (default [] (NodeApp.getAllowedDomains app))) w with
  | (Throw e, w1) =>
      executeMiddlewareForStatic P req h app w = mkRun [] w1 (Throw e)
  | (Ok request, w1) =>
      match h (staticContext request) with
      | NodeApp.MwThrows e =>
          executeMiddlewareForStatic P req h app w =
          mkRun [MiddlewareInvoked (staticContext request)] w1 (Throw e)
      | NodeApp.MwSettles _ false (Some response) =>
          executeMiddlewareForStatic P req h app w =
          mkRun (MiddlewareInvoked (staticContext request)
                 :: effects (writeResponse response w1))
            (final (writeResponse response w1)) (Ok true)
      | NodeApp.MwSettles _ _ _ =>
          executeMiddlewareForStatic P req h app w =
          mkRun [MiddlewareInvoked (staticContext request)] w1 (Ok false)
      end
  end.
Proof.
  unfold executeMiddlewareForStatic. rewrite bind_run. unfold liftState.
  destruct (NodeApp.createRequest _ _ _ _) as [[request|e] w1];
    cbn [outcome effects final]; [|reflexivity].
  rewrite bind_run. cbn [emit outcome effects final].
  destruct (h (staticContext request)) as [e|cookies [|] [response|]];
    try reflexivity.
  cbn [negb]. destruct (writeResponse_run response w1) as (body & w' & Hw & _).
  rewrite bind_run, Hw. cbn [ret outcome effects final List.app].
  rewrite app_nil_r. reflexivity.
Qed.

(** The [try] block, when the manifest gives a module with [onRequest]. *)
Lemma attemptMiddleware_with_handler (m : NodeApp.MiddlewareModule)
    (h : NodeApp.MiddlewareHandler) (w : NodeApp.World) :
  NodeApp.middleware (NodeApp.manifest app) = NodeApp.Loaded m
  \/ NodeApp.middleware (NodeApp.manifest app) = NodeApp.Loader (Ok (Some m)) ->
  NodeApp.onRequest m = Some h ->
  exists load,
    (load = [] \/ load = [MiddlewareLoad])
    /\ attemptMiddleware P app req w =
       mkRun (load ++ effects (executeMiddlewareForStatic P req h app w))
         (final (executeMiddlewareForStatic P req h app w))
         (outcome (executeMiddlewareForStatic P req h app w)).
Proof.
  intros [Hm | Hm] Hh; unfold attemptMiddleware; rewrite Hm.
  - exists []. split; [auto|]. rewrite Hh.
    destruct (executeMiddlewareForStatic P req h app w). reflexivity.
  - exists [MiddlewareLoad]. split; [auto|].
    rewrite bind_run. cbn [emit outcome effects final].
    rewrite bind_run. cbn [liftResult outcome effects final]. rewrite Hh.
    destruct (executeMiddlewareForStatic P req h app w) as [fx wf [b|e]];
      reflexivity.
Qed.

(** The [try] block otherwise: nothing is invoked. *)
Lemma attemptMiddleware_without_handler (w : NodeApp.World) :
  (forall m h,
     (NodeApp.middleware (NodeApp.manifest app) = NodeApp.Loaded m
      \/ NodeApp.middleware (NodeApp.manifest app) = NodeApp.Loader (Ok (Some m))) ->
     NodeApp.onRequest m <> Some h) ->
  exists load o,
    (load = [] \/ load = [MiddlewareLoad])
    /\ attemptMiddleware P app req w = mkRun load w o
    /\ o <> Ok true.
Proof.
  intros Hno. unfold attemptMiddleware.
  destruct (NodeApp.middleware (NodeApp.manifest app)) as [|[[m|]|e]|m] eqn:Hm.
  - exists [], (Ok false). repeat split; auto; discriminate.
  - destruct (NodeApp.onRequest m) as [h|] eqn:Hh;
      [exfalso; exact (Hno m h (or_intror eq_refl) Hh)|].
    exists [MiddlewareLoad], (Ok false). split; [auto|]. split; [|discriminate].
    rewrite bind_run. cbn [emit outcome effects final].
    rewrite bind_run. cbn [liftResult outcome effects final]. rewrite Hh.
    reflexivity.
  - exists [MiddlewareLoad], (Ok false). split; [auto|]. split; [|discriminate].
    reflexivity.
  - exists [MiddlewareLoad], (Throw e). split; [auto|]. split; [|discriminate].
    reflexivity.
  - destruct (NodeApp.onRequest m) as [h|] eqn:Hh;
      [exfalso; exact (Hno m h (or_introl eq_refl) Hh)|].
    exists [], (Ok false). repeat split; auto; discriminate.
Qed.

End Shapes.

Section StageEffects.

Import Dispatch ServeStatic.

Variables (P : Platform) (app : NodeApp.App) (opts : Options)
          (req : NodeApp.NodeRequest).

Lemma writeResponse_stage (r : Response) : only isMiddlewareStageEffect (writeResponse r).
Proof.
  intros w. destruct (writeResponse_run r w) as (body & w' & -> & Hb).
  simpl. constructor; [reflexivity|]. apply Forall_app. split; [|repeat constructor].
  destruct Hb as [-> | [chunk ->]]; repeat constructor.
Qed.

Lemma executeMiddlewareForStatic_stage (h : NodeApp.MiddlewareHandler) :
  only isMiddlewareStageEffect (executeMiddlewareForStatic P req h app).
Proof.
  intros w. pose proof (executeMiddlewareForStatic_run P app req h w) as Hrun.
  destruct (NodeApp.createRequest _ _ _ _) as [[request|e] w1];
    [|rewrite Hrun; constructor].
  destruct (h (staticContext request)) as [e|cookies [|] [response|]];
    rewrite Hrun; cbn [effects]; try (repeat constructor; fail).
  constructor; [reflexivity | apply writeResponse_stage].
Qed.

Lemma attemptMiddleware_stage : only isMiddlewareStageEffect (attemptMiddleware P app req).
Proof.
  unfold attemptMiddleware.
  assert (Hrun : forall m,
             only isMiddlewareStageEffect
               (match m with
                | Some middlewareModule =>
                    match NodeApp.onRequest middlewareModule with
                    | Some onRequest => executeMiddlewareForStatic P req onRequest app
                    | None => ret false
                    end
                | None => ret false
                end)).
  { intros [m|]; [|apply only_ret].
    destruct (NodeApp.onRequest m);
      [apply executeMiddlewareForStatic_stage | apply only_ret]. }
  destruct (NodeApp.middleware (NodeApp.manifest app)) as [|load|m].
  - apply only_ret.
  - apply only_bind; [apply only_emit; reflexivity | intros _].
    apply only_bind; [apply only_liftResult | exact Hrun].
  - apply (Hrun (Some m)).
Qed.

(** The middleware block only loads and invokes the middleware, logs, and
    writes the middleware's response. *)
Lemma preExecute_stage (urlPath : string) :
  only isMiddlewareStageEffect (preExecute P app opts req urlPath).
Proof.
  unfold preExecute.
  destruct (runMiddlewareOnRequest opts && isPrerenderedHTMLPage urlPath);
    [|apply only_ret].
  apply only_tryCatch; [apply attemptMiddleware_stage|].
  intros e. apply only_bind; [apply only_emit; reflexivity | intros _; apply only_ret].
Qed.

Lemma streamFile_stage (pathname : string) :
  only isStaticStageEffect (streamFile P app opts req pathname).
Proof.
  unfold streamFile. destruct (send P req _ _ _).
  - apply only_emit. reflexivity.
  - apply only_emit. reflexivity.
  - repeat (apply only_bind; [apply only_emit; reflexivity | intros _]).
    apply only_emit. reflexivity.
Qed.

Lemma serveStatic_stage (urlPath : string) (urlQuery : option string) :
  only isStaticStageEffect (serveStatic P app opts req urlPath urlQuery).
Proof.
  unfold serveStatic. apply only_bind.
  - eapply only_weaken; [|apply injectHeaders_only_headers].
    intros [] He; (discriminate || reflexivity).
  - intros _.
    destruct (default Ignore (trailingSlash opts));
      repeat match goal with
             | |- only _ (if ?b then _ else _) => destruct b
             end;
      try apply streamFile_stage;
      intros w; rewrite redirect_effects; repeat constructor.
Qed.

(** The invocations of the middleware block: none, or one, with the
    context of a static page. *)
Lemma preExecute_invocations (urlPath : string) (w : NodeApp.World) :
  invocations (effects (preExecute P app opts req urlPath w)) = []
  \/ exists request,
       invocations (effects (preExecute P app opts req urlPath w))
       = [staticContext request].
Proof.
  unfold preExecute.
  destruct (runMiddlewareOnRequest opts && isPrerenderedHTMLPage urlPath);
    [|left; reflexivity].
  assert (Hattempt :
            invocations (effects (attemptMiddleware P app req w)) = []
            \/ exists request,
                 invocations (effects (attemptMiddleware P app req w))
                 = [staticContext request]).
  { assert (Hexec : forall h load,
               load = [] \/ load = [MiddlewareLoad] ->
               invocations (load ++ effects (executeMiddlewareForStatic P req h app w)) = []
               \/ exists request,
                    invocations (load ++ effects (executeMiddlewareForStatic P req h app w))
                    = [staticContext request]).
    { intros h load Hload. unfold invocations. rewrite flat_map_app.
      assert (Hl : flat_map (fun e => match e with
                                      | MiddlewareInvoked ctx => [ctx]
                                      | _ => []
                                      end) load = [])
        by (destruct Hload as [-> | ->]; reflexivity).
      rewrite Hl. simpl.
      pose proof (executeMiddlewareForStatic_run P app req h w) as Hrun.
      destruct (NodeApp.createRequest _ _ _ _) as [[request|e] w1];
        [|rewrite Hrun; left; reflexivity].
      destruct (h (staticContext request)) as [e|cookies [|] [response|]];
        rewrite Hrun; cbn [effects flat_map List.app];
        try (right; exists request; reflexivity).
      right. exists request. f_equal.
      destruct (writeResponse_run response w1) as (body & w' & -> & Hb).
      cbn [effects flat_map List.app]. rewrite flat_map_app.
      destruct Hb as [-> | [chunk ->]]; reflexivity. }
    destruct (NodeApp.middleware (NodeApp.manifest app)) as [|[[m|]|e]|m] eqn:Hm.
    - left. unfold attemptMiddleware. rewrite Hm. reflexivity.
    - destruct (NodeApp.onRequest m) as [h|] eqn:Hh.
      + destruct (attemptMiddleware_with_handler P app req m h w
                    (or_intror Hm) Hh) as (load & Hload & ->).
        simpl. apply Hexec, Hload.
      + left. unfold attemptMiddleware. rewrite Hm.
        rewrite bind_run. cbn [emit outcome effects final].
        rewrite bind_run. cbn [liftResult outcome effects final]. rewrite Hh.
        reflexivity.
    - left. unfold attemptMiddleware. rewrite Hm. reflexivity.
    - left. unfold attemptMiddleware. rewrite Hm. reflexivity.
    - destruct (NodeApp.onRequest m) as [h|] eqn:Hh.
      + destruct (attemptMiddleware_with_handler P app req m h w
                    (or_introl Hm) Hh) as (load & Hload & ->).
        simpl. apply Hexec, Hload.
      + left. unfold attemptMiddleware. rewrite Hm, Hh. reflexivity. }
  unfold runMiddleware, tryCatch.
  destruct (outcome (attemptMiddleware P app req w)); [exact Hattempt|].
  simpl. unfold invocations in *. rewrite flat_map_app. simpl.
  rewrite app_nil_r. exact Hattempt.
Qed.

Lemma stage_effects_observed (fx : list Effect) :
  Forall (fun e => isMiddlewareStageEffect e = true) fx ->
  List.filter isSsr fx = []
  /\ Forall (fun e => isServing e = false) fx
  /\ Forall (fun e => isStatusSetter e = false) fx.
Proof.
  induction 1 as [|e fx He _ (IH1 & IH2 & IH3)]; [repeat split; constructor|].
  destruct e; simpl in *; try discriminate; repeat split; auto.
Qed.

Lemma static_effects_observed (fx : list Effect) :
  Forall (fun e => isStaticStageEffect e = true) fx ->
  invocations fx = [].
Proof.
  induction 1 as [|e fx He _ IH]; [reflexivity|].
  destruct e; simpl in *; try discriminate; auto.
Qed.

End StageEffects.

(** ** The dispatcher: every dispatch *)

Section EveryDispatch.

Import Dispatch ServeStatic.

Variables (P : Platform) (app : NodeApp.App) (opts : Options)
          (req : NodeApp.NodeRequest).

(** The static stage hands over to SSR at most once, and then it has
    written nothing but headers. *)
Lemma serveStatic_ssr (urlPath : string) (urlQuery : option string)
    (w : NodeApp.World) :
  let fx := effects (serveStatic P app opts req urlPath urlQuery w) in
  List.filter isSsr fx = []
  \/ (List.filter isSsr fx = [Ssr]
      /\ Forall (fun e => isResponseWrite e = false) fx).
Proof.
  cbv zeta. unfold serveStatic. rewrite bind_run.
  destruct (header_effects_write_nothing _
              (injectHeaders_only_headers P app req urlPath w))
    as (_ & _ & Hw & Hs & _).
  destruct (outcome (injectHeaders P app req urlPath w)) as [[]|e];
    cbn [effects]; [|left; exact Hs].
  rewrite List.filter_app, Hs, Forall_app. cbn [List.app].
  assert (Hstream : forall pathname w0,
             List.filter isSsr (effects (streamFile P app opts req pathname w0)) = []
             \/ (List.filter isSsr (effects (streamFile P app opts req pathname w0))
                 = [Ssr]
                 /\ Forall (fun e => isResponseWrite e = false)
                      (effects (streamFile P app opts req pathname w0)))).
  { intros pathname w0. unfold streamFile. destruct (send P req _ _ _).
    - right. split; [reflexivity | repeat constructor].
    - left. reflexivity.
    - left. reflexivity. }
  assert (Hgoal : forall m : M unit,
             (forall w0, List.filter isSsr (effects (m w0)) = []
                         \/ (List.filter isSsr (effects (m w0)) = [Ssr]
                             /\ Forall (fun e => isResponseWrite e = false)
                                  (effects (m w0)))) ->
             List.filter isSsr (effects (m (final (injectHeaders P app req urlPath w)))) = []
             \/ (List.filter isSsr (effects (m (final (injectHeaders P app req urlPath w))))
                 = [Ssr]
                 /\ Forall (fun e => isResponseWrite e = false)
                      (effects (injectHeaders P app req urlPath w))
                 /\ Forall (fun e => isResponseWrite e = false)
                      (effects (m (final (injectHeaders P app req urlPath w)))))).
  { intros m Hm. destruct (Hm (final (injectHeaders P app req urlPath w)))
      as [Hn | [Hy Hf]]; [left; exact Hn | right; auto]. }
  destruct (default Ignore (trailingSlash opts));
    repeat match goal with
           | |- context [if ?b then _ else _] => destruct b
           end;
    try (apply Hgoal; intros w0; apply Hstream);
    left; reflexivity.
Qed.

(** X13: in every dispatch the SSR fallback is invoked at most once, and
    when it is, the handler has put no status and no body on the response
    and streamed no file. *)
Theorem ssr_at_most_once_and_alone (w : NodeApp.World) :
  let fx := effects (createStaticHandler P app opts req w) in
  length (List.filter isSsr fx) <= 1
  /\ (In Ssr fx -> Forall (fun e => isResponseWrite e = false) fx).
Proof.
  cbv zeta.
  assert (Hcases :
            List.filter isSsr (effects (createStaticHandler P app opts req w)) = []
            \/ (List.filter isSsr (effects (createStaticHandler P app opts req w))
                = [Ssr]
                /\ Forall (fun e => isResponseWrite e = false)
                     (effects (createStaticHandler P app opts req w)))).
  { destruct (NodeApp.url req) as [u|] eqn:Hu;
      [destruct (String.eqb_spec u "") as [->|Hne]|].
    - rewrite createStaticHandler_no_target by auto.
      right. split; [reflexivity | repeat constructor].
    - destruct (preExecute_total P app opts req (hd "" (JS.split "?" u)) w)
        as [[|] Hpre].
      + rewrite (handler_handled P app opts req w u Hu Hne Hpre). cbn [effects].
        left. apply (stage_effects_observed _ (preExecute_stage P app opts req _ w)).
      + pose proof (handler_continues P app opts req w u Hu Hne Hpre) as ->.
        cbn [effects].
        destruct (silent_effects_write_nothing _
                    (preExecute_silent P app opts req _ w Hpre))
          as (_ & _ & _ & Hw & Hs).
        rewrite List.filter_app, Hs, Forall_app. cbn [List.app].
        destruct (serveStatic_ssr (hd "" (JS.split "?" u))
                    (nth_error (JS.split "?" u) 1)
                    (final (preExecute P app opts req (hd "" (JS.split "?" u)) w)))
          as [Hn | [Hy Hf]]; [left; exact Hn | right; auto].
    - rewrite createStaticHandler_no_target by auto.
      right. split; [reflexivity | repeat constructor]. }
  destruct Hcases as [Hn | [Hy Hf]].
  - rewrite Hn. split; [simpl; lia|]. intros Hin.
    assert (Hf : In Ssr (List.filter isSsr
                           (effects (createStaticHandler P app opts req w))))
      by (apply filter_In; auto).
    rewrite Hn in Hf. destruct Hf.
  - rewrite Hy. split; [simpl; lia | intros _; exact Hf].
Qed.

(** X14: in every dispatch the middleware is invoked at most once, and
    only with a context marked prerendered, with empty params and locals,
    no site and no route pattern. *)
Theorem middleware_invoked_at_most_once (w : NodeApp.World) :
  let fx := effects (createStaticHandler P app opts req w) in
  length (invocations fx) <= 1
  /\ Forall (fun ctx => NodeApp.isPrerendered ctx = true
                        /\ NodeApp.ctx_params ctx = Some []
                        /\ NodeApp.ctx_locals ctx = []
                        /\ NodeApp.ctx_site ctx = None
                        /\ NodeApp.routePattern ctx = None)
       (invocations fx).
Proof.
  cbv zeta.
  assert (Hcases :
            invocations (effects (createStaticHandler P app opts req w)) = []
            \/ exists request,
                 invocations (effects (createStaticHandler P app opts req w))
                 = [staticContext request]).
  { destruct (NodeApp.url req) as [u|] eqn:Hu;
      [destruct (String.eqb_spec u "") as [->|Hne]|].
    - rewrite createStaticHandler_no_target by auto. left. reflexivity.
    - pose proof (preExecute_invocations P app opts req (hd "" (JS.split "?" u)) w)
        as Hinv.
      destruct (preExecute_total P app opts req (hd "" (JS.split "?" u)) w)
        as [[|] Hpre].
      + rewrite (handler_handled P app opts req w u Hu Hne Hpre). exact Hinv.
      + pose proof (handler_continues P app opts req w u Hu Hne Hpre) as ->.
        cbn [effects]. unfold invocations in *. rewrite flat_map_app.
        fold (invocations
                (effects (serveStatic P app opts req (hd "" (JS.split "?" u))
                            (nth_error (JS.split "?" u) 1)
                            (final (preExecute P app opts req
                                      (hd "" (JS.split "?" u)) w))))).
        rewrite (static_effects_observed _ (serveStatic_stage P app opts req _ _ _)).
        rewrite app_nil_r. exact Hinv.
    - rewrite createStaticHandler_no_target by auto. left. reflexivity. }
  destruct Hcases as [-> | [request ->]].
  - split; [simpl; lia | constructor].
  - split; [simpl; lia|]. repeat constructor.
Qed.

Lemma serveStatic_status (urlPath : string) (urlQuery : option string)
    (w : NodeApp.World) :
  Forall (fun e => isStatusSetter e = false)
    (effects (serveStatic P app opts req urlPath urlQuery w))
  \/ ((trailingSlash opts = Some Never \/ trailingSlash opts = Some Always)
      /\ exists fx location,
           effects (serveStatic P app opts req urlPath urlQuery w) =
           (fx ++ [SetStatusCode 301; SetHeader "Location" location; End None])%list
           /\ Forall (fun e => isStatusSetter e = false) fx).
Proof.
  unfold serveStatic. rewrite bind_run.
  assert (Hinj : Forall (fun e => isStatusSetter e = false)
                   (effects (injectHeaders P app req urlPath w))).
  { eapply Forall_impl; [apply injectHeaders_only_headers|].
    intros [] He; (discriminate || reflexivity). }
  destruct (outcome (injectHeaders P app req urlPath w)) as [[]|e];
    cbn [effects]; [|left; exact Hinj].
  assert (Hstream : forall pathname w0,
             Forall (fun e => isStatusSetter e = false)
               (effects (streamFile P app opts req pathname w0))).
  { intros pathname w0. unfold streamFile.
    destruct (send P req _ _ _); repeat constructor. }
  destruct (trailingSlash opts) as [[| |]|]; simpl (default _ _);
    repeat match goal with
           | |- context [if ?b then _ else _] => destruct b
           end;
    try (left; apply Forall_app; split; [exact Hinj | apply Hstream]);
    right; (split; [auto|]); eexists _, _; rewrite redirect_effects;
    (split; [reflexivity | exact Hinj]).
Qed.

(** X15: the handler sets a status code on the response itself only to
    redirect: the code is 301, the mode is [never] or [always], and the
    status is followed by a [Location] header and the end of the response.
    Under mode [ignore], or without a mode, it never does. *)
Theorem status_code_set_only_to_redirect (w : NodeApp.World) (code : nat) :
  In (SetStatusCode code) (effects (createStaticHandler P app opts req w)) ->
  code = 301
  /\ (trailingSlash opts = Some Never \/ trailingSlash opts = Some Always)
  /\ exists fx location,
       effects (createStaticHandler P app opts req w) =
       (fx ++ [SetStatusCode 301; SetHeader "Location" location; End None])%list
       /\ Forall (fun e => isStatusSetter e = false) fx.
Proof.
  assert (Hnone : forall fx,
             Forall (fun e => isStatusSetter e = false) fx ->
             ~ In (SetStatusCode code) fx).
  { intros fx Hfx Hin. rewrite List.Forall_forall in Hfx.
    specialize (Hfx _ Hin). discriminate. }
  assert (Hlast : forall fx location,
             Forall (fun e => isStatusSetter e = false) fx ->
             In (SetStatusCode code)
               (fx ++ [SetStatusCode 301; SetHeader "Location" location; End None]) ->
             code = 301).
  { intros fx location Hfx Hin. apply in_app_or in Hin as [Hin | Hin].
    - exfalso. exact (Hnone fx Hfx Hin).
    - destruct Hin as [Heq | [Heq | [Heq | []]]]; try discriminate.
      now injection Heq. }
  destruct (NodeApp.url req) as [u|] eqn:Hu;
    [destruct (String.eqb_spec u "") as [->|Hne]|].
  - rewrite createStaticHandler_no_target by auto.
    intros [Heq | []]. discriminate.
  - destruct (preExecute_total P app opts req (hd "" (JS.split "?" u)) w)
      as [[|] Hpre].
    + rewrite (handler_handled P app opts req w u Hu Hne Hpre). cbn [effects].
      intros Hin. exfalso. refine (Hnone _ _ Hin).
      apply (stage_effects_observed _ (preExecute_stage P app opts req _ w)).
    + pose proof (handler_continues P app opts req w u Hu Hne Hpre) as ->.
      cbn [effects].
      pose proof (proj2 (proj2 (stage_effects_observed _
                                  (preExecute_stage P app opts req
                                     (hd "" (JS.split "?" u)) w)))) as Hpq.
      destruct (serveStatic_status (hd "" (JS.split "?" u))
                  (nth_error (JS.split "?" u) 1)
                  (final (preExecute P app opts req (hd "" (JS.split "?" u)) w)))
        as [Hn | (Hmode & fx & location & -> & Hfx)].
      * intros Hin. exfalso. refine (Hnone _ _ Hin).
        apply Forall_app. split; assumption.
      * rewrite app_assoc. intros Hin.
        assert (Hall : Forall (fun e => isStatusSetter e = false)
                         (effects (preExecute P app opts req
                                     (hd "" (JS.split "?" u)) w) ++ fx))
          by (apply Forall_app; split; assumption).
        split; [exact (Hlast _ _ Hall Hin)|]. split; [exact Hmode|].
        eexists _, location. split; [reflexivity | exact Hall].
  - rewrite createStaticHandler_no_target by auto.
    intros [Heq | []]. discriminate.
Qed.

End EveryDispatch.

(** ** The dispatcher: what the middleware decides *)

Section MiddlewareDecides.

Import Dispatch ServeStatic.

Variables (P : Platform) (app : NodeApp.App) (opts : Options)
          (req : NodeApp.NodeRequest).

(** The middleware block when the middleware is there, the adaptation
    succeeds and the middleware settles. *)
Lemma preExecute_settled (w w1 : NodeApp.World) (urlPath : string)
    (m : NodeApp.MiddlewareModule) (h : NodeApp.MiddlewareHandler)
    (request : NodeApp.Request) (cookies : list string) (nextCalled : bool)
    (response : option Response) :
  runMiddlewareOnRequest opts = true ->
  isPrerenderedHTMLPage urlPath = true ->
  NodeApp.middleware (NodeApp.manifest app) = NodeApp.Loaded m
  \/ NodeApp.middleware (NodeApp.manifest app) = NodeApp.Loader (Ok (Some m)) ->
  NodeApp.onRequest m = Some h ->
  NodeApp.createRequest (host P) req
    (NodeApp.mkOptions false (default [] (NodeApp.getAllowedDomains app))) w
  = (Ok request, w1) ->
  h (staticContext request) = NodeApp.MwSettles cookies nextCalled response ->
  exists load,
    (load = [] \/ load = [MiddlewareLoad])
    /\ preExecute P app opts req urlPath w =
       match nextCalled, response with
       | false, Some r =>
           mkRun (load ++ MiddlewareInvoked (staticContext request)
                       :: effects (writeResponse r w1))
             (final (writeResponse r w1)) (Ok true)
       | _, _ =>
           mkRun (load ++ [MiddlewareInvoked (staticContext request)]) w1 (Ok false)
       end.
Proof.
  intros Hrun Hpage Hm Hh Hc Hsettle.
  destruct (attemptMiddleware_with_handler P app req m h w Hm Hh)
    as (load & Hload & Ha).
  exists load. split; [exact Hload|].
  unfold preExecute. rewrite Hrun, Hpage. cbn [andb].
  unfold runMiddleware, tryCatch. rewrite Ha. cbn [outcome effects final].
  pose proof (executeMiddlewareForStatic_run P app req h w) as Hexec.
  rewrite Hc, Hsettle in Hexec.
  destruct nextCalled, response as [r|]; rewrite Hexec; reflexivity.
Qed.

(** X11: when the middleware returns a response without calling [next],
    that response is what the client gets: its status and its headers are
    the only ones sent, no file is streamed, SSR is not invoked, no
    redirect is issued, and the trailing-slash mode and the file system
    play no part. *)
Theorem middleware_response_is_final (w w1 : NodeApp.World) (u : string)
    (m : NodeApp.MiddlewareModule) (h : NodeApp.MiddlewareHandler)
    (request : NodeApp.Request) (cookies : list string) (r : Response) :
  NodeApp.url req = Some u -> u <> "" ->
  runMiddlewareOnRequest opts = true ->
  isPrerenderedHTMLPage (hd "" (JS.split "?" u)) = true ->
  NodeApp.middleware (NodeApp.manifest app) = NodeApp.Loaded m
  \/ NodeApp.middleware (NodeApp.manifest app) = NodeApp.Loader (Ok (Some m)) ->
  NodeApp.onRequest m = Some h ->
  NodeApp.createRequest (host P) req
    (NodeApp.mkOptions false (default [] (NodeApp.getAllowedDomains app))) w
  = (Ok request, w1) ->
  h (staticContext request) = NodeApp.MwSettles cookies false (Some r) ->
  let run := createStaticHandler P app opts req w in
  outcome run = Ok tt
  /\ sentStatus (effects run) = [status r]
  /\ sentHeaders (effects run) = resp_headers r
  /\ invocations (effects run) = [staticContext request]
  /\ Forall (fun e => isServing e = false) (effects run)
  /\ Forall (fun e => isStatusSetter e = false) (effects run).
Proof.
  intros Hu Hne Hrun Hpage Hm Hh Hc Hsettle. cbv zeta.
  destruct (preExecute_settled w w1 _ m h request cookies false (Some r)
              Hrun Hpage Hm Hh Hc Hsettle) as (load & Hload & Hpre).
  assert (Hout : outcome (preExecute P app opts req (hd "" (JS.split "?" u)) w)
                 = Ok true) by (rewrite Hpre; reflexivity).
  rewrite (handler_handled P app opts req w u Hu Hne Hout), Hpre.
  cbn [outcome effects final].
  destruct (writeResponse_run r w1) as (body & w' & -> & Hb).
  cbn [effects].
  destruct Hload as [-> | ->], Hb as [-> | [chunk ->]]; simpl;
    rewrite ?app_nil_r; repeat split; repeat constructor.
Qed.

(** X12: when the middleware calls [next], or returns nothing, the
    dispatch goes on with the static stage, from the world the adaptation
    left: after the invocation the handler's effects, outcome and final
    world are those of the static stage, and whatever response the
    middleware returned is not written. *)
Theorem middleware_defers_to_static (w w1 : NodeApp.World) (u : string)
    (m : NodeApp.MiddlewareModule) (h : NodeApp.MiddlewareHandler)
    (request : NodeApp.Request) (cookies : list string) (nextCalled : bool)
    (response : option Response) :
  NodeApp.url req = Some u -> u <> "" ->
  runMiddlewareOnRequest opts = true ->
  isPrerenderedHTMLPage (hd "" (JS.split "?" u)) = true ->
  NodeApp.middleware (NodeApp.manifest app) = NodeApp.Loaded m
  \/ NodeApp.middleware (NodeApp.manifest app) = NodeApp.Loader (Ok (Some m)) ->
  NodeApp.onRequest m = Some h ->
  NodeApp.createRequest (host P) req
    (NodeApp.mkOptions false (default [] (NodeApp.getAllowedDomains app))) w
  = (Ok request, w1) ->
  h (staticContext request) = NodeApp.MwSettles cookies nextCalled response ->
  nextCalled = true \/ response = None ->
  let static := serveStatic P app opts req (hd "" (JS.split "?" u))
                  (nth_error (JS.split "?" u) 1) w1 in
  let run := createStaticHandler P app opts req w in
  (exists load,
     (load = [] \/ load = [MiddlewareLoad])
     /\ effects run =
        (load ++ MiddlewareInvoked (staticContext request) :: effects static)%list)
  /\ outcome run = outcome static
  /\ final run = final static
  /\ sentStatus (effects run) = sentStatus (effects static)
  /\ sentHeaders (effects run) = sentHeaders (effects static).
Proof.
  intros Hu Hne Hrun Hpage Hm Hh Hc Hsettle Hdefer. cbv zeta.
  destruct (preExecute_settled w w1 _ m h request cookies nextCalled response
              Hrun Hpage Hm Hh Hc Hsettle) as (load & Hload & Hpre).
  assert (Hpre' : preExecute P app opts req (hd "" (JS.split "?" u)) w =
                  mkRun (load ++ [MiddlewareInvoked (staticContext request)])
                    w1 (Ok false)).
  { rewrite Hpre. destruct Hdefer as [-> | ->]; [reflexivity|].
    destruct nextCalled; reflexivity. }
  assert (Hout : outcome (preExecute P app opts req (hd "" (JS.split "?" u)) w)
                 = Ok false) by (rewrite Hpre'; reflexivity).
  pose proof (handler_continues P app opts req w u Hu Hne Hout) as Hgo.
  cbv zeta in Hgo. rewrite Hgo, Hpre'. cbn [outcome effects final].
  rewrite <- app_assoc. cbn [List.app].
  split; [exists load; auto|]. split; [reflexivity|]. split; [reflexivity|].
  unfold sentStatus, sentHeaders. rewrite !flat_map_app.
  destruct Hload as [-> | ->]; split; reflexivity.
Qed.

End MiddlewareDecides.

(** ** Pages and assets *)

Lemma toLowerAscii_dot (d : ascii) :
  Ascii.eqb (JS.toLowerAscii d) "." = Ascii.eqb d ".".
Proof. destruct d as [[] [] [] [] [] [] [] []]; reflexivity. Qed.

Lemma lacks_dot_toLowerCase (s : string) :
  JS.lacks "." (JS.toLowerCase s) = JS.lacks "." s.
Proof.
  induction s as [|d s IH]; simpl; [reflexivity|].
  now rewrite toLowerAscii_dot, IH.
Qed.

Lemma endsWith_needs_dot (ext t : string) :
  JS.lacks "." t = true -> JS.endsWith (String "." ext) t = false.
Proof.
  induction t as [|c t IH]; [reflexivity|]. intros Hl.
  cbn [JS.lacks] in Hl.
  apply andb_true_iff in Hl as [Hc Ht]. apply negb_true_iff in Hc.
  cbn [JS.endsWith]. rewrite (IH Ht), orb_false_r.
  apply String.eqb_neq. intros Heq. injection Heq as Hd _. subst c.
  now rewrite Ascii.eqb_refl in Hc.
Qed.

Lemma hasAssetExtension_needs_dot (urlPath : string) :
  JS.lacks "." urlPath = true -> ServeStatic.hasAssetExtension urlPath = false.
Proof.
  intros Hl. apply not_true_is_false. intros Hex.
  unfold ServeStatic.hasAssetExtension in Hex.
  apply existsb_exists in Hex as (ext & _ & Hends).
  change ("." +:+ ext) with (String "." ext) in Hends.
  rewrite endsWith_needs_dot in Hends; [discriminate|].
  now rewrite lacks_dot_toLowerCase.
Qed.

(** X16: a path without a dot that does not begin with [/_astro/] is an
    HTML page, whatever the query of the request is (a query ending in
    [.css] does not make the request an asset): with
    [runMiddlewareOnRequest] the handler runs the middleware block for it,
    and without it never does. *)
Theorem dotless_paths_are_pages (P : ServeStatic.Platform) (app : NodeApp.App)
    (opts : ServeStatic.Options) (req : NodeApp.NodeRequest)
    (path tail : string) :
  JS.lacks "." path = true ->
  JS.lacks "?" path = true ->
  JS.startsWith "/_astro/" path = false ->
  tail = "" \/ (exists rest, tail = String "?" rest) ->
  ServeStatic.isPrerenderedHTMLPage path = true
  /\ ServeStatic.preExecute P app opts req (hd "" (JS.split "?" (path +:+ tail)))
     = if ServeStatic.runMiddlewareOnRequest opts
       then ServeStatic.runMiddleware P app req
       else Dispatch.ret false.
Proof.
  intros Hdot Hq Hprefix Htail.
  assert (Hpage : ServeStatic.isPrerenderedHTMLPage path = true).
  { unfold ServeStatic.isPrerenderedHTMLPage.
    rewrite Hprefix, (hasAssetExtension_needs_dot path Hdot). reflexivity. }
  split; [exact Hpage|].
  rewrite (path_of_target path tail Hq Htail).
  unfold ServeStatic.preExecute. rewrite Hpage, andb_true_r. reflexivity.
Qed.

Lemma dotless_paths_are_pages_witness :
  JS.lacks "." "/account" = true
  /\ ServeStatic.isPrerenderedHTMLPage "/account" = true
  /\ ServeStatic.preExecute Examples.platform (Examples.appWith Examples.greeter)
       (Examples.options ServeStatic.Ignore true) Cases.pageWithAssetQuery
       (hd "" (JS.split "?" ("/account" +:+ "?next=/a.css")))
     = ServeStatic.runMiddleware Examples.platform
         (Examples.appWith Examples.greeter) Cases.pageWithAssetQuery.
Proof.
  split; [reflexivity|].
  exact (dotless_paths_are_pages Examples.platform (Examples.appWith Examples.greeter)
           (Examples.options ServeStatic.Ignore true) Cases.pageWithAssetQuery
           "/account" "?next=/a.css" eq_refl eq_refl eq_refl
           (or_intror (ex_intro _ "next=/a.css" eq_refl))).
Defined.

(** X17: [shouldRunMiddleware] of serve-middleware.ts decides as the
    static handler does: for a non-empty path it is the flag and the page
    test together, the route data plays no part, and the handler runs its
    middleware block exactly when it says so.  Without a path, or with an
    empty one, it says no. *)
Theorem shouldRunMiddleware_is_the_handler_gate (P : ServeStatic.Platform)
    (app : NodeApp.App) (opts : ServeStatic.Options) (req : NodeApp.NodeRequest)
    (urlPath : string) (routeData : option NodeApp.RouteData) (flag : bool) :
  urlPath <> "" ->
  ServeMiddleware.shouldRunMiddleware (Some urlPath) routeData flag
    = flag && ServeStatic.isPrerenderedHTMLPage urlPath
  /\ ServeMiddleware.shouldRunMiddleware (Some urlPath) routeData flag
     = ServeMiddleware.shouldRunMiddleware (Some urlPath) None flag
  /\ ServeStatic.preExecute P app opts req urlPath
     = (if ServeMiddleware.shouldRunMiddleware (Some urlPath) routeData
             (ServeStatic.runMiddlewareOnRequest opts)
        then ServeStatic.runMiddleware P app req
        else Dispatch.ret false)
  /\ ServeMiddleware.shouldRunMiddleware None routeData flag = false
  /\ ServeMiddleware.shouldRunMiddleware (Some "") routeData flag = false.
Proof.
  intros Hne.
  assert (Hgate : forall rd f,
             ServeMiddleware.shouldRunMiddleware (Some urlPath) rd f
             = f && ServeStatic.isPrerenderedHTMLPage urlPath).
  { intros rd f. unfold ServeMiddleware.shouldRunMiddleware.
    rewrite isPrerenderedHTMLPage_same.
    destruct urlPath as [|c rest]; [contradiction|]. cbn [JS.truthy negb orb].
    destruct f, (ServeStatic.isPrerenderedHTMLPage (String c rest)); reflexivity. }
  split; [apply Hgate|]. split; [now rewrite !Hgate|].
  split; [|split; reflexivity].
  rewrite Hgate. reflexivity.
Qed.

Lemma shouldRunMiddleware_is_the_handler_gate_witness :
  "/account" <> ""
  /\ ServeMiddleware.shouldRunMiddleware (Some "/account") (Some Cases.sampleRoute) true
     = true && ServeStatic.isPrerenderedHTMLPage "/account".
Proof.
  assert (Hne : "/account" <> "") by discriminate.
  split; [exact Hne|].
  exact (proj1 (shouldRunMiddleware_is_the_handler_gate Examples.platform
                  (Examples.appWith Examples.greeter)
                  (Examples.options ServeStatic.Ignore true) Examples.page
                  "/account" (Some Cases.sampleRoute) true Hne)).
Defined.

(** ** Slashes *)

(** X18: [prependForwardSlash] leaves a path that begins with a slash as
    it is and puts one slash before any other path; [appendForwardSlash]
    leaves a path that ends with a slash as it is and puts one slash after
    any other path.  So the result always begins (ends) with a slash, and
    applying either helper twice is applying it once. *)
Theorem forward_slash_helpers (pth : string) :
  (JS.startsWith "/" pth = true -> ServeStatic.prependForwardSlash pth = pth)
  /\ (JS.startsWith "/" pth = false ->
      ServeStatic.prependForwardSlash pth = String "/" pth)
  /\ JS.startsWith "/" (ServeStatic.prependForwardSlash pth) = true
  /\ ServeStatic.prependForwardSlash (ServeStatic.prependForwardSlash pth)
     = ServeStatic.prependForwardSlash pth
  /\ (JS.endsWith "/" pth = true -> ServeStatic.appendForwardSlash pth = pth)
  /\ (JS.endsWith "/" pth = false ->
      ServeStatic.appendForwardSlash pth = pth +:+ "/")
  /\ JS.endsWith "/" (ServeStatic.appendForwardSlash pth) = true
  /\ ServeStatic.appendForwardSlash (ServeStatic.appendForwardSlash pth)
     = ServeStatic.appendForwardSlash pth.
Proof.
  assert (Hp : JS.startsWith "/" (ServeStatic.prependForwardSlash pth) = true).
  { unfold ServeStatic.prependForwardSlash.
    destruct (JS.startsWith "/" pth) eqn:Hs; [exact Hs|].
    apply (prefix_append "/" pth). }
  assert (Ha : JS.endsWith "/" (ServeStatic.appendForwardSlash pth) = true).
  { unfold ServeStatic.appendForwardSlash.
    destruct (JS.endsWith "/" pth) eqn:Hs; [exact Hs|].
    apply endsWith_append. }
  split; [intros Hs; unfold ServeStatic.prependForwardSlash; now rewrite Hs|].
  split; [intros Hs; unfold ServeStatic.prependForwardSlash; now rewrite Hs|].
  split; [exact Hp|]. split.
  { unfold ServeStatic.prependForwardSlash at 1. now rewrite Hp. }
  split; [intros Hs; unfold ServeStatic.appendForwardSlash; now rewrite Hs|].
  split; [intros Hs; unfold ServeStatic.appendForwardSlash; now rewrite Hs|].
  split; [exact Ha|].
  unfold ServeStatic.appendForwardSlash at 1. now rewrite Ha.
Qed.

(** [prependForwardSlash] and [appendForwardSlash] on paths that lack the
    slash and on paths that have it. *)
Lemma forward_slash_helpers_witness :
  ServeStatic.prependForwardSlash "blog/index.html" = "/blog/index.html"
  /\ ServeStatic.prependForwardSlash "/blog/index.html" = "/blog/index.html"
  /\ ServeStatic.appendForwardSlash "../client" = "../client/"
  /\ ServeStatic.appendForwardSlash "../client/" = "../client/".
Proof.
  destruct (forward_slash_helpers "blog/index.html") as (_ & Hp & _).
  destruct (forward_slash_helpers "/blog/index.html") as (Hp' & _).
  destruct (forward_slash_helpers "../client") as (_ & _ & _ & _ & _ & Ha & _).
  destruct (forward_slash_helpers "../client/") as (_ & _ & _ & _ & Ha' & _).
  split; [exact (Hp eq_refl)|]. split; [exact (Hp' eq_refl)|].
  split; [exact (Ha eq_refl) | exact (Ha' eq_refl)].
Defined.

Lemma middleware_response_is_final_witness :
  let app := Examples.appWith Examples.gatekeeper in
  let opts := Examples.options ServeStatic.Never true in
  let run := ServeStatic.createStaticHandler Examples.platform app opts
               Examples.page NodeApp.emptyWorld in
  NodeApp.url Examples.page = Some "/account"
  /\ ServeStatic.runMiddlewareOnRequest opts = true
  /\ Dispatch.outcome run = Ok tt
  /\ sentStatus (Dispatch.effects run) = [302]
  /\ sentHeaders (Dispatch.effects run) = [("Location", "/login")].
Proof.
  intros app opts run.
  split; [reflexivity|]. split; [reflexivity|].
  destruct (createRequest_resolved Examples.modelHost Examples.page
              (NodeApp.mkOptions false []) NodeApp.emptyWorld _ resolveURL_page)
    as (r & w1 & Hc & _).
  assert (Hne : "/account" <> "") by discriminate.
  destruct (middleware_response_is_final Examples.platform app opts Examples.page
              NodeApp.emptyWorld w1 "/account"
              (NodeApp.mkMiddlewareModule (Some Examples.gatekeeper))
              Examples.gatekeeper r ["session=abc; Path=/"]
              (mkResponse 302 "" [("Location", "/login")] None)
              eq_refl Hne eq_refl eq_refl (or_introl eq_refl) eq_refl Hc eq_refl)
    as (Hout & Hst & Hhd & _).
  split; [exact Hout|]. split; [exact Hst | exact Hhd].
Defined.

Lemma middleware_defers_to_static_witness :
  let app := Examples.appWith Examples.greeter in
  let opts := Examples.options ServeStatic.Ignore true in
  let run := ServeStatic.createStaticHandler Examples.platform app opts
               Examples.page NodeApp.emptyWorld in
  NodeApp.url Examples.page = Some "/account"
  /\ ServeStatic.runMiddlewareOnRequest opts = true
  /\ exists w1,
       Dispatch.outcome run
       = Dispatch.outcome
           (ServeStatic.serveStatic Examples.platform app opts Examples.page
              (hd "" (JS.split "?" "/account"))
              (nth_error (JS.split "?" "/account") 1) w1)
       /\ sentHeaders (Dispatch.effects run)
          = sentHeaders
              (Dispatch.effects
                 (ServeStatic.serveStatic Examples.platform app opts Examples.page
                    (hd "" (JS.split "?" "/account"))
                    (nth_error (JS.split "?" "/account") 1) w1)).
Proof.
  intros app opts run.
  split; [reflexivity|]. split; [reflexivity|].
  destruct (createRequest_resolved Examples.modelHost Examples.page
              (NodeApp.mkOptions false []) NodeApp.emptyWorld _ resolveURL_page)
    as (r & w1 & Hc & _).
  assert (Hne : "/account" <> "") by discriminate.
  destruct (middleware_defers_to_static Examples.platform app opts Examples.page
              NodeApp.emptyWorld w1 "/account"
              (NodeApp.mkMiddlewareModule (Some Examples.greeter))
              Examples.greeter r ["middleware-cookie=value; Path=/; HttpOnly"]
              true (Some emptyResponse)
              eq_refl Hne eq_refl eq_refl (or_introl eq_refl) eq_refl Hc eq_refl
              (or_introl eq_refl))
    as (_ & Hout & _ & _ & Hhd).
  exists w1. split; [exact Hout | exact Hhd].
Defined.

Lemma status_code_set_only_to_redirect_witness :
  let opts := Examples.options ServeStatic.Always false in
  let run := ServeStatic.createStaticHandler Examples.platform
               (Examples.appWith Examples.greeter) opts Cases.blog
               NodeApp.emptyWorld in
  In (SetStatusCode 301) (Dispatch.effects run)
  /\ (ServeStatic.trailingSlash opts = Some ServeStatic.Never
      \/ ServeStatic.trailingSlash opts = Some ServeStatic.Always).
Proof.
  intros opts run.
  assert (Hin : In (SetStatusCode 301) (Dispatch.effects run))
    by (vm_compute; left; reflexivity).
  split; [exact Hin|].
  exact (proj1 (proj2 (status_code_set_only_to_redirect Examples.platform
                         (Examples.appWith Examples.greeter) opts Cases.blog
                         NodeApp.emptyWorld 301 Hin))).
Defined.

(** ** The dispatcher: directories *)

Section Directories.

Import Dispatch ServeStatic.

Variables (P : Platform) (app : NodeApp.App) (opts : Options)
          (req : NodeApp.NodeRequest).

(** The static stage under modes [never] and [ignore], on a directory
    asked for without trailing slash. *)
Lemma serveStatic_directory_index (w : NodeApp.World) (urlPath : string)
    (urlQuery : option string) :
  default Ignore (trailingSlash opts) <> Always ->
  JS.endsWith "/" urlPath = false ->
  lstatIsDirectory P (pathJoin P (client opts) (NodeApp.removeBase app urlPath))
    = Some true ->
  outcome (injectHeaders P app req urlPath w) = Ok tt ->
  serveStatic P app opts req urlPath urlQuery w =
  mkRun (effects (injectHeaders P app req urlPath w)
         ++ effects (streamFile P app opts req (urlPath +:+ "/index.html")
                       (final (injectHeaders P app req urlPath w))))%list
    (final (streamFile P app opts req (urlPath +:+ "/index.html")
              (final (injectHeaders P app req urlPath w))))
    (outcome (streamFile P app opts req (urlPath +:+ "/index.html")
                (final (injectHeaders P app req urlPath w)))).
Proof.
  intros Hmode Hslash Hdir Hinj.
  unfold serveStatic. rewrite bind_run, Hinj, Hdir, Hslash. simpl (default _ _).
  destruct (default Ignore (trailingSlash opts)); [| |contradiction];
    simpl; rewrite ?andb_false_r; reflexivity.
Qed.

End Directories.

(** X19: under trailing-slash modes [never] and [ignore] (the default), a
    directory asked for without trailing slash is answered with its
    [index.html]: when the path (the target up to its first [?]) names a
    directory and has no trailing slash, the middleware block did not
    handle the request, the header-map lookup did not throw and [send]
    finds the file, the handler streams [index.html] of that path, with
    the base removed and a leading slash, and issues no redirect and no
    status of its own; SSR is not invoked, and the query plays no part in
    the file served. *)
Theorem directory_without_slash_serves_index (P : ServeStatic.Platform)
    (app : NodeApp.App) (opts : ServeStatic.Options) (req : NodeApp.NodeRequest)
    (w : NodeApp.World) (u : string) :
  default ServeStatic.Ignore (ServeStatic.trailingSlash opts) <> ServeStatic.Always ->
  NodeApp.url req = Some u ->
  u <> "" ->
  let path := hd "" (JS.split "?" u) in
  JS.endsWith "/" path = false ->
  ServeStatic.lstatIsDirectory P
    (ServeStatic.pathJoin P (ServeStatic.client opts) (NodeApp.removeBase app path))
    = Some true ->
  let index := ServeStatic.prependForwardSlash
                 (NodeApp.removeBase app (path +:+ "/index.html")) in
  ServeStatic.send P req index (ServeStatic.client opts)
    (JS.startsWith "/.well-known/" index) = ServeStatic.SendStreams ->
  Dispatch.outcome (ServeStatic.preExecute P app opts req path w) = Ok false ->
  Dispatch.outcome
    (ServeStatic.injectHeaders P app req path
       (Dispatch.final (ServeStatic.preExecute P app opts req path w))) = Ok tt ->
  let pre := ServeStatic.preExecute P app opts req path w in
  let inj := ServeStatic.injectHeaders P app req path (Dispatch.final pre) in
  let run := ServeStatic.createStaticHandler P app opts req w in
  (exists cache,
     Dispatch.effects run =
       (Dispatch.effects pre ++ Dispatch.effects inj ++ [StreamFile index cache])%list)
  /\ Dispatch.outcome run = Ok tt
  /\ sentStatus (Dispatch.effects run) = []
  /\ Forall (fun e => isStatusSetter e = false) (Dispatch.effects run)
  /\ List.filter isSsr (Dispatch.effects run) = [].
Proof.
  intros Hmode Hu Hne path Hslash Hdir index Hsend Hpre Hinj. cbv zeta.
  pose proof (handler_continues P app opts req w _ Hu Hne Hpre) as Hrun.
  cbv zeta in Hrun. rewrite Hrun. fold path.
  rewrite (serveStatic_directory_index P app opts req _ path
             (nth_error (JS.split "?" u) 1) Hmode Hslash Hdir Hinj).
  cbn [Dispatch.effects Dispatch.outcome Dispatch.final].
  unfold ServeStatic.streamFile. fold index. rewrite Hsend.
  cbn [Dispatch.emit Dispatch.effects Dispatch.outcome Dispatch.final].
  destruct (silent_effects_write_nothing _
              (preExecute_silent P app opts req path w Hpre))
    as (Hs1 & _ & _ & Hw1 & Hssr1).
  destruct (header_effects_write_nothing _
              (injectHeaders_only_headers P app req path
                 (Dispatch.final (ServeStatic.preExecute P app opts req path w))))
    as (Hs2 & _ & Hw2 & Hssr2 & _).
  assert (Hquiet : forall fx, Forall (fun e => isResponseWrite e = false) fx ->
                              Forall (fun e => isStatusSetter e = false) fx).
  { intros fx Hfx. eapply List.Forall_impl; [|exact Hfx].
    intros [] He; (discriminate || reflexivity). }
  split; [eexists; reflexivity|]. split; [reflexivity|]. split; [|split].
  - unfold sentStatus in *. rewrite !flat_map_app, Hs1, Hs2. reflexivity.
  - rewrite !Forall_app. repeat split; auto; repeat constructor.
  - rewrite !List.filter_app, Hssr1, Hssr2. reflexivity.
Qed.

Lemma directory_without_slash_serves_index_witness :
  let P := Examples.platform in
  let app := Examples.appWith Examples.greeter in
  let opts := Examples.options ServeStatic.Never true in
  let run := ServeStatic.createStaticHandler P app opts Cases.blogTwoQueries
               NodeApp.emptyWorld in
  NodeApp.url Cases.blogTwoQueries = Some "/blog?a=1?b=2"
  /\ ServeStatic.lstatIsDirectory P "/srv/client/blog" = Some true
  /\ Dispatch.outcome run = Ok tt
  /\ In (StreamFile "/blog/index.html" []) (Dispatch.effects run)
  /\ sentStatus (Dispatch.effects run) = [].
Proof.
  intros P app opts run.
  assert (Hmode : default ServeStatic.Ignore (ServeStatic.trailingSlash opts)
                  <> ServeStatic.Always) by discriminate.
  assert (Hpre : Dispatch.outcome
                   (ServeStatic.preExecute P app opts Cases.blogTwoQueries "/blog"
                      NodeApp.emptyWorld) = Ok false)
    by (vm_compute; reflexivity).
  assert (Hinj : Dispatch.outcome
                   (ServeStatic.injectHeaders P app Cases.blogTwoQueries "/blog"
                      (Dispatch.final
                         (ServeStatic.preExecute P app opts Cases.blogTwoQueries
                            "/blog" NodeApp.emptyWorld))) = Ok tt)
    by (vm_compute; reflexivity).
  assert (Hne : "/blog?a=1?b=2" <> "") by discriminate.
  destruct (directory_without_slash_serves_index P app opts Cases.blogTwoQueries
              NodeApp.emptyWorld "/blog?a=1?b=2"
              Hmode eq_refl Hne eq_refl eq_refl eq_refl Hpre Hinj)
    as ((cache & Heff) & Hout & Hst & _).
  split; [reflexivity|]. split; [reflexivity|]. split; [exact Hout|].
  split; [|exact Hst].
  fold run in Heff. rewrite Heff. apply in_or_app. right. apply in_or_app. right.
  assert (Hcache : cache = []).
  { assert (Hin : In (StreamFile "/blog/index.html" [])
                    (Dispatch.effects run)) by (vm_compute; right; left; reflexivity).
    rewrite Heff in Hin.
    apply in_app_or in Hin as [Hin | Hin];
      [exfalso; revert Hin; vm_compute; intros [Hx | []]; discriminate|].
    apply in_app_or in Hin as [Hin | Hin]; [destruct Hin|].
    destruct Hin as [Heq | []]. now injection Heq. }
  rewrite Hcache. left. reflexivity.
Defined.

(** ** NodeApp: the middleware helpers *)

Lemma appendCookies_keeps (cookies : list string) (r : Response) :
  status (NodeApp.appendCookies cookies r) = status r
  /\ statusText (NodeApp.appendCookies cookies r) = statusText r
  /\ resp_body (NodeApp.appendCookies cookies r) = resp_body r.
Proof.
  unfold NodeApp.appendCookies. revert r.
  induction cookies as [|c cookies IH]; intros r; simpl; [auto|].
  destruct (IH (appendHeader "set-cookie" c r)) as (-> & -> & ->).
  destruct r; auto.
Qed.

(** X20: [getUserDefinedLocales] on an array of locales keeps the entries
    that are plain codes, in their order, and drops the locale objects
    (also their [codes]). *)
Theorem getUserDefinedLocales_keeps_plain_codes (app : NodeApp.App)
    (i : NodeApp.I18n) (entries : list NodeApp.LocaleEntry) :
  NodeApp.i18n (NodeApp.manifest app) = Some i ->
  NodeApp.locales i = Some (NodeApp.LocalesArray entries) ->
  (forall c, In c (NodeApp.getUserDefinedLocales app)
             <-> In (NodeApp.LocaleCode c) entries)
  /\ map NodeApp.LocaleCode (NodeApp.getUserDefinedLocales app)
     = List.filter (fun l => match l with
                             | NodeApp.LocaleCode _ => true
                             | NodeApp.LocaleObject _ _ => false
                             end) entries.
Proof.
  intros Hi Hl. unfold NodeApp.getUserDefinedLocales. rewrite Hi, Hl.
  clear Hi Hl. split.
  - intros c. induction entries as [|[d|p codes] entries IH]; simpl.
    + tauto.
    + rewrite IH. split.
      * intros [-> | Hin]; auto.
      * intros [Heq | Hin]; [injection Heq as ->|]; auto.
    + rewrite IH. split; [auto|]. intros [Heq | Hin]; [discriminate | exact Hin].
  - induction entries as [|[d|p codes] entries IH]; simpl;
      [reflexivity | f_equal; exact IH | exact IH].
Qed.

Lemma getUserDefinedLocales_keeps_plain_codes_witness :
  NodeApp.getUserDefinedLocales Cases.localisedApp = ["en"; "fr"]
  /\ (In "es" (NodeApp.getUserDefinedLocales Cases.localisedApp)
      <-> In (NodeApp.LocaleCode "es")
            [NodeApp.LocaleCode "en";
             NodeApp.LocaleObject "spanish" ["es"; "es-AR"];
             NodeApp.LocaleCode "fr"]).
Proof.
  split; [reflexivity|].
  exact (proj1 (getUserDefinedLocales_keeps_plain_codes Cases.localisedApp _ _
                  eq_refl eq_refl) "es").
Defined.

(** X21: [createMiddlewareContext] fails in one case only: [manifest.site]
    is a non-empty text the [URL] constructor refuses.  Then it throws
    that constructor's TypeError, and so does [executeMiddlewareOnly],
    whatever the middleware is.  In every other case it returns a context.
    A context it returns is for the request it was given, prerendered
    exactly when the route data says so, with the route of the route data
    as pattern, the locales of [getUserDefinedLocales], the locals it was
    given, and as site the parsed [manifest.site], or none when
    [manifest.site] is absent or empty. *)
Theorem createMiddlewareContext_fails_only_on_site (H : NodeApp.Host)
    (app : NodeApp.App) (request : NodeApp.Request)
    (routeData : option NodeApp.RouteData)
    (locals : option (list (string * string))) :
  let made := NodeApp.createMiddlewareContext H app request routeData locals in
  (forall s, NodeApp.site (NodeApp.manifest app) = Some s -> s <> "" ->
             NodeApp.newURL H s = None ->
             made = Throw NodeApp.invalidURL
             /\ forall mw, NodeApp.executeMiddlewareOnly H app request routeData
                             mw locals = Throw NodeApp.invalidURL)
  /\ (NodeApp.site (NodeApp.manifest app) = None
      \/ NodeApp.site (NodeApp.manifest app) = Some ""
      \/ (exists s u, NodeApp.site (NodeApp.manifest app) = Some s
                      /\ NodeApp.newURL H s = Some u) ->
      exists ctx, made = Ok ctx)
  /\ (forall ctx, made = Ok ctx ->
        NodeApp.ctx_request ctx = request
        /\ NodeApp.isPrerendered ctx
           = match routeData with Some rd => NodeApp.prerender rd | None => false end
        /\ NodeApp.routePattern ctx = option_map NodeApp.route routeData
        /\ NodeApp.ctx_userDefinedLocales ctx = NodeApp.getUserDefinedLocales app
        /\ NodeApp.ctx_locals ctx = default [] locals
        /\ NodeApp.ctx_site ctx
           = match NodeApp.site (NodeApp.manifest app) with
             | Some s => if JS.truthy s then NodeApp.newURL H s else None
             | None => None
             end).
Proof.
  cbv zeta.
  unfold NodeApp.executeMiddlewareOnly, NodeApp.createMiddlewareContext,
    NodeApp.siteURL.
  destruct (NodeApp.site (NodeApp.manifest app)) as [[|c s']|] eqn:Hs.
  - split; [intros s [= <-] Hne; contradiction|].
    split; [intros _; eexists; reflexivity|].
    intros ctx [= <-]. cbn.
    repeat split; destruct routeData as [rd|]; try reflexivity;
      destruct (NodeApp.prerender rd); reflexivity.
  - cbn [JS.truthy].
    destruct (NodeApp.newURL H (String c s')) as [u|] eqn:Hnew.
    + split; [intros s [= <-] _ Hno; congruence|].
      split; [intros _; eexists; reflexivity|].
      intros ctx [= <-]. cbn.
      repeat split; destruct routeData as [rd|]; try reflexivity;
        destruct (NodeApp.prerender rd); reflexivity.
    + split; [intros s _ _ _; split; reflexivity|].
      split; [|intros ctx Hctx; discriminate].
      intros [Hx | [Hx | (s & u & Hx & Hu)]]; try discriminate.
      injection Hx as <-. congruence.
  - split; [intros s Hx; discriminate|].
    split; [intros _; eexists; reflexivity|].
    intros ctx [= <-]. cbn.
    repeat split; destruct routeData as [rd|]; try reflexivity;
      destruct (NodeApp.prerender rd); reflexivity.
Qed.

Lemma createMiddlewareContext_fails_only_on_site_witness :
  NodeApp.site (NodeApp.manifest Cases.brokenSiteApp) = Some "not a url"
  /\ NodeApp.executeMiddlewareOnly Examples.modelHost Cases.brokenSiteApp
       Cases.sampleRequest None Examples.greeter None
     = Throw NodeApp.invalidURL
  /\ exists ctx,
       NodeApp.createMiddlewareContext Examples.modelHost Cases.localisedApp
         Cases.sampleRequest (Some Cases.sampleRoute) None = Ok ctx
       /\ NodeApp.ctx_site ctx
          = Some (Url.mkURL "https" "example.com" None "")
       /\ NodeApp.isPrerendered ctx = true.
Proof.
  split; [reflexivity|]. split.
  - refine (proj2 (proj1 (createMiddlewareContext_fails_only_on_site
                            Examples.modelHost Cases.brokenSiteApp
                            Cases.sampleRequest None None)
                     "not a url" eq_refl _ _) Examples.greeter);
      [discriminate | vm_compute; reflexivity].
  - destruct (createMiddlewareContext_fails_only_on_site Examples.modelHost
                Cases.localisedApp Cases.sampleRequest (Some Cases.sampleRoute) None)
      as (_ & Hmade & Hfields).
    destruct Hmade as [ctx Hctx].
    { right. right. eexists _, _. split; [reflexivity | vm_compute; reflexivity]. }
    exists ctx. split; [exact Hctx|].
    destruct (Hfields ctx Hctx) as (_ & Hpre & _ & _ & _ & Hsite).
    split; [rewrite Hsite; vm_compute; reflexivity | exact Hpre].
Defined.

(** X22: what [executeMiddlewareOnly] does once the context is built and
    the middleware settles.  When the middleware returned a response with
    immutable headers and a cookie was recorded on the context, appending
    the cookie throws the TypeError of [headers.append].  Otherwise it
    returns: [handled] holds exactly when the middleware returned a
    response without calling [next]; a returned response comes back with
    its status and body and with one [set-cookie] header appended per
    recorded cookie, after the headers it had, whether or not [next] was
    called; no response comes back as none. *)
Theorem executeMiddlewareOnly_result (H : NodeApp.Host) (app : NodeApp.App)
    (request : NodeApp.Request) (routeData : option NodeApp.RouteData)
    (mw : NodeApp.MiddlewareHandler) (locals : option (list (string * string)))
    (ctx : NodeApp.APIContext) (cookies : list string) (nextCalled : bool)
    (response : option Response) :
  NodeApp.createMiddlewareContext H app request routeData locals = Ok ctx ->
  mw ctx = NodeApp.MwSettles cookies nextCalled response ->
  let result := NodeApp.executeMiddlewareOnly H app request routeData mw locals in
  match response with
  | Some r =>
      (immutableHeaders r = true -> cookies <> [] ->
       result = Throw immutableHeadersError)
      /\ (immutableHeaders r = false \/ cookies = [] ->
          exists merged,
            result = Ok (NodeApp.mkMiddlewareResult (negb nextCalled) (Some merged))
            /\ resp_headers merged
               = (resp_headers r ++ map (fun c => ("set-cookie", c)) cookies)%list
            /\ setCookies (resp_headers merged)
               = (setCookies (resp_headers r) ++ cookies)%list
            /\ status merged = status r
            /\ resp_body merged = resp_body r)
  | None => result = Ok (NodeApp.mkMiddlewareResult false None)
  end.
Proof.
  intros Hctx Hmw. cbv zeta.
  unfold NodeApp.executeMiddlewareOnly. rewrite Hctx, Hmw.
  destruct response as [r|]; [|reflexivity].
  unfold NodeApp.appendThrows. split.
  - intros -> Hne. destruct cookies; [contradiction | reflexivity].
  - intros Hfree.
    assert (Happ : immutableHeaders r
                   && match cookies with [] => false | _ :: _ => true end = false).
    { destruct Hfree as [-> | ->]; [reflexivity | apply andb_false_r]. }
    rewrite Happ.
    destruct (appendCookies_keeps cookies r) as (Hst & _ & Hb).
    assert (Hset : setCookies (resp_headers (NodeApp.appendCookies cookies r))
                   = (setCookies (resp_headers r) ++ cookies)%list).
    { rewrite appendCookies_headers. unfold setCookies at 1.
      rewrite filter_app, map_app. fold (setCookies (resp_headers r)).
      fold (setCookies (map (fun c => ("set-cookie", c)) cookies)).
      now rewrite setCookies_recorded. }
    exists (NodeApp.appendCookies cookies r).
    split; [destruct nextCalled; reflexivity|].
    split; [apply appendCookies_headers | auto].
Qed.

Lemma executeMiddlewareOnly_result_witness :
  (exists merged,
     NodeApp.executeMiddlewareOnly Examples.modelHost Cases.localisedApp
       Cases.sampleRequest (Some Cases.sampleRoute) Examples.greeter None
     = Ok (NodeApp.mkMiddlewareResult false (Some merged))
     /\ setCookies (resp_headers merged)
        = ["middleware-cookie=value; Path=/; HttpOnly"])
  /\ NodeApp.executeMiddlewareOnly Examples.modelHost Cases.localisedApp
       Cases.sampleRequest (Some Cases.sampleRoute) Cases.redirector None
     = Throw immutableHeadersError.
Proof.
  assert (Hctx : exists ctx,
             NodeApp.createMiddlewareContext Examples.modelHost Cases.localisedApp
               Cases.sampleRequest (Some Cases.sampleRoute) None = Ok ctx)
    by (vm_compute; eexists; reflexivity).
  destruct Hctx as [ctx Hctx]. split.
  - destruct (proj2 (executeMiddlewareOnly_result Examples.modelHost
                       Cases.localisedApp Cases.sampleRequest
                       (Some Cases.sampleRoute) Examples.greeter None ctx
                       ["middleware-cookie=value; Path=/; HttpOnly"] true
                       (Some emptyResponse) Hctx eq_refl) (or_introl eq_refl))
      as (merged & Hres & _ & Hset & _).
    exists merged. split; [exact Hres | exact Hset].
  - refine (proj1 (executeMiddlewareOnly_result Examples.modelHost
                     Cases.localisedApp Cases.sampleRequest
                     (Some Cases.sampleRoute) Cases.redirector None ctx
                     ["session=abc; Path=/"] false
                     (Some Cases.redirectResponse) Hctx eq_refl) eq_refl _).
    discriminate.
Defined.

(** X23: [executeMiddlewareForStatic] of serve-middleware.ts returns what
    [executeMiddlewareOnly] returns, and when that throws it throws an
    Error object in every case: an Error is passed on as it is, and any
    other thrown value becomes an Error whose message is that value as
    text. *)
Theorem executeMiddlewareForStatic_throws_errors_only (H : NodeApp.Host)
    (request : NodeApp.Request) (routeData : option NodeApp.RouteData)
    (mw : NodeApp.MiddlewareHandler) (app : NodeApp.App)
    (locals : option (list (string * string))) :
  let wrapped := ServeMiddleware.executeMiddlewareForStatic H request routeData
                   mw app locals in
  let inner := NodeApp.executeMiddlewareOnly H app request routeData mw locals in
  (forall result, wrapped = Ok result <-> inner = Ok result)
  /\ (forall e, wrapped = Throw e -> exists name message, e = ErrorObject name message)
  /\ (forall name message,
        inner = Throw (ErrorObject name message) ->
        wrapped = Throw (ErrorObject name message))
  /\ (forall text,
        inner = Throw (OtherValue text) ->
        wrapped = Throw (ErrorObject "Error" text)).
Proof.
  cbv zeta. unfold ServeMiddleware.executeMiddlewareForStatic.
  destruct (NodeApp.executeMiddlewareOnly H app request routeData mw locals)
    as [result|[name message|text]]; cbn [ServeMiddleware.asError].
  - repeat split; try (intros; discriminate); auto.
  - repeat split; try (intros; discriminate).
    + intros e Heq. injection Heq as <-. eauto.
    + intros n m Heq. injection Heq as -> ->. reflexivity.
  - repeat split; try (intros; discriminate).
    + intros e Heq. injection Heq as <-. eauto.
    + intros t Heq. injection Heq as ->. reflexivity.
Qed.

Lemma executeMiddlewareForStatic_throws_errors_only_witness :
  ServeMiddleware.executeMiddlewareForStatic Examples.modelHost Cases.sampleRequest
    None Cases.throwsText (Examples.appWith Cases.throwsText) None
  = Throw (ErrorObject "Error" "denied").
Proof.
  exact (proj2 (proj2 (proj2
           (executeMiddlewareForStatic_throws_errors_only Examples.modelHost
              Cases.sampleRequest None Cases.throwsText
              (Examples.appWith Cases.throwsText) None))) "denied" eq_refl).
Defined.

(** X24: when [match] returns for a transport request, the request it
    handed to the router was adapted with [skipBody] set and the
    manifest's allowed domains: it has no body and no duplex marker,
    whatever the method and the body override are; its method is the
    transport request's, or GET when that is absent or empty; and the
    result is the router's for that request. *)
Theorem match_adapts_without_body (H : NodeApp.Host) (app : NodeApp.App)
    (req : NodeApp.NodeRequest) (allowPrerenderedRoutes : bool)
    (w w' : NodeApp.World) (routeData : option NodeApp.RouteData) :
  NodeApp.matchRoute H app req allowPrerenderedRoutes w = (Ok routeData, w') ->
  exists request,
    NodeApp.createRequest H req
      (NodeApp.mkOptions true
         (NodeApp.manifestAllowedDomains (NodeApp.manifest app))) w
    = (Ok request, w')
    /\ NodeApp.req_body request = None
    /\ NodeApp.req_duplex request = None
    /\ (forall m, NodeApp.method req = Some m -> m <> "" ->
                  NodeApp.req_method request = m)
    /\ (NodeApp.method req = None \/ NodeApp.method req = Some "" ->
        NodeApp.req_method request = "GET")
    /\ routeData = NodeApp.superMatch app request allowPrerenderedRoutes.
Proof.
  unfold NodeApp.matchRoute.
  destruct (NodeApp.createRequest H req _ w) as [[request|e] w1] eqn:Hc;
    intros Heq; [|discriminate]. injection Heq as <- <-.
  exists request. split; [reflexivity|].
  destruct (createRequest_fields H req _ w w1 request Hc) as (Hm & Hb & Hd & _).
  rewrite (bodyAllowed_false req (NodeApp.mkOptions true _)) in Hb, Hd
    by (right; right; reflexivity).
  split; [exact Hb|]. split; [exact Hd|]. split; [|split; [|reflexivity]].
  - intros m Hmeth Hne. rewrite Hm. unfold NodeApp.requestMethod. rewrite Hmeth.
    destruct m; [contradiction | reflexivity].
  - intros Hmeth. rewrite Hm. apply requestMethod_default, Hmeth.
Qed.

Lemma match_adapts_without_body_witness :
  exists routeData w' request,
    NodeApp.matchRoute Examples.modelHost (Examples.appWith Examples.greeter)
      Examples.postWithEmptyBody true NodeApp.emptyWorld = (Ok routeData, w')
    /\ NodeApp.createRequest Examples.modelHost Examples.postWithEmptyBody
         (NodeApp.mkOptions true []) NodeApp.emptyWorld = (Ok request, w')
    /\ NodeApp.req_method request = "POST"
    /\ NodeApp.req_body request = None.
Proof.
  destruct (createRequest_resolved Examples.modelHost Examples.postWithEmptyBody
              (NodeApp.mkOptions true []) NodeApp.emptyWorld _
              resolveURL_postWithEmptyBody) as (r & w' & Hc & _).
  assert (Hm : NodeApp.matchRoute Examples.modelHost
                 (Examples.appWith Examples.greeter)
                 Examples.postWithEmptyBody true NodeApp.emptyWorld
               = (Ok (NodeApp.superMatch (Examples.appWith Examples.greeter) r true),
                  w')).
  { unfold NodeApp.matchRoute.
    change (NodeApp.manifestAllowedDomains
              (NodeApp.manifest (Examples.appWith Examples.greeter))) with
      (@nil RemotePattern).
    rewrite Hc. reflexivity. }
  destruct (match_adapts_without_body Examples.modelHost
              (Examples.appWith Examples.greeter) Examples.postWithEmptyBody
              true NodeApp.emptyWorld w' _ Hm)
    as (request & Hc' & Hb & _ & Hmeth & _).
  eexists _, w', request. split; [exact Hm|]. split; [exact Hc'|].
  split; [|exact Hb]. apply (Hmeth "POST"); [reflexivity | discriminate].
Defined.
